(** * ACME account key roll-over: a shallow embedding of
      [tools/acme_account_rollover.py] and the properties of its specification.

    The development follows the script from its leaves up:
    - [Base64]: [_b64], the unpadded base64url encoder;
    - [Json]: the values the script builds and [json.dumps];
    - [Py]: dictionaries, exceptions, the store of mutable dictionaries and
      the state-and-exception monad in which the closures of
      [account_rollover] run;
    - [Acme]: [_openssl], [_get_private_acme_signature], [_sign_request],
      [_send_signed_request] and [account_rollover] themselves;
    - [Summary], [Numerals], [Endpoints], [Wire]: the vocabulary of the
      statements, and [Examples]: a certificate authority to run the script
      against;
    - the theorems, one group per component. *)

From Stdlib Require Import ZArith NArith List String Ascii Bool Lia.
From Stdlib.Strings Require Import Byte.
From Stdlib Require Import DecimalString HexadecimalString HexadecimalN.
From stdpp Require Import base list strings.
Import ListNotations.

Local Open Scope string_scope.
Local Open Scope list_scope.

Set Warnings "-register-all".

(* ===================================================================== *)
(** ** Base64URL codec                                                     *)
(* ===================================================================== *)

Module Base64.

(** The URL-safe alphabet of RFC 4648, section 5, as used by
    [base64.urlsafe_b64encode]. *)
Definition alphabet : list ascii :=
  list_ascii_of_string
    "ABCDEFGHIJKLMNOPQRSTUVWXYZabcdefghijklmnopqrstuvwxyz0123456789-_".

Definition pad : ascii := "="%char.

(** The character of a 6-bit value. *)
Definition b64_char (n : N) : ascii := nth (N.to_nat n) alphabet pad.

(** Three input bytes make one 24-bit group, written as four characters. *)
Definition group (x y z : N) : N := (x * 65536 + y * 256 + z)%N.

Definition sextet0 (n : N) : N := (n / 262144)%N.
Definition sextet1 (n : N) : N := ((n / 4096) mod 64)%N.
Definition sextet2 (n : N) : N := ((n / 64) mod 64)%N.
Definition sextet3 (n : N) : N := (n mod 64)%N.

(** [base64.urlsafe_b64encode]: the padded encoding. Its result is a byte
    string of ASCII characters; [.decode("utf8")] turns it into the same
    characters, so the model produces the characters at once. *)
Fixpoint urlsafe_b64encode (text : list byte) : list ascii :=
  match text with
  | [] => []
  | [a] =>
      let n := group (Byte.to_N a) 0 0 in
      [b64_char (sextet0 n); b64_char (sextet1 n); pad; pad]
  | [a; b] =>
      let n := group (Byte.to_N a) (Byte.to_N b) 0 in
      [b64_char (sextet0 n); b64_char (sextet1 n); b64_char (sextet2 n); pad]
  | a :: b :: c :: rest =>
      let n := group (Byte.to_N a) (Byte.to_N b) (Byte.to_N c) in
      b64_char (sextet0 n) :: b64_char (sextet1 n)
        :: b64_char (sextet2 n) :: b64_char (sextet3 n)
        :: urlsafe_b64encode rest
  end.

(** [str.rstrip(c)] for a one-character set: drop every trailing [c]. *)
Fixpoint rstrip (c : ascii) (l : list ascii) : list ascii :=
  match l with
  | [] => []
  | a :: t =>
      match rstrip c t with
      | [] => if Ascii.eqb a c then [] else [a]
      | r => a :: r
      end
  end.

(** The characters of [_b64(text)]: the padded encoding without its
    trailing ['=']. *)
Definition b64_chars (text : list byte) : list ascii :=
  rstrip pad (urlsafe_b64encode text).

(** [_b64(text)]:
    [base64.urlsafe_b64encode(text).decode("utf8").rstrip("=")]. *)
Definition _b64 (text : list byte) : string :=
  string_of_list_ascii (b64_chars text).

(** *** The reference decoder

    The script only encodes. The decoder below is the one of RFC 4648 for
    unpadded base64url text (what [base64.urlsafe_b64decode] computes once
    the padding is put back); it is what the round-trip property of the
    specification is stated against. *)

Fixpoint index_from (c : ascii) (l : list ascii) (i : N) : option N :=
  match l with
  | [] => None
  | a :: t => if Ascii.eqb a c then Some i else index_from c t (N.succ i)
  end.

Definition b64_index (c : ascii) : option N := index_from c alphabet 0%N.

Definition byte_of_N (n : N) : byte :=
  match Byte.of_N n with Some b => b | None => x00 end.

Definition ungroup (s0 s1 s2 s3 : N) : N :=
  (s0 * 262144 + s1 * 4096 + s2 * 64 + s3)%N.

Definition octet0 (m : N) : byte := byte_of_N (m / 65536)%N.
Definition octet1 (m : N) : byte := byte_of_N ((m / 256) mod 256)%N.
Definition octet2 (m : N) : byte := byte_of_N (m mod 256)%N.

Fixpoint decode_chars (cs : list ascii) : option (list byte) :=
  match cs with
  | [] => Some []
  | [_] => None
  | [c0; c1] =>
      match b64_index c0, b64_index c1 with
      | Some s0, Some s1 => Some [octet0 (ungroup s0 s1 0 0)]
      | _, _ => None
      end
  | [c0; c1; c2] =>
      match b64_index c0, b64_index c1, b64_index c2 with
      | Some s0, Some s1, Some s2 =>
          let m := ungroup s0 s1 s2 0 in Some [octet0 m; octet1 m]
      | _, _, _ => None
      end
  | c0 :: c1 :: c2 :: c3 :: rest =>
      match b64_index c0, b64_index c1, b64_index c2, b64_index c3 with
      | Some s0, Some s1, Some s2, Some s3 =>
          let m := ungroup s0 s1 s2 s3 in
          match decode_chars rest with
          | Some bs => Some (octet0 m :: octet1 m :: octet2 m :: bs)
          | None => None
          end
      | _, _, _, _ => None
      end
  end.

Definition b64url_decode (s : string) : option (list byte) :=
  decode_chars (list_ascii_of_string s).

End Base64.

(* ===================================================================== *)
(** ** JSON values and [json.dumps]                                        *)
(* ===================================================================== *)

Module Json.

(** A Python [str] is modelled by a [string] whose characters are the code
    points below 256 (HTTP header values are Latin-1 text, key paths, URLs
    and base64 text are ASCII). *)

(** The values the script passes around: what [json.loads] returns and what
    its dictionary literals hold. A dictionary keeps its insertion order,
    which [json.dumps] follows; floats do not occur in the script. *)
Inductive JSON : Type :=
  | JNull
  | JBool (b : bool)
  | JInt (z : Z)
  | JStr (s : string)
  | JArr (items : list JSON)
  | JObj (members : list (string * JSON)).

(** The double quote, which a string literal of this file cannot hold. *)
Definition dquote : ascii := ascii_of_nat 34.

Definition hex_digit (n : N) : ascii :=
  nth (N.to_nat n) (list_ascii_of_string "0123456789abcdef") "0"%char.

(** [str.encode("utf8")] on code points below 256. *)
Definition utf8_char (c : ascii) : list byte :=
  let n := N_of_ascii c in
  if (n <? 128)%N then [byte_of_ascii c]
  else [Base64.byte_of_N (192 + n / 64); Base64.byte_of_N (128 + n mod 64)].

Definition encode_utf8 (s : string) : list byte :=
  flat_map utf8_char (list_ascii_of_string s).

(** The escapes of [json.dumps] with [ensure_ascii=True]: the two-character
    escapes of the encoder's table, and [\u00XX] for every other character
    outside [' '..'~']. *)
Definition escape_char (c : ascii) : string :=
  let n := N_of_ascii c in
  if (n =? 34)%N then String "\" (String dquote "")
  else if (n =? 92)%N then "\\"
  else if (n =? 10)%N then "\n"
  else if (n =? 13)%N then "\r"
  else if (n =? 9)%N then "\t"
  else if (n =? 12)%N then "\f"
  else if (n =? 8)%N then "\b"
  else if (n <? 32)%N || (126 <? n)%N then
    "\u00" +:+ String (hex_digit (n / 16)) (String (hex_digit (n mod 16)) "")
  else String c "".

Fixpoint escape (s : string) : string :=
  match s with
  | EmptyString => ""
  | String c s' => escape_char c +:+ escape s'
  end.

Definition quoted (s : string) : string :=
  String dquote (escape s +:+ String dquote "").

(** [", ".join(parts)]. *)
Fixpoint join (sep : string) (parts : list string) : string :=
  match parts with
  | [] => ""
  | [p] => p
  | p :: rest => p +:+ sep +:+ join sep rest
  end.

(** [json.dumps(value)] with its default separators. *)
Fixpoint dumps (value : JSON) : string :=
  match value with
  | JNull => "null"
  | JBool true => "true"
  | JBool false => "false"
  | JInt z => DecimalString.NilZero.string_of_int (Z.to_int z)
  | JStr s => quoted s
  | JArr items => "[" +:+ join ", " (map dumps items) +:+ "]"
  | JObj members =>
      "{" +:+ join ", " (map (fun kv => quoted (fst kv) +:+ ": " +:+ dumps (snd kv))
                            members) +:+ "}"
  end.

(** *** Dictionaries: insertion-ordered, keys unique *)

Definition dict : Type := list (string * JSON).

(** [d.get(key)] / the lookup behind [d[key]]. *)
Fixpoint dict_get (key : string) (d : dict) : option JSON :=
  match d with
  | [] => None
  | (k, v) :: rest => if String.eqb k key then Some v else dict_get key rest
  end.

(** [key in d]. *)
Definition dict_in (key : string) (d : dict) : bool :=
  match dict_get key d with Some _ => true | None => false end.

(** [d[key] = value]: a known key keeps its place, a new one goes last. *)
Fixpoint dict_set (key : string) (value : JSON) (d : dict) : dict :=
  match d with
  | [] => [(key, value)]
  | (k, v) :: rest =>
      if String.eqb k key then (k, value) :: rest
      else (k, v) :: dict_set key value rest
  end.

(** What [del d[key]] leaves when the key is there. *)
Fixpoint dict_del (key : string) (d : dict) : dict :=
  match d with
  | [] => []
  | (k, v) :: rest =>
      if String.eqb k key then dict_del key rest
      else (k, v) :: dict_del key rest
  end.

(** Python's [==] on these values: [True == 1] and [False == 0] hold,
    lists compare element by element, dictionaries compare as maps. *)
Fixpoint py_eq (a b : JSON) : bool :=
  match a, b with
  | JNull, JNull => true
  | JBool x, JBool y => Bool.eqb x y
  | JBool x, JInt y => Z.eqb (Z.b2z x) y
  | JInt x, JBool y => Z.eqb x (Z.b2z y)
  | JInt x, JInt y => Z.eqb x y
  | JStr x, JStr y => String.eqb x y
  | JArr xs, JArr ys =>
      (fix all2 (xs ys : list JSON) : bool :=
         match xs, ys with
         | [], [] => true
         | x :: xs', y :: ys' => py_eq x y && all2 xs' ys'
         | _, _ => false
         end) xs ys
  | JObj xs, JObj ys =>
      Nat.eqb (length xs) (length ys)
      && forallb (fun kv => match dict_get (fst kv) ys with
                            | Some y => py_eq (snd kv) y
                            | None => false
                            end) xs
  | _, _ => false
  end.

End Json.

(* ===================================================================== *)
(** ** Python run-time model: exceptions, responses, store, monad          *)
(* ===================================================================== *)

Module Py.
Import Json.

(** The exceptions the script can end with. A message built with
    [str.format] is kept as its template and its arguments. *)
Inductive exn : Type :=
  | KeyError (key : string)
  | TypeError
  | NameError
  | ValueError (template : string) (args : list JSON)
  | RuntimeError (msg : string)
  | IOError (template : string) (err : list byte)
  | RequestException
  | JSONDecodeError
  | UnicodeDecodeError
  | BinasciiError.

Definition result (A : Type) : Type := (exn + A)%type.

(** *** [requests.Response] *)

(** [json_body] is what [response.json()] returns; [None] stands for a body
    that is empty or not JSON, on which [response.json()] raises a
    [ValueError]. *)
Record Response : Type := {
  status_code : Z;
  headers : list (string * string);
  json_body : option JSON;
}.

(** [Response.__bool__] returns [self.ok], and [ok] is true unless
    [raise_for_status()] raises, which it does for 400 <= status < 600.
    This is what [if response:] tests. *)
Definition response_ok (r : Response) : bool :=
  negb ((400 <=? status_code r)%Z && (status_code r <? 600)%Z).

(** Truth value of [response] when it may be [None]. *)
Definition truthy_response (response : option Response) : bool :=
  match response with
  | Some r => response_ok r
  | None => false
  end.

(** [str.lower()] on code points below 256. *)
Definition lower_char (c : ascii) : ascii :=
  let n := N_of_ascii c in
  if ((65 <=? n) && (n <=? 90))%N
     || ((192 <=? n) && (n <=? 222) && negb (n =? 215))%N
  then ascii_of_N (n + 32) else c.

Fixpoint lower (s : string) : string :=
  match s with
  | EmptyString => ""
  | String c s' => String (lower_char c) (lower s')
  end.

(** [response.headers] is a case-insensitive dictionary: [headers[name]]
    looks up [name.lower()] and raises [KeyError] on that key. *)
Fixpoint header_get (name : string) (hs : list (string * string))
  : option string :=
  match hs with
  | [] => None
  | (k, v) :: rest =>
      if String.eqb (lower k) (lower name) then Some v
      else header_get name rest
  end.

Definition header_getitem (name : string) (r : Response) : result string :=
  match header_get name (headers r) with
  | Some v => inr v
  | None => inl (KeyError (lower name))
  end.

(** [value[key]] on a decoded JSON value. *)
Definition subscript (value : JSON) (key : string) : result JSON :=
  match value with
  | JObj d =>
      match dict_get key d with
      | Some v => inr v
      | None => inl (KeyError key)
      end
  | _ => inl TypeError
  end.

(** *** The outside world *)

(** The network calls of a run, in the order they are made. Every call
    carries the same [User-Agent] and [timeout]; they are left out. *)
Inductive event : Type :=
  | EvGet (url : JSON)
  | EvPost (url : JSON) (jose : JSON).

Definition is_post (e : event) : bool :=
  match e with EvPost _ _ => true | EvGet _ => false end.

(** The POST requests among the calls made. *)
Definition posts (calls : list event) : list event := List.filter is_post calls.

(** [requests.post] either returns a response or raises a
    [RequestException], whose [response] attribute may be [None]. *)
Inductive post_outcome : Type :=
  | PostReturned (r : Response)
  | PostRaised (response : option Response).

(** Result of decoding the output of [openssl rsa -text] and searching it
    for [modulus:\s+?00:([a-f0-9\:\s]+?)\r?\npublicExponent: ([0-9]+)]. *)
Inductive search_outcome : Type :=
  | NotUtf8
  | NoMatch
  | Groups (pub_hex pub_exp : string).

(** Everything the script does not decide: the [openssl] program (return
    code, standard output, standard error), the regular-expression search
    of the key text, and the servers, which answer a request knowing the
    calls made before it. [requests_get] is [None] when the call raises. *)
Record world : Type := {
  openssl_run : string -> list string -> option (list byte)
                -> Z * list byte * list byte;
  rsa_text_search : list byte -> search_outcome;
  requests_get : list event -> JSON -> option Response;
  requests_post : list event -> JSON -> JSON -> post_outcome;
}.

(** *** Store and state *)

Definition loc : Type := nat.

(** The state of a run: the dictionaries that are mutated in place (the two
    signing identities and the [protected] header under construction), the
    [nonce] variable of [account_rollover], and the network calls made so
    far. Values held inside a dictionary are never mutated by the script
    and are kept as immutable trees. *)
Record state : Type := {
  heap : list dict;
  nonce : option string;
  sent : list event;
}.

Definition set_heap (h : list dict) (st : state) : state :=
  {| heap := h; nonce := nonce st; sent := sent st |}.
Definition set_nonce (n : option string) (st : state) : state :=
  {| heap := heap st; nonce := n; sent := sent st |}.
Definition add_event (e : event) (st : state) : state :=
  {| heap := heap st; nonce := nonce st; sent := sent st ++ [e] |}.

(** *** The monad: state, and exceptions that keep the state reached *)

Definition M (A : Type) : Type := state -> result A * state.

Definition ret {A} (a : A) : M A := fun st => (inr a, st).
Definition raise {A} (e : exn) : M A := fun st => (inl e, st).
Definition bind {A B} (m : M A) (k : A -> M B) : M B :=
  fun st =>
    match m st with
    | (inr a, st') => k a st'
    | (inl e, st') => (inl e, st')
    end.
Definition lift {A} (r : result A) : M A := fun st => (r, st).

Notation "x <- m ;; k" := (bind m (fun x => k))
  (at level 100, m at next level, right associativity).
Notation "m ;; k" := (bind m (fun _ => k))
  (at level 100, right associativity).

Definition read_nonce : M (option string) := fun st => (inr (nonce st), st).
Definition write_nonce (n : option string) : M unit :=
  fun st => (inr tt, set_nonce n st).

(** A new dictionary object. *)
Definition alloc (d : dict) : M loc :=
  fun st => (inr (length (heap st)), set_heap (heap st ++ [d]) st).

(** The dictionary a variable refers to; a variable that refers to nothing
    raises [NameError]. *)
Definition load (l : loc) : M dict :=
  fun st =>
    match heap st !! l with
    | Some d => (inr d, st)
    | None => (inl NameError, st)
    end.

Definition store (l : loc) (d : dict) : M unit :=
  fun st =>
    match heap st !! l with
    | Some _ => (inr tt, set_heap (<[l := d]> (heap st)) st)
    | None => (inl NameError, st)
    end.

(** [copy.deepcopy(x)]: a new object with the same contents. *)
Definition deepcopy (l : loc) : M loc := d <- load l ;; alloc d.

(** [key in x], [x[key]], [x[key] = value], [del x[key]]. *)
Definition dict_contains (l : loc) (key : string) : M bool :=
  d <- load l ;; ret (dict_in key d).

Definition dict_getitem (l : loc) (key : string) : M JSON :=
  d <- load l ;;
  match dict_get key d with
  | Some v => ret v
  | None => raise (KeyError key)
  end.

Definition dict_setitem (l : loc) (key : string) (value : JSON) : M unit :=
  d <- load l ;; store l (dict_set key value d).

Definition dict_delitem (l : loc) (key : string) : M unit :=
  d <- load l ;;
  if dict_in key d then store l (dict_del key d) else raise (KeyError key).

End Py.

(* ===================================================================== *)
(** ** The script                                                          *)
(* ===================================================================== *)

Module Acme.
Import Base64 Json Py.

(** *** Text helpers of [_get_private_acme_signature] *)

Definition digit_value (c : ascii) : option N :=
  let n := N_of_ascii c in
  if ((48 <=? n) && (n <=? 57))%N then Some (n - 48)%N else None.

Fixpoint int_digits (acc : N) (s : string) : option N :=
  match s with
  | EmptyString => Some acc
  | String c s' =>
      match digit_value c with
      | Some d => int_digits (acc * 10 + d)%N s'
      | None => None
      end
  end.

(** The limit CPython puts on the digits of a decimal numeral that [int]
    converts ([sys.int_info.default_max_str_digits], since Python 3.11 and
    in the later releases of 3.7 to 3.10): a longer numeral is a
    [ValueError]. *)
Definition int_max_str_digits : nat := 4300.

Definition invalid_literal : string := "invalid literal for int()".
Definition too_many_digits : string :=
  "Exceeds the limit ({0} digits) for integer string conversion: value has {1} digits; use sys.set_int_max_str_digits() to increase the limit".

(** [int(s)] on a string of decimal digits (what the pattern [[0-9]+]
    matches): its value, or a [ValueError] when it has more digits than the
    limit. Anything else is a [ValueError] as well. *)
Definition int_of_str (s : string) : result N :=
  match s with
  | EmptyString => inl (ValueError invalid_literal [JStr s])
  | _ =>
      match int_digits 0%N s with
      | None => inl (ValueError invalid_literal [JStr s])
      | Some n =>
          if (int_max_str_digits <? String.length s)%nat then
            inl (ValueError too_many_digits
                   [JInt (Z.of_nat int_max_str_digits);
                    JInt (Z.of_nat (String.length s))])
          else inr n
      end
  end.

(** ["{0:x}".format(n)]. *)
Definition format_hex (n : N) : string :=
  HexadecimalString.NilZero.string_of_uint (N.to_hex_uint n).

Definition hex_value (c : ascii) : option N :=
  let n := N_of_ascii c in
  if ((48 <=? n) && (n <=? 57))%N then Some (n - 48)%N
  else if ((97 <=? n) && (n <=? 102))%N then Some (n - 87)%N
  else if ((65 <=? n) && (n <=? 70))%N then Some (n - 55)%N
  else None.

(** [binascii.unhexlify(s.encode("utf-8"))]: two hexadecimal digits a byte;
    an odd length or another character raises [binascii.Error]. *)
Fixpoint unhexlify (s : string) : option (list byte) :=
  match s with
  | EmptyString => Some []
  | String _ EmptyString => None
  | String hi (String lo s') =>
      match hex_value hi, hex_value lo, unhexlify s' with
      | Some h, Some l, Some bs => Some (byte_of_N (h * 16 + l)%N :: bs)
      | _, _, _ => None
      end
  end.

(** The characters [\s] matches, among the code points below 256. *)
Definition is_space (c : ascii) : bool :=
  let n := N_of_ascii c in
  (((9 <=? n) && (n <=? 13)) || ((28 <=? n) && (n <=? 32))
   || (n =? 133) || (n =? 160))%N.

(** [re.sub(r"(\s|:)", "", s)]. *)
Fixpoint strip_space_colon (s : string) : string :=
  match s with
  | EmptyString => ""
  | String c s' =>
      if is_space c || Ascii.eqb c ":"%char then strip_space_colon s'
      else String c (strip_space_colon s')
  end.

Definition unknown_keypath : string := "Unknown keypath to sign request".
Definition no_response : string := "Unable to get response from ACME server.".
Definition lookup_failed : string := "Error looking or account URL: {0} {1}".
Definition rollover_failed : string := "Error rolling over account key: {0} {1}".

(** What the closures [_sign_request] and [_send_signed_request] capture
    from [account_rollover]: its two key paths, the decoded directory, and
    the two signing identities (the dictionaries the variables
    [private_acme_old_signature] and [private_acme_new_signature] refer
    to). The [nonce] variable is in the state. *)
Record closure : Type := {
  old_accountkeypath : string;
  new_accountkeypath : string;
  acme_config : JSON;
  private_acme_old_signature : loc;
  private_acme_new_signature : loc;
}.

(** [_b64(json.dumps(value).encode("utf8"))], as [_sign_request] writes it
    for the payload and for the protected header. *)
Definition b64_json (value : JSON) : string :=
  _b64 (encode_utf8 (dumps value)).

(** [payload64] of [_sign_request] (lines 60-63). *)
Definition payload64_of (payload : JSON) : string :=
  if py_eq payload (JStr "") then "" else b64_json payload.

(** The three-field dictionary [_sign_request] returns. *)
Definition jose_of (protected64 payload64 : string) (signature : list byte)
  : JSON :=
  JObj [("protected", JStr protected64); ("payload", JStr payload64);
        ("signature", JStr (_b64 signature))].

(** The payload of the account lookup. *)
Definition lookup_payload : JSON := JObj [("onlyReturnExisting", JBool true)].

Section Run.

Variable W : world.

(** [requests.get(url, headers=adtheaders, timeout=timeout)]. *)
Definition http_get (url : JSON) : M Response :=
  fun st =>
    let st' := add_event (EvGet url) st in
    match requests_get W (sent st) url with
    | Some r => (inr r, st')
    | None => (inl RequestException, st')
    end.

(** What [response] is after [try: response = requests.post(...) except
    RequestException as error: response = error.response], for a request
    made after the calls [made]. *)
Definition post_response (made : list event) (url jose : JSON)
  : option Response :=
  match requests_post W made url jose with
  | PostReturned r => Some r
  | PostRaised response => response
  end.

Definition http_post (url jose : JSON) : M (option Response) :=
  fun st =>
    (inr (post_response (sent st) url jose), add_event (EvPost url jose) st).

(** [_openssl(command, options, communicate)]: the output of the program,
    or [IOError] on a return code other than zero. It leaves the state
    alone. *)
Definition _openssl (command : string) (options : list string)
    (communicate : option (list byte)) : result (list byte) :=
  let '(returncode, out, err) := openssl_run W command options communicate in
  if negb (returncode =? 0)%Z then inl (IOError "OpenSSL Error: {0}" err)
  else inr out.

(** The dictionary [_get_private_acme_signature(accountkeypath)] builds:
    [{"alg": "RS256", "jwk": {"e": ..., "kty": "RSA", "n": ...}}]. Running
    [openssl] and computing on its output leaves the state alone. *)
Definition private_acme_signature (accountkeypath : string) : result dict :=
  match _openssl "rsa" ["-in"; accountkeypath; "-noout"; "-text"] None with
  | inl error => inl error
  | inr accountkey =>
  match rsa_text_search W accountkey with
  | NotUtf8 => inl UnicodeDecodeError
  | NoMatch => inl (ValueError "Unable to retrieve private signature." [])
  | Groups pub_hex pub_exp =>
      match int_of_str pub_exp with
      | inl error => inl error
      | inr exponent =>
          let pub_exp := format_hex exponent in
          let pub_exp :=
            if Nat.odd (String.length pub_exp) then "0" +:+ pub_exp
            else pub_exp in
          match unhexlify pub_exp with
          | None => inl BinasciiError
          | Some e =>
              match unhexlify (strip_space_colon pub_hex) with
              | None => inl BinasciiError
              | Some n =>
                  inr [("alg", JStr "RS256");
                       ("jwk", JObj [("e", JStr (_b64 e));
                                     ("kty", JStr "RSA");
                                     ("n", JStr (_b64 n))])]
              end
          end
      end
  end
  end.

(** [_get_private_acme_signature(accountkeypath)]: the dictionary above as
    a new object. *)
Definition _get_private_acme_signature (accountkeypath : string) : M loc :=
  signature <- lift (private_acme_signature accountkeypath) ;;
  alloc signature.

Section Closures.

Variable C : closure.

(** Lines 64-69 of [_sign_request]: a deep copy of the identity of the
    key. *)
Definition copy_identity (keypath : string) : M loc :=
  if String.eqb keypath (new_accountkeypath C) then
    deepcopy (private_acme_new_signature C)
  else if String.eqb keypath (old_accountkeypath C) then
    deepcopy (private_acme_old_signature C)
  else raise (RuntimeError unknown_keypath).

(** Lines 71-75: [is_inner or url == acme_config["newAccount"]] decides
    which of [kid] and [jwk] is deleted from [protected]. *)
Definition strip_identity (protected : loc) (url : JSON) (is_inner : bool)
  : M unit :=
  jwk_form <- (if is_inner then ret true
               else new_account <- lift (subscript (acme_config C) "newAccount") ;;
                    ret (py_eq url new_account)) ;;
  if jwk_form : bool then
    has_kid <- dict_contains protected "kid" ;;
    if has_kid : bool then dict_delitem protected "kid" else ret tt
  else dict_delitem protected "jwk".

(** [nonce or requests.get(acme_config["newNonce"], ...)
    .headers['Replay-Nonce']]: the current nonce unless it is [None] or
    empty. *)
Definition current_or_fresh_nonce : M string :=
  current <- read_nonce ;;
  match current with
  | Some (String c n) => ret (String c n)
  | Some EmptyString | None =>
      new_nonce <- lift (subscript (acme_config C) "newNonce") ;;
      response <- http_get new_nonce ;;
      lift (header_getitem "Replay-Nonce" response)
  end.

(** Lines 64-84 of [_sign_request]: the finalized [protected] dictionary. *)
Definition sign_protected (url : JSON) (keypath : string) (is_inner : bool)
  : M loc :=
  protected <- copy_identity keypath ;;
  strip_identity protected url is_inner ;;
  (if negb is_inner then
     n <- current_or_fresh_nonce ;;
     dict_setitem protected "nonce" (JStr n)
   else ret tt) ;;
  dict_setitem protected "url" url ;;
  ret protected.

(** [_sign_request(url, keypath, payload, is_inner=False)]. *)
Definition _sign_request (url : JSON) (keypath : string) (payload : JSON)
    (is_inner : bool) : M JSON :=
  let payload64 := payload64_of payload in
  protected <- sign_protected url keypath is_inner ;;
  header <- load protected ;;
  let protected64 := b64_json (JObj header) in
  signature <- lift (_openssl "dgst" ["-sha256"; "-sign"; keypath]
                       (Some (encode_utf8 (protected64 +:+ "." +:+ payload64)))) ;;
  ret (jose_of protected64 payload64 signature).

(** [_send_signed_request(url, keypath, payload)]. *)
Definition _send_signed_request (url : JSON) (keypath : string)
    (payload : JSON) : M (Response * JSON) :=
  jose <- _sign_request url keypath payload false ;;
  response <- http_post url jose ;;
  match response with
  | Some r =>
      if response_ok r then
        n <- lift (header_getitem "Replay-Nonce" r) ;;
        write_nonce (Some n) ;;
        match json_body r with
        | Some body => ret (r, body)
        | None => ret (r, JStr (dumps (JObj [])))
        end
      else raise (RuntimeError no_response)
  | None => raise (RuntimeError no_response)
  end.

(** Lines 127-134 of [account_rollover]: look the account up with the old
    key and install its URL as [kid] on both identities. *)
Definition identify_account : M unit :=
  new_account <- lift (subscript (acme_config C) "newAccount") ;;
  answer <- _send_signed_request new_account (old_accountkeypath C)
              lookup_payload ;;
  let (http_response, result) := answer : Response * JSON in
  if (status_code http_response =? 200)%Z then
    location <- lift (header_getitem "Location" http_response) ;;
    dict_setitem (private_acme_old_signature C) "kid" (JStr location) ;;
    location <- lift (header_getitem "Location" http_response) ;;
    dict_setitem (private_acme_new_signature C) "kid" (JStr location)
  else
    raise (ValueError lookup_failed
             [JInt (status_code http_response); result]).

(** Line 140-142: the inner JWS, signed by the new key. *)
Definition inner_key_change : M JSON :=
  key_change <- lift (subscript (acme_config C) "keyChange") ;;
  account <- dict_getitem (private_acme_old_signature C) "kid" ;;
  old_key <- dict_getitem (private_acme_old_signature C) "jwk" ;;
  _sign_request key_change (new_accountkeypath C)
    (JObj [("account", account); ("oldKey", old_key)]) true.

(** Lines 140-150: the inner JWS wrapped in the outer request, signed by
    the old key. *)
Definition roll_over : M unit :=
  inner_payload <- inner_key_change ;;
  key_change <- lift (subscript (acme_config C) "keyChange") ;;
  answer <- _send_signed_request key_change (old_accountkeypath C)
              inner_payload ;;
  let (http_response, result) := answer : Response * JSON in
  if negb (status_code http_response =? 200)%Z then
    raise (ValueError rollover_failed
             [JInt (status_code http_response); result])
  else ret tt.

End Closures.

(** Line 118: [requests.get(acme_directory, ...).json()]. *)
Definition fetch_directory (acme_directory : string) : M JSON :=
  response <- http_get (JStr acme_directory) ;;
  match json_body response with
  | Some config => ret config
  | None => raise JSONDecodeError
  end.

(** [account_rollover(old_accountkeypath, new_accountkeypath,
    acme_directory, timeout)]; the calls to [log.info] are left out. *)
Definition account_rollover (old_accountkeypath new_accountkeypath
    acme_directory : string) : M unit :=
  write_nonce None ;;
  acme_config <- fetch_directory acme_directory ;;
  private_acme_old_signature <- _get_private_acme_signature old_accountkeypath ;;
  private_acme_new_signature <- _get_private_acme_signature new_accountkeypath ;;
  let C := {| old_accountkeypath := old_accountkeypath;
              new_accountkeypath := new_accountkeypath;
              acme_config := acme_config;
              private_acme_old_signature := private_acme_old_signature;
              private_acme_new_signature := private_acme_new_signature |} in
  identify_account C ;;
  roll_over C.

End Run.

(** The state in which a run starts. *)
Definition initial_state : state :=
  {| heap := []; nonce := None; sent := [] |}.

End Acme.

(* ===================================================================== *)
(** ** Vocabulary of the statements                                        *)
(* ===================================================================== *)

Module Summary.
Import Base64 Json Py Acme.

(** The signing identity [_sign_request] copies for a key path: the new
    key's when the path is the new key's, else the old key's when it is the
    old key's. *)
Definition selected_identity (C : closure) (keypath : string)
    (h : list dict) : option dict :=
  if String.eqb keypath (new_accountkeypath C) then
    h !! private_acme_new_signature C
  else if String.eqb keypath (old_accountkeypath C) then
    h !! private_acme_old_signature C
  else None.

(** [url == acme_config["newAccount"]], false when the directory has no
    such entry. *)
Definition is_new_account_target (C : closure) (url : JSON) : bool :=
  match subscript (acme_config C) "newAccount" with
  | inr new_account => py_eq url new_account
  | inl _ => false
  end.

(** A dictionary after [if "kid" in d: del d["kid"]]. *)
Definition without_kid (d : dict) : dict :=
  if dict_in "kid" d then dict_del "kid" d else d.

(** Where the nonce [n] of an outer request comes from, and the calls made
    once the request has it: the current nonce when there is one, else the
    [Replay-Nonce] header of a GET on the [newNonce] endpoint. *)
Definition nonce_source (W : world) (C : closure) (st : state) (n : string)
    (sent' : list event) : Prop :=
  (nonce st = Some n /\ n <> "" /\ sent' = sent st)
  \/ ((nonce st = None \/ nonce st = Some "") /\
      exists new_nonce r,
        subscript (acme_config C) "newNonce" = inr new_nonce /\
        requests_get W (sent st) new_nonce = Some r /\
        header_getitem "Replay-Nonce" r = inr n /\
        sent' = sent st ++ [EvGet new_nonce]).

(** The header [hdr] that [_sign_request] finalizes from a copy of the
    identity [tmpl], and the calls made once it is built. *)
Definition finalized (W : world) (C : closure) (url : JSON)
    (is_inner : bool) (st : state) (tmpl hdr : dict)
    (sent' : list event) : Prop :=
  (is_inner = true /\ sent' = sent st /\
   hdr = dict_set "url" url (without_kid tmpl))
  \/ (is_inner = false /\
      exists new_account n,
        subscript (acme_config C) "newAccount" = inr new_account /\
        nonce_source W C st n sent' /\
        ((py_eq url new_account = true /\
          hdr = dict_set "url" url
                  (dict_set "nonce" (JStr n) (without_kid tmpl)))
         \/ (py_eq url new_account = false /\ dict_in "jwk" tmpl = true /\
             hdr = dict_set "url" url
                     (dict_set "nonce" (JStr n) (dict_del "jwk" tmpl))))).

(** The closure of a run: [account_rollover] creates the old identity
    first and the new one second. *)
Definition run_closure (old new : string) (cfg : JSON) : closure :=
  {| old_accountkeypath := old; new_accountkeypath := new;
     acme_config := cfg;
     private_acme_old_signature := 0%nat;
     private_acme_new_signature := 1%nat |}.

(** The state of a run once the directory is fetched and both keys are
    read. *)
Definition keys_read_state (dir : string) (ident_old ident_new : dict)
  : state :=
  {| heap := [ident_old; ident_new]; nonce := None;
     sent := [EvGet (JStr dir)] |}.

(** The decoded body [_send_signed_request] returns with a response. *)
Definition decoded_body (r : Response) : JSON :=
  match json_body r with
  | Some body => body
  | None => JStr (dumps (JObj []))
  end.

End Summary.

(* ===================================================================== *)
(** ** A certificate authority to run the script against                   *)
(* ===================================================================== *)

Module Examples.
Import Base64 Json Py Acme.

Definition directory_url : string := "https://ca.example/directory".
Definition new_nonce_url : JSON := JStr "https://ca.example/new-nonce".
Definition new_account_url : JSON := JStr "https://ca.example/new-account".
Definition key_change_url : JSON := JStr "https://ca.example/key-change".
Definition account_url : string := "https://ca.example/acct/1".

Definition directory : JSON :=
  JObj [("newNonce", new_nonce_url); ("newAccount", new_account_url);
        ("keyChange", key_change_url)].

Definition directory_without_key_change : JSON :=
  JObj [("newNonce", new_nonce_url); ("newAccount", new_account_url)].

Definition old_key : string := "account.key".
Definition new_key : string := "newaccount.key".

Definition response (status : Z) (hs : list (string * string))
    (body : option JSON) : Response :=
  {| status_code := status; headers := hs; json_body := body |}.

(** An [openssl] that always succeeds: the key text names the key file, a
    signature is three bytes. *)
Definition openssl (command : string) (options : list string)
    (communicate : option (list byte)) : Z * list byte * list byte :=
  if String.eqb command "rsa" then (0%Z, encode_utf8 (nth 1 options ""), [])
  else (0%Z, [x01; x02; x03], []).

Definition key_text_search (text : list byte) : search_outcome :=
  if (length text <? 12)%nat then Groups "c3:5f:7a" "65537"
  else Groups "a1:b2" "3".

(** A server with the given directory and the given answer to the account
    lookup; it answers the key-change request with 200 and no body. *)
Definition server (dir : JSON) (lookup : Response) : world :=
  {| openssl_run := openssl;
     rsa_text_search := key_text_search;
     requests_get := fun made url =>
       if py_eq url (JStr directory_url) then Some (response 200 [] (Some dir))
       else Some (response 204 [("Replay-Nonce", "nonce-0")] None);
     requests_post := fun made url jose =>
       if py_eq url new_account_url then PostReturned lookup
       else PostReturned (response 200 [("Replay-Nonce", "nonce-2")] None) |}.

Definition account_found : Response :=
  response 200 [("Replay-Nonce", "nonce-1"); ("Location", account_url)]
    (Some (JObj [("status", JStr "valid")])).

Definition account_forbidden : Response :=
  response 403 [("Replay-Nonce", "nonce-1")]
    (Some (JObj [("type", JStr "urn:ietf:params:acme:error:unauthorized");
                 ("status", JInt 403)])).

(** A 200 answer whose body is not JSON, one without [Replay-Nonce], and a
    404 answer with an empty body. *)
Definition plain_ok : Response :=
  response 200 [("Replay-Nonce", "nonce-1")] None.
Definition ok_without_nonce : Response := response 200 [] None.
Definition not_found : Response :=
  response 404 [("Replay-Nonce", "nonce-1")] None.

(** The two identities as [_get_private_acme_signature] leaves them, before
    the account URL is known. *)
Definition old_identity : dict :=
  [("alg", JStr "RS256");
   ("jwk", JObj [("e", JStr "AQAB"); ("kty", JStr "RSA"); ("n", JStr "w196")])].
Definition new_identity : dict :=
  [("alg", JStr "RS256");
   ("jwk", JObj [("e", JStr "Aw"); ("kty", JStr "RSA"); ("n", JStr "obI")])].

Definition closure_of (dir : JSON) : closure :=
  {| old_accountkeypath := old_key;
     new_accountkeypath := new_key;
     acme_config := dir;
     private_acme_old_signature := 0%nat;
     private_acme_new_signature := 1%nat |}.

(** The state after both keys have been read and a first nonce received. *)
Definition keys_read : state :=
  {| heap := [old_identity; new_identity]; nonce := Some "nonce-0"; sent := [] |}.

End Examples.

(* ===================================================================== *)
(** ** Numbers written in bytes and in hexadecimal digits                  *)
(* ===================================================================== *)

Module Numerals.
Import Acme.

(** The number a byte string writes, most significant byte first, after
    the number [acc]. *)
Definition be_value_from (acc : N) (bs : list byte) : N :=
  fold_left (fun acc b => (acc * 256 + Byte.to_N b)%N) bs acc.

Definition be_value (bs : list byte) : N := be_value_from 0 bs.

(** The number a string of hexadecimal digits writes after the number
    [acc]; [None] when a character is not a digit. *)
Fixpoint hex_eval (s : string) (acc : N) : option N :=
  match s with
  | EmptyString => Some acc
  | String c s' =>
      match hex_value c with
      | Some d => hex_eval s' (acc * 16 + d)%N
      | None => None
      end
  end.

(** ["0{0}".format(s) if len(s) % 2 else s], the padding of
    [_get_private_acme_signature] (line 47). *)
Definition even_padded (s : string) : string :=
  if Nat.odd (String.length s) then "0" +:+ s else s.

(** [s] is a decimal numeral of [n] that [int] converts: a non-empty
    string of the digits [0] to [9], [int_max_str_digits] of them at most,
    that the Standard Library reads as [n]. *)
Definition decimal_numeral (s : string) (n : N) : Prop :=
  s <> "" /\ (String.length s <= int_max_str_digits)%nat /\
  exists u, DecimalString.NilEmpty.uint_of_string s = Some u /\
            N.of_uint u = n.

(** [bs] is the shortest byte string that writes [n], most significant
    byte first: it has no leading zero byte, except that zero is written as
    one zero byte. *)
Definition shortest_be (n : N) (bs : list byte) : Prop :=
  be_value bs = n /\
  match bs with
  | [] => False
  | b :: rest => b = x00 -> rest = []
  end.

End Numerals.

(* ===================================================================== *)
(** ** The calls a directory allows                                        *)
(* ===================================================================== *)

Module Endpoints.
Import Json Py Acme.

(** A call to one of the three endpoints of the directory [cfg]: a GET on
    [newNonce], or a POST to [newAccount] or to [keyChange]. *)
Definition endpoint_call (cfg : JSON) (e : event) : Prop :=
  (exists u, subscript cfg "newNonce" = inr u /\ e = EvGet u)
  \/ (exists u j, subscript cfg "newAccount" = inr u /\ e = EvPost u j)
  \/ (exists u j, subscript cfg "keyChange" = inr u /\ e = EvPost u j).

(** From [st] to [st'], only calls to the endpoints of the directory have
    been made, [n] POSTs at most among them. *)
Definition endpoint_calls_from (C : closure) (st st' : state) (n : nat)
  : Prop :=
  exists calls,
    sent st' = sent st ++ calls /\
    Forall (endpoint_call (acme_config C)) calls /\
    (length (posts calls) <= n)%nat.

(** The header of the outer key-change request: [kid] in place of [jwk],
    unless the [keyChange] URL is the [newAccount] URL. *)
Definition outer_header (to_new_account : bool) (jwk : JSON)
    (kid n : string) (key_change : JSON) : dict :=
  if to_new_account then
    [("alg", JStr "RS256"); ("jwk", jwk); ("nonce", JStr n);
     ("url", key_change)]
  else
    [("alg", JStr "RS256"); ("kid", JStr kid); ("nonce", JStr n);
     ("url", key_change)].

End Endpoints.

(* ===================================================================== *)
(** ** More answers of the example authority                               *)
(* ===================================================================== *)

Module MoreExamples.
Import Json Py Acme Examples.

(** An account lookup answered with 201: accepted, and not 200. *)
Definition account_created : Response :=
  response 201 [("Replay-Nonce", "nonce-1"); ("Location", account_url)]
    (Some (JObj [("status", JStr "valid")])).

(** The state once the account URL is installed on both identities. *)
Definition kid_known : state :=
  {| heap := [old_identity ++ [("kid", JStr account_url)];
              new_identity ++ [("kid", JStr account_url)]];
     nonce := Some "nonce-1";
     sent := [] |}.

End MoreExamples.

(* ===================================================================== *)
(** ** What goes on the wire                                               *)
(* ===================================================================== *)

Module Wire.
Import Base64 Json Py Acme.

(** [text] is the unpadded base64url encoding of [bs]: the text of the
    encoder, which the reference decoder takes back to [bs]. *)
Definition base64url_of (bs : list byte) (text : string) : Prop :=
  text = _b64 bs /\ b64url_decode text = Some bs.

(** [text] is the base64url encoding of the UTF-8 bytes of
    [json.dumps(value)]. *)
Definition json_text_of (value : JSON) (text : string) : Prop :=
  base64url_of (encode_utf8 (dumps value)) text.

(** [openssl dgst -sha256 -sign keypath], given [message] on its standard
    input, ended with return code 0 and [signature] on its standard
    output. *)
Definition openssl_signs (W : world) (keypath message : string)
    (signature : list byte) : Prop :=
  fst (openssl_run W "dgst" ["-sha256"; "-sign"; keypath]
         (Some (encode_utf8 message)))
  = (0%Z, signature).

(** [jose] is the flattened JWS of the protected header [header] and of the
    payload text [payload64], signed with the key [keypath]: an object with
    the members [protected], [payload] and [signature], in this order,
    where [protected] encodes the header and [signature] encodes what
    [openssl] returned for [protected + "." + payload]. *)
Definition signed_jws (W : world) (keypath : string) (header : dict)
    (payload64 : string) (jose : JSON) : Prop :=
  exists protected64 signature signature64,
    jose = JObj [("protected", JStr protected64);
                 ("payload", JStr payload64);
                 ("signature", JStr signature64)] /\
    json_text_of (JObj header) protected64 /\
    openssl_signs W keypath (protected64 +:+ "." +:+ payload64) signature /\
    base64url_of signature signature64.

(** The calls to the signer that [account_rollover] makes, in order, each
    with its [is_inner] flag and its URL: the account lookup (line 127),
    the inner key-change JWS (line 140) and the outer one (line 145). *)
Definition signer_call (cfg : JSON) (i : nat) : option (bool * JSON) :=
  match i with
  | 0%nat =>
      match subscript cfg "newAccount" with
      | inr url => Some (false, url)
      | inl _ => None
      end
  | 1%nat =>
      match subscript cfg "keyChange" with
      | inr url => Some (true, url)
      | inl _ => None
      end
  | 2%nat =>
      match subscript cfg "keyChange" with
      | inr url => Some (false, url)
      | inl _ => None
      end
  | _ => None
  end.

(** The answer to the account lookup lets the run go on: a response with
    status 200 that has the [Replay-Nonce] and [Location] headers. *)
Definition lookup_found (response : option Response) : bool :=
  match response with
  | Some r =>
      match header_get "Replay-Nonce" (headers r),
            header_get "Location" (headers r) with
      | Some _, Some _ => (status_code r =? 200)%Z
      | _, _ => false
      end
  | None => false
  end.

(** The GET that precedes an outer request when the nonce at hand is
    empty. *)
Definition refetch (current : string) (new_nonce : JSON) : list event :=
  match current with
  | EmptyString => [EvGet new_nonce]
  | String _ _ => []
  end.

(** The nonce [n] of an outer request signed after the calls [made], when
    the nonce variable holds [current]: [current] itself, unless it is
    empty, in which case [n] is the [Replay-Nonce] of a GET on
    [newNonce]. *)
Definition next_nonce (W : world) (made : list event) (new_nonce : JSON)
    (current n : string) : Prop :=
  match current with
  | EmptyString =>
      exists r, requests_get W made new_nonce = Some r /\
                header_getitem "Replay-Nonce" r = inr n
  | String _ _ => n = current
  end.

End Wire.

(* ===================================================================== *)
(** * Properties                                                           *)
(* ===================================================================== *)

(** ** The codec *)

Module Base64Facts.
Import Base64.

Local Open Scope N_scope.

Local Ltac euclid :=
  unfold group, ungroup, sextet0, sextet1, sextet2, sextet3 in *;
  zify; Z.to_euclidean_division_equations; lia.

Lemma sextet0_lt n : n < 16777216 -> sextet0 n < 64.
Proof. intros; euclid. Qed.
Lemma sextet1_lt n : sextet1 n < 64.
Proof. euclid. Qed.
Lemma sextet2_lt n : sextet2 n < 64.
Proof. euclid. Qed.
Lemma sextet3_lt n : sextet3 n < 64.
Proof. euclid. Qed.

Lemma group_lt x y z :
  x < 256 -> y < 256 -> z < 256 -> group x y z < 16777216.
Proof. intros; euclid. Qed.

Lemma ungroup_sextets n :
  n < 16777216 ->
  ungroup (sextet0 n) (sextet1 n) (sextet2 n) (sextet3 n) = n.
Proof. intros; euclid. Qed.

(** Every 6-bit value is written as a character of the alphabet that reads
    back as the same value, and that is never the padding character. *)
Lemma b64_char_table :
  forallb (fun i => let n := N.of_nat i in
             match b64_index (b64_char n) with
             | Some m => N.eqb m n && negb (Ascii.eqb (b64_char n) pad)
             | None => false
             end) (seq 0 64) = true.
Proof. vm_compute. reflexivity. Qed.

Lemma b64_char_spec n :
  n < 64 -> b64_index (b64_char n) = Some n /\ b64_char n <> pad.
Proof.
  intros Hn.
  assert (Hin : In (N.to_nat n) (seq 0 64)) by (apply in_seq; lia).
  pose proof (proj1 (forallb_forall _ _) b64_char_table (N.to_nat n) Hin) as H.
  cbv beta zeta in H. rewrite N2Nat.id in H.
  destruct (b64_index (b64_char n)) as [m|]; [|discriminate].
  apply andb_true_iff in H as [H1 H2].
  apply N.eqb_eq in H1. subst m. split; [reflexivity|].
  intros E. rewrite E, Ascii.eqb_refl in H2. discriminate.
Qed.

Lemma b64_index_char n : n < 64 -> b64_index (b64_char n) = Some n.
Proof. intros; now apply b64_char_spec. Qed.

Lemma b64_char_not_pad n : n < 64 -> b64_char n <> pad.
Proof. intros; now apply b64_char_spec. Qed.

Lemma byte_of_to_N b : byte_of_N (Byte.to_N b) = b.
Proof. unfold byte_of_N. now rewrite Byte.of_to_N. Qed.

Lemma to_N_lt b : Byte.to_N b < 256.
Proof. pose proof (Byte.to_N_bounded b). lia. Qed.

(** Decoding the three octets of a group gives the bytes back. *)
Lemma octets_group a b c :
  let m := group (Byte.to_N a) (Byte.to_N b) (Byte.to_N c) in
  octet0 m = a /\ octet1 m = b /\ octet2 m = c.
Proof.
  pose proof (to_N_lt a). pose proof (to_N_lt b). pose proof (to_N_lt c).
  cbv zeta. unfold octet0, octet1, octet2.
  replace (group (Byte.to_N a) (Byte.to_N b) (Byte.to_N c) / 65536)
    with (Byte.to_N a) by euclid.
  replace ((group (Byte.to_N a) (Byte.to_N b) (Byte.to_N c) / 256) mod 256)
    with (Byte.to_N b) by euclid.
  replace (group (Byte.to_N a) (Byte.to_N b) (Byte.to_N c) mod 256)
    with (Byte.to_N c) by euclid.
  now rewrite !byte_of_to_N.
Qed.

(** The last group of one or two bytes: its unused low sextets are zero, so
    the decoder may leave them out. *)
Lemma ungroup_tail1 x :
  x < 256 ->
  ungroup (sextet0 (group x 0 0)) (sextet1 (group x 0 0)) 0 0 = group x 0 0.
Proof. intros; euclid. Qed.

Lemma ungroup_tail2 x y :
  x < 256 -> y < 256 ->
  ungroup (sextet0 (group x y 0)) (sextet1 (group x y 0))
          (sextet2 (group x y 0)) 0 = group x y 0.
Proof. intros; euclid. Qed.

Lemma rstrip_cons_ne c a t : a <> c -> rstrip c (a :: t) = a :: rstrip c t.
Proof.
  intros Hne. simpl. destruct (rstrip c t); [|reflexivity].
  destruct (Ascii.eqb_spec a c); [contradiction|reflexivity].
Qed.

Lemma rstrip_pads c k : rstrip c (repeat c k) = [].
Proof.
  induction k as [|k IH]; [reflexivity|].
  simpl. rewrite IH. now rewrite Ascii.eqb_refl.
Qed.

Lemma list_ind3 {A} (P : list A -> Prop) :
  P [] -> (forall a, P [a]) -> (forall a b, P [a; b]) ->
  (forall a b c l, P l -> P (a :: b :: c :: l)) ->
  forall l, P l.
Proof.
  intros H0 H1 H2 H3.
  enough (H : forall n (l : list A), (length l <= n)%nat -> P l)
    by (intros l; exact (H (length l) l (Nat.le_refl _))).
  induction n as [|n IH]; intros l Hl.
  - destruct l; [exact H0|simpl in Hl; lia].
  - destruct l as [|a [|b [|c l]]]; auto.
    apply H3, IH. simpl in Hl. lia.
Qed.

Lemma b64_chars_group a b c rest :
  b64_chars (a :: b :: c :: rest) =
  let n := group (Byte.to_N a) (Byte.to_N b) (Byte.to_N c) in
  b64_char (sextet0 n) :: b64_char (sextet1 n)
    :: b64_char (sextet2 n) :: b64_char (sextet3 n) :: b64_chars rest.
Proof.
  pose proof (to_N_lt a). pose proof (to_N_lt b). pose proof (to_N_lt c).
  unfold b64_chars. cbn [urlsafe_b64encode]. cbv zeta.
  do 4 rewrite rstrip_cons_ne
    by (apply b64_char_not_pad;
        auto using sextet0_lt, sextet1_lt, sextet2_lt, sextet3_lt, group_lt).
  reflexivity.
Qed.

Lemma b64_chars_one a :
  b64_chars [a] =
  let n := group (Byte.to_N a) 0 0 in
  [b64_char (sextet0 n); b64_char (sextet1 n)].
Proof.
  pose proof (to_N_lt a).
  unfold b64_chars. cbn [urlsafe_b64encode]. cbv zeta.
  do 2 rewrite rstrip_cons_ne
    by (apply b64_char_not_pad; auto using sextet1_lt;
        apply sextet0_lt, group_lt; lia).
  change [pad; pad] with (repeat pad 2). now rewrite rstrip_pads.
Qed.

Lemma b64_chars_two a b :
  b64_chars [a; b] =
  let n := group (Byte.to_N a) (Byte.to_N b) 0 in
  [b64_char (sextet0 n); b64_char (sextet1 n); b64_char (sextet2 n)].
Proof.
  pose proof (to_N_lt a). pose proof (to_N_lt b).
  unfold b64_chars. cbn [urlsafe_b64encode]. cbv zeta.
  do 3 rewrite rstrip_cons_ne
    by (apply b64_char_not_pad; auto using sextet1_lt, sextet2_lt;
        apply sextet0_lt, group_lt; lia).
  change [pad] with (repeat pad 1). now rewrite rstrip_pads.
Qed.

Lemma decode_b64_chars text : decode_chars (b64_chars text) = Some text.
Proof.
  induction text as [|a|a b|a b c rest IH] using list_ind3.
  - reflexivity.
  - pose proof (to_N_lt a).
    rewrite b64_chars_one. cbv zeta. cbn [decode_chars].
    rewrite !b64_index_char by (auto using sextet1_lt; apply sextet0_lt, group_lt; lia).
    rewrite ungroup_tail1 by assumption.
    pose proof (octets_group a x00 x00) as (E0 & _). cbv zeta in E0.
    change (Byte.to_N x00) with 0 in E0. now rewrite E0.
  - pose proof (to_N_lt a). pose proof (to_N_lt b).
    rewrite b64_chars_two. cbv zeta. cbn [decode_chars].
    rewrite !b64_index_char
      by (auto using sextet1_lt, sextet2_lt; apply sextet0_lt, group_lt; lia).
    rewrite ungroup_tail2 by assumption.
    pose proof (octets_group a b x00) as (E0 & E1 & _). cbv zeta in E0, E1.
    change (Byte.to_N x00) with 0 in E0, E1. now rewrite E0, E1.
  - pose proof (to_N_lt a). pose proof (to_N_lt b). pose proof (to_N_lt c).
    rewrite b64_chars_group. cbv zeta. cbn [decode_chars].
    rewrite !b64_index_char
      by (auto using sextet1_lt, sextet2_lt, sextet3_lt;
          apply sextet0_lt, group_lt; lia).
    rewrite ungroup_sextets by (apply group_lt; lia).
    rewrite IH.
    pose proof (octets_group a b c) as (E0 & E1 & E2). cbv zeta in E0, E1, E2.
    now rewrite E0, E1, E2.
Qed.

Lemma b64_chars_no_pad text : ~ In pad (b64_chars text).
Proof.
  induction text as [|a|a b|a b c rest IH] using list_ind3.
  - intros [].
  - pose proof (to_N_lt a).
    rewrite b64_chars_one. cbv zeta. intros [E|[E|[]]]; revert E;
      apply b64_char_not_pad; auto using sextet1_lt;
      apply sextet0_lt, group_lt; lia.
  - pose proof (to_N_lt a). pose proof (to_N_lt b).
    rewrite b64_chars_two. cbv zeta. intros [E|[E|[E|[]]]]; revert E;
      apply b64_char_not_pad; auto using sextet1_lt, sextet2_lt;
      apply sextet0_lt, group_lt; lia.
  - pose proof (to_N_lt a). pose proof (to_N_lt b). pose proof (to_N_lt c).
    rewrite b64_chars_group. cbv zeta.
    intros [E|[E|[E|[E|E]]]]; [revert E..|exact (IH E)];
      apply b64_char_not_pad; auto using sextet1_lt, sextet2_lt, sextet3_lt;
      apply sextet0_lt, group_lt; lia.
Qed.

Lemma b64_decode_encode_no_padding_aux (s : list byte) :
  b64url_decode (_b64 s) = Some s /\
  ~ In pad (list_ascii_of_string (_b64 s)).
Proof.
  unfold b64url_decode, _b64.
  rewrite list_ascii_of_string_of_list_ascii.
  split; [apply decode_b64_chars|apply b64_chars_no_pad].
Qed.

(** C7. For every byte string [s], decoding the unpadded base64url text that
    [_b64] produces recovers [s] exactly, and that text contains no ['=']
    padding character. *)
Theorem b64_decode_encode_no_padding (s : list byte) :
  b64url_decode (_b64 s) = Some s /\
  ~ In "="%char (list_ascii_of_string (_b64 s)).
Proof. exact (b64_decode_encode_no_padding_aux s). Qed.

(** The encoder is injective: distinct byte strings have distinct texts. *)
Lemma b64_injective s t : _b64 s = _b64 t -> s = t.
Proof.
  intros E.
  pose proof (proj1 (b64_decode_encode_no_padding_aux s)) as Hs.
  pose proof (proj1 (b64_decode_encode_no_padding_aux t)) as Ht.
  rewrite E in Hs. congruence.
Qed.

Lemma b64_nonempty s : s <> [] -> _b64 s <> "".
Proof.
  intros Hs E. apply Hs.
  apply b64_injective. rewrite E. reflexivity.
Qed.

End Base64Facts.

(** ** Dictionaries *)

Module DictFacts.
Import Json.

Lemma dict_get_set_eq k v d : dict_get k (dict_set k v d) = Some v.
Proof.
  induction d as [|[k' v'] d IH]; simpl.
  - now rewrite String.eqb_refl.
  - destruct (String.eqb k' k) eqn:E; simpl; rewrite E; auto.
Qed.

Lemma dict_get_set_ne k k' v d :
  k <> k' -> dict_get k (dict_set k' v d) = dict_get k d.
Proof.
  intros Hne. induction d as [|[k0 v0] d IH]; simpl.
  - destruct (String.eqb_spec k' k); congruence.
  - destruct (String.eqb_spec k0 k'); simpl.
    + subst k0. destruct (String.eqb_spec k' k); congruence.
    + now rewrite IH.
Qed.

Lemma dict_get_del_eq k d : dict_get k (dict_del k d) = None.
Proof.
  induction d as [|[k0 v0] d IH]; simpl; [reflexivity|].
  destruct (String.eqb k0 k) eqn:E; simpl; [|rewrite E]; auto.
Qed.

Lemma dict_get_del_ne k k' d :
  k <> k' -> dict_get k (dict_del k' d) = dict_get k d.
Proof.
  intros Hne. induction d as [|[k0 v0] d IH]; simpl; [reflexivity|].
  destruct (String.eqb_spec k0 k'); simpl.
  - subst k0. destruct (String.eqb_spec k' k); congruence.
  - now rewrite IH.
Qed.

Lemma dict_in_set_eq k v d : dict_in k (dict_set k v d) = true.
Proof. unfold dict_in. now rewrite dict_get_set_eq. Qed.

Lemma dict_in_set_ne k k' v d :
  k <> k' -> dict_in k (dict_set k' v d) = dict_in k d.
Proof. intros. unfold dict_in. now rewrite dict_get_set_ne. Qed.

Lemma dict_in_del_eq k d : dict_in k (dict_del k d) = false.
Proof. unfold dict_in. now rewrite dict_get_del_eq. Qed.

Lemma dict_in_del_ne k k' d :
  k <> k' -> dict_in k (dict_del k' d) = dict_in k d.
Proof. intros. unfold dict_in. now rewrite dict_get_del_ne. Qed.

End DictFacts.

(** ** Running the monad *)

Module MonadFacts.
Import Json Py Acme Summary.

Lemma lookup_snoc (h : list dict) d : (h ++ [d]) !! length h = Some d.
Proof. now rewrite list_lookup_middle. Qed.

Lemma insert_snoc (h : list dict) d d' :
  <[length h := d']> (h ++ [d]) = h ++ [d'].
Proof. induction h as [|x h IH]; simpl; [reflexivity|]. now rewrite IH. Qed.

Lemma lookup_extend (h objs : list dict) l d :
  h !! l = Some d -> (h ++ objs) !! l = Some d.
Proof.
  intros H. rewrite lookup_app_l; [assumption|].
  now apply lookup_lt_Some in H.
Qed.

(** Unfold the monadic operations of the script in [H], down to the tests
    that the world or the state decides. *)
Ltac mred H :=
  cbv beta iota zeta delta
    [bind ret raise lift read_nonce write_nonce alloc load store deepcopy
     dict_contains dict_getitem dict_setitem dict_delitem
     http_get http_post copy_identity strip_identity current_or_fresh_nonce
     sign_protected _sign_request _send_signed_request identify_account
     inner_key_change roll_over fetch_directory _get_private_acme_signature
     account_rollover
     set_heap set_nonce add_event heap nonce sent
     old_accountkeypath new_accountkeypath acme_config
     private_acme_old_signature private_acme_new_signature] in H.

Ltac mheap H :=
  repeat first [ rewrite lookup_snoc in H | rewrite insert_snoc in H ].

(** Case analysis on an innermost test of [H]. *)
Ltac mcase H :=
  match type of H with
  | context [match ?x with _ => _ end] =>
      lazymatch x with
      | context [match _ with _ => _ end] => fail
      | _ => destruct x eqn:?
      end
  end.

Ltac mdone H :=
  lazymatch type of H with
  | (_, _) = (_, _) => simplify_eq
  end.

Ltac mstep H := mred H; mheap H; first [mdone H | mcase H].
Ltac mrun H := repeat (mstep H).

Lemma subscript_error value key e :
  subscript value key = inl e -> e = KeyError key \/ e = TypeError.
Proof.
  unfold subscript. destruct value; try (intros [= <-]; now right).
  destruct (dict_get key members); intros [= <-]. now left.
Qed.

Lemma subscript_not_runtime value key m :
  subscript value key <> inl (RuntimeError m).
Proof. intros H. apply subscript_error in H as [H|H]; discriminate. Qed.

Lemma header_getitem_not_runtime name r m :
  header_getitem name r <> inl (RuntimeError m).
Proof. unfold header_getitem. destruct (header_get name (headers r)); discriminate. Qed.

Lemma openssl_not_runtime W command options communicate m :
  _openssl W command options communicate <> inl (RuntimeError m).
Proof.
  unfold _openssl. destruct (openssl_run W command options communicate) as [[c o] e].
  destruct (negb (c =? 0)%Z); discriminate.
Qed.

Ltac mabsurd :=
  exfalso;
  match goal with
  | H : subscript _ _ = inl (RuntimeError _) |- _ =>
      exact (subscript_not_runtime _ _ _ H)
  | H : header_getitem _ _ = inl (RuntimeError _) |- _ =>
      exact (header_getitem_not_runtime _ _ _ H)
  | H : _openssl _ _ _ _ = inl (RuntimeError _) |- _ =>
      exact (openssl_not_runtime _ _ _ _ _ H)
  end.

Ltac mview :=
  cbn [heap nonce sent old_accountkeypath new_accountkeypath acme_config
       private_acme_old_signature private_acme_new_signature].

Ltac mrew :=
  repeat match goal with
         | H : ?x = _ |- context [match ?x with _ => _ end] =>
             rewrite H; cbv beta iota
         | H : ?x = _ |- context [if ?x then _ else _] =>
             rewrite H; cbv beta iota
         end.

Ltac atom :=
  mview; mrew;
  first [ reflexivity | eassumption | discriminate
        | rewrite app_nil_r; reflexivity
        | symmetry; eassumption ].

(** Solve a goal made of conjunctions, disjunctions and existentials whose
    atoms hold by assumption or by computation. *)
Ltac crack :=
  lazymatch goal with
  | |- _ /\ _ => split; crack
  | |- exists _, _ => eexists; crack
  | |- (_ /\ _) \/ _ => first [ left; split; [atom | crack] | right; crack ]
  | |- _ \/ _ => first [ left; crack | right; crack ]
  | |- forall _, _ => intros; simplify_eq; first [mabsurd | crack]
  | |- _ => atom
  end.

Ltac mclose := mview; mrew; crack.

End MonadFacts.

(** ** The signer *)

Module SignerFacts.
Import Base64 Json Py Acme Summary DictFacts MonadFacts.

Section Signer.
Variable W : world.
Variable C : closure.

(** What a call of [sign_protected] that returns has done. *)
Lemma sign_protected_inr url keypath is_inner st p st' :
  sign_protected W C url keypath is_inner st = (inr p, st') ->
  exists tmpl hdr,
    selected_identity C keypath (heap st) = Some tmpl /\
    p = length (heap st) /\
    heap st' = heap st ++ [hdr] /\ nonce st' = nonce st /\
    finalized W C url is_inner st tmpl hdr (sent st').
Proof.
  destruct st as [h n s], C as [old new cfg lo ln]. intros H.
  mrun H; try discriminate;
    unfold finalized, selected_identity, without_kid, nonce_source; mclose.
Qed.

(** What any call of [sign_protected] leaves behind: the nonce, every
    dictionary there was, and at most one more GET; and it raises the
    unknown-key error for a foreign key path only. *)
Lemma sign_protected_effect url keypath is_inner st r st' :
  sign_protected W C url keypath is_inner st = (r, st') ->
  nonce st' = nonce st /\
  (exists objs, heap st' = heap st ++ objs) /\
  (sent st' = sent st \/ exists u, sent st' = sent st ++ [EvGet u]) /\
  (forall m, r = inl (RuntimeError m) ->
     m = unknown_keypath /\
     String.eqb keypath (new_accountkeypath C) = false /\
     String.eqb keypath (old_accountkeypath C) = false).
Proof.
  destruct st as [h n s], C as [old new cfg lo ln]. intros H.
  mrun H; mclose.
Qed.

(** What a call of [_sign_request] that returns has done and returns. *)
Lemma sign_request_inr url keypath payload is_inner st jose st' :
  _sign_request W C url keypath payload is_inner st = (inr jose, st') ->
  exists tmpl hdr signature,
    selected_identity C keypath (heap st) = Some tmpl /\
    heap st' = heap st ++ [hdr] /\ nonce st' = nonce st /\
    finalized W C url is_inner st tmpl hdr (sent st') /\
    _openssl W "dgst" ["-sha256"; "-sign"; keypath]
      (Some (encode_utf8
               (b64_json (JObj hdr) +:+ "." +:+ payload64_of payload)))
      = inr signature /\
    jose = jose_of (b64_json (JObj hdr)) (payload64_of payload) signature.
Proof.
  intros H. unfold _sign_request in H. unfold bind at 1 in H.
  destruct (sign_protected W C url keypath is_inner st) as [[e|p] st1] eqn:Hp;
    [discriminate|].
  apply sign_protected_inr in Hp as (tmpl & hdr & Hsel & -> & Hheap & Hnonce & Hfin).
  destruct st1 as [h1 n1 s1]; cbn [heap nonce sent] in *. subst h1 n1.
  mrun H; try discriminate.
  exists tmpl, hdr. eexists. mclose.
Qed.

Lemma sign_request_effect url keypath payload is_inner st r st' :
  _sign_request W C url keypath payload is_inner st = (r, st') ->
  nonce st' = nonce st /\
  (exists objs, heap st' = heap st ++ objs) /\
  (sent st' = sent st \/ exists u, sent st' = sent st ++ [EvGet u]) /\
  (forall m, r = inl (RuntimeError m) ->
     m = unknown_keypath /\
     String.eqb keypath (new_accountkeypath C) = false /\
     String.eqb keypath (old_accountkeypath C) = false).
Proof.
  intros H. unfold _sign_request in H. unfold bind at 1 in H.
  destruct (sign_protected W C url keypath is_inner st) as [[e|p] st1] eqn:Hp.
  - injection H as <- <-.
    pose proof (sign_protected_effect _ _ _ _ _ _ Hp) as (Hn & Hh & Hs & Hm).
    split; [assumption|]; split; [assumption|]; split; [assumption|].
    intros m [= ->]. now apply (Hm m).
  - pose proof (sign_protected_effect _ _ _ _ _ _ Hp) as (Hn & Hh & Hs & _).
    destruct st1 as [h1 n1 s1]; cbn [heap nonce sent] in *.
    mrun H; mview; repeat split; try assumption;
      intros; simplify_eq; mabsurd.
Qed.

(** A foreign key path is refused before anything else is done. *)
Lemma sign_request_unknown url keypath payload is_inner st :
  String.eqb keypath (new_accountkeypath C) = false ->
  String.eqb keypath (old_accountkeypath C) = false ->
  _sign_request W C url keypath payload is_inner st
  = (inl (RuntimeError unknown_keypath), st).
Proof.
  intros Hn Ho.
  unfold _sign_request, sign_protected, copy_identity, bind, raise.
  now rewrite Hn, Ho.
Qed.

(** *** The transport *)

Lemma send_inr url keypath payload st resp body st' :
  _send_signed_request W C url keypath payload st = (inr (resp, body), st') ->
  exists jose st1 n,
    _sign_request W C url keypath payload false st = (inr jose, st1) /\
    post_response W (sent st1) url jose = Some resp /\
    response_ok resp = true /\
    header_getitem "Replay-Nonce" resp = inr n /\
    body = decoded_body resp /\
    heap st' = heap st1 /\ nonce st' = Some n /\
    sent st' = sent st1 ++ [EvPost url jose].
Proof.
  intros H. unfold _send_signed_request in H. unfold bind at 1 in H.
  destruct (_sign_request W C url keypath payload false st)
    as [[e|jose] st1] eqn:Hs; [discriminate|].
  destruct st1 as [h1 n1 s1].
  mrun H; try discriminate; unfold decoded_body;
    eexists jose, _, _; mclose.
Qed.

Lemma send_inl url keypath payload st e st' :
  _send_signed_request W C url keypath payload st = (inl e, st') ->
  _sign_request W C url keypath payload false st = (inl e, st')
  \/ exists jose st1,
       _sign_request W C url keypath payload false st = (inr jose, st1) /\
       heap st' = heap st1 /\ nonce st' = nonce st1 /\
       sent st' = sent st1 ++ [EvPost url jose] /\
       ((truthy_response (post_response W (sent st1) url jose) = false /\
         e = RuntimeError no_response)
        \/ exists resp,
             post_response W (sent st1) url jose = Some resp /\
             response_ok resp = true /\
             header_getitem "Replay-Nonce" resp = inl e).
Proof.
  intros H. unfold _send_signed_request in H. unfold bind at 1 in H.
  destruct (_sign_request W C url keypath payload false st)
    as [[e1|jose] st1] eqn:Hs.
  - injection H as <- <-. now left.
  - right. destruct st1 as [h1 n1 s1].
    mrun H; try discriminate; unfold truthy_response;
      eexists jose, _; mclose.
Qed.

End Signer.
End SignerFacts.

(** ** The orchestration *)

Module RunFacts.
Import Base64 Json Py Acme Summary DictFacts MonadFacts SignerFacts.

Lemma posts_app calls more : posts (calls ++ more) = posts calls ++ posts more.
Proof. unfold posts. now rewrite List.filter_app. Qed.

Lemma posts_get calls u : posts (calls ++ [EvGet u]) = posts calls.
Proof. rewrite posts_app. cbn. now rewrite app_nil_r. Qed.

Lemma posts_post calls u j :
  posts (calls ++ [EvPost u j]) = posts calls ++ [EvPost u j].
Proof. now rewrite posts_app. Qed.

(** The dictionary a key gives has exactly the members [alg] and [jwk],
    and the JWK the members [e], [kty] and [n]. *)
Lemma private_acme_signature_shape W keypath d :
  private_acme_signature W keypath = inr d ->
  exists e n,
    d = [("alg", JStr "RS256");
         ("jwk", JObj [("e", JStr e); ("kty", JStr "RSA"); ("n", JStr n)])].
Proof.
  unfold private_acme_signature. intros H.
  repeat (mcase H; try discriminate).
  all: injection H as <-; eauto.
Qed.

Lemma private_acme_signature_not_runtime W keypath m :
  private_acme_signature W keypath <> inl (RuntimeError m).
Proof.
  unfold private_acme_signature. intros H.
  destruct (_openssl W "rsa" ["-in"; keypath; "-noout"; "-text"] None) eqn:E.
  - injection H as ->. exact (openssl_not_runtime _ _ _ _ _ E).
  - destruct (rsa_text_search W l) as [| |pub_hex pub_exp]; try discriminate.
    destruct (int_of_str pub_exp) as [error|exponent] eqn:Ei.
    + injection H as ->. unfold int_of_str in Ei.
      repeat (mcase Ei; try discriminate).
    + repeat (mcase H; try discriminate).
Qed.

Section Orchestration.
Variable W : world.
Variable C : closure.

Lemma sign_request_posts url keypath payload is_inner st r st' :
  _sign_request W C url keypath payload is_inner st = (r, st') ->
  posts (sent st') = posts (sent st).
Proof.
  intros H. apply sign_request_effect in H as (_ & _ & [->|[u ->]] & _);
    [reflexivity|apply posts_get].
Qed.

(** The transport either fails with the signer, before any POST, or makes
    exactly one POST, of what the signer returned. *)
Lemma send_effect url keypath payload st r st' :
  _send_signed_request W C url keypath payload st = (r, st') ->
  (exists e, r = inl e /\
     _sign_request W C url keypath payload false st = (inl e, st'))
  \/ exists jose st1,
       _sign_request W C url keypath payload false st = (inr jose, st1) /\
       heap st' = heap st1 /\
       sent st' = sent st1 ++ [EvPost url jose].
Proof.
  destruct r as [e|[resp body]]; intros H.
  - apply send_inl in H as [H|(jose & st1 & Hs & Hh & _ & Hsent & _)]; eauto 8.
  - apply send_inr in H as (jose & st1 & n & Hs & _ & _ & _ & _ & Hh & _ & Hsent).
    eauto 8.
Qed.

Lemma send_not_unknown url payload st st' :
  _send_signed_request W C url (old_accountkeypath C) payload st
  <> (inl (RuntimeError unknown_keypath), st').
Proof.
  intros H. apply send_inl in H as [H|(jose & st1 & _ & _ & _ & _ & [[_ H]|(resp & _ & _ & H)])].
  - apply sign_request_effect in H as (_ & _ & _ & Hm).
    destruct (Hm _ eq_refl) as (_ & _ & Ho). now rewrite String.eqb_refl in Ho.
  - discriminate.
  - exact (header_getitem_not_runtime _ _ _ H).
Qed.

Lemma identify_inr st st' :
  identify_account W C st = (inr tt, st') ->
  exists new_account jose st1 resp n location d_old d_new,
    subscript (acme_config C) "newAccount" = inr new_account /\
    _sign_request W C new_account (old_accountkeypath C) lookup_payload false st
      = (inr jose, st1) /\
    post_response W (sent st1) new_account jose = Some resp /\
    status_code resp = 200%Z /\
    header_getitem "Replay-Nonce" resp = inr n /\
    header_getitem "Location" resp = inr location /\
    nonce st' = Some n /\
    sent st' = sent st1 ++ [EvPost new_account jose] /\
    heap st1 !! private_acme_old_signature C = Some d_old /\
    <[private_acme_old_signature C := dict_set "kid" (JStr location) d_old]>
      (heap st1) !! private_acme_new_signature C = Some d_new /\
    heap st' =
      <[private_acme_new_signature C := dict_set "kid" (JStr location) d_new]>
        (<[private_acme_old_signature C := dict_set "kid" (JStr location) d_old]>
           (heap st1)).
Proof.
  intros H. unfold identify_account in H. unfold bind at 1, lift at 1 in H.
  destruct (subscript (acme_config C) "newAccount") as [e|new_account] eqn:Hna;
    [discriminate|].
  unfold bind at 1 in H.
  destruct (_send_signed_request W C new_account (old_accountkeypath C)
              lookup_payload st)
    as [[e|[resp body]] st2] eqn:Hsend; [discriminate|].
  apply send_inr in Hsend
    as (jose & st1 & n & Hs & Hpost & Hok & Hnonce & -> & Hh & Hn & Hsent).
  destruct st2 as [h2 n2 s2], st1 as [h1 n1 s1], C as [old new cfg lo ln];
    cbn [heap nonce sent] in *. subst h2 n2 s2.
  mrun H; try discriminate.
  apply Z.eqb_eq in Heqb.
  exists new_account, jose. eexists _, resp, n, _, _, _. mclose.
Qed.

(** Whatever it returns, the account lookup makes at most one POST, and
    it never fails on an unknown key. *)
Lemma identify_effect st r st' :
  identify_account W C st = (r, st') ->
  r <> inl (RuntimeError unknown_keypath) /\
  (posts (sent st') = posts (sent st)
   \/ exists u j, posts (sent st') = posts (sent st) ++ [EvPost u j]).
Proof.
  intros H. unfold identify_account in H. unfold bind at 1, lift at 1 in H.
  destruct (subscript (acme_config C) "newAccount") as [e|new_account] eqn:Hna.
  { injection H as <- <-. split; [|now left].
    intros [= ->]. exact (subscript_not_runtime _ _ _ Hna). }
  unfold bind at 1 in H.
  destruct (_send_signed_request W C new_account (old_accountkeypath C)
              lookup_payload st) as [r1 st2] eqn:Hsend.
  pose proof (send_not_unknown new_account lookup_payload st st2) as Hnu.
  assert (Hp : posts (sent st2) = posts (sent st)
               \/ exists u j, posts (sent st2) = posts (sent st) ++ [EvPost u j]).
  { apply send_effect in Hsend as [(e & -> & Hs)|(jose & st1 & Hs & _ & ->)].
    - left. exact (sign_request_posts _ _ _ _ _ _ _ Hs).
    - right. exists new_account, jose. rewrite posts_post.
      now rewrite (sign_request_posts _ _ _ _ _ _ _ Hs). }
  destruct r1 as [e|[resp body]].
  { injection H as <- <-. split; [|exact Hp].
    intros [= ->]. now apply Hnu in Hsend. }
  clear Hsend Hnu.
  destruct st2 as [h2 n2 s2], C as [old new cfg lo ln];
    cbn [heap nonce sent] in *.
  mrun H; mview; (split; [|exact Hp]); try discriminate;
    intros [= ->]; mabsurd.
Qed.

(** Without a nonce and without a [newNonce] endpoint, the signer of an
    outer request fails before any network call; on an identity that
    holds [jwk], with a [newAccount] endpoint, it fails on that lookup. *)
Lemma sign_protected_without_new_nonce url keypath st r st' e :
  nonce st = None ->
  subscript (acme_config C) "newNonce" = inl e ->
  sign_protected W C url keypath false st = (r, st') ->
  sent st' = sent st /\
  exists e', r = inl e' /\
    forall tmpl new_account,
      selected_identity C keypath (heap st) = Some tmpl ->
      dict_in "jwk" tmpl = true ->
      subscript (acme_config C) "newAccount" = inr new_account ->
      e' = e.
Proof.
  destruct st as [h n s], C as [old new cfg lo ln].
  cbn [heap nonce sent acme_config]. intros -> He H.
  unfold selected_identity.
  cbn [old_accountkeypath new_accountkeypath private_acme_old_signature
       private_acme_new_signature].
  mrun H; (split; [reflexivity|]); eexists; (split; [reflexivity|]);
    intros tmpl na Hsel Hjwk Hna;
    repeat match goal with
           | E : ?x = _, E' : context [?x] |- _ => rewrite E in E'
           end;
    congruence.
Qed.

Lemma identify_without_new_nonce st r st' e :
  nonce st = None ->
  subscript (acme_config C) "newNonce" = inl e ->
  identify_account W C st = (r, st') ->
  sent st' = sent st /\
  exists e', r = inl e' /\
    forall tmpl new_account,
      selected_identity C (old_accountkeypath C) (heap st) = Some tmpl ->
      dict_in "jwk" tmpl = true ->
      subscript (acme_config C) "newAccount" = inr new_account ->
      e' = e.
Proof.
  intros Hn He H. unfold identify_account in H. unfold bind at 1, lift at 1 in H.
  destruct (subscript (acme_config C) "newAccount") as [e1|na] eqn:Hna.
  { injection H as <- <-. split; [reflexivity|]. eexists. split; [reflexivity|].
    discriminate. }
  unfold bind at 1, _send_signed_request at 1, bind at 1,
    _sign_request at 1, bind at 1 in H.
  destruct (sign_protected W C na (old_accountkeypath C) false st)
    as [r1 st1] eqn:Hs.
  destruct (sign_protected_without_new_nonce _ _ _ _ _ _ Hn He Hs)
    as (Hsent & e' & -> & Hex).
  injection H as <- <-. split; [assumption|]. eexists. split; [reflexivity|].
  intros tmpl new_account Hsel Hjwk [= <-]. now apply (Hex tmpl na).
Qed.

(** *** The key change *)

Lemma inner_key_change_inr st jose st' :
  inner_key_change W C st = (inr jose, st') ->
  exists key_change d_old account old_key tmpl signature,
    subscript (acme_config C) "keyChange" = inr key_change /\
    heap st !! private_acme_old_signature C = Some d_old /\
    dict_get "kid" d_old = Some account /\
    dict_get "jwk" d_old = Some old_key /\
    selected_identity C (new_accountkeypath C) (heap st) = Some tmpl /\
    heap st' = heap st ++ [dict_set "url" key_change (without_kid tmpl)] /\
    nonce st' = nonce st /\ sent st' = sent st /\
    _openssl W "dgst" ["-sha256"; "-sign"; new_accountkeypath C]
      (Some (encode_utf8
               (b64_json (JObj (dict_set "url" key_change (without_kid tmpl)))
                +:+ "." +:+
                b64_json (JObj [("account", account); ("oldKey", old_key)]))))
      = inr signature /\
    jose = jose_of
             (b64_json (JObj (dict_set "url" key_change (without_kid tmpl))))
             (b64_json (JObj [("account", account); ("oldKey", old_key)]))
             signature.
Proof.
  intros H. unfold inner_key_change in H. unfold bind at 1, lift at 1 in H.
  destruct (subscript (acme_config C) "keyChange") as [e|kc] eqn:Hkc;
    [discriminate|].
  unfold bind at 1, dict_getitem at 1, bind at 1, load at 1 in H.
  destruct (heap st !! private_acme_old_signature C) as [d_old|] eqn:Hold;
    [|discriminate].
  destruct (dict_get "kid" d_old) as [account|] eqn:Hkid; [|discriminate].
  unfold ret at 1 in H.
  unfold bind at 1, dict_getitem at 1, bind at 1, load at 1 in H.
  rewrite Hold in H.
  destruct (dict_get "jwk" d_old) as [old_key|] eqn:Hjwk; [|discriminate].
  unfold ret at 1 in H.
  apply sign_request_inr in H
    as (tmpl & hdr & signature & Hsel & Hheap & Hnonce & Hfin & Hsig & ->).
  destruct Hfin as [(_ & Hsent & ->)|(Hf & _)]; [|discriminate].
  exists kc, d_old, account, old_key, tmpl, signature.
  repeat split; assumption.
Qed.

Lemma inner_key_change_effect st r st' :
  inner_key_change W C st = (r, st') ->
  r <> inl (RuntimeError unknown_keypath) /\
  posts (sent st') = posts (sent st).
Proof.
  intros H. unfold inner_key_change in H. unfold bind at 1, lift at 1 in H.
  destruct (subscript (acme_config C) "keyChange") as [e|kc] eqn:Hkc.
  { injection H as <- <-. split; [|reflexivity].
    intros [= ->]. exact (subscript_not_runtime _ _ _ Hkc). }
  unfold bind at 1, dict_getitem at 1, bind at 1, load at 1 in H.
  destruct (heap st !! private_acme_old_signature C) as [d_old|] eqn:Hold;
    [|injection H as <- <-; split; [discriminate|reflexivity]].
  destruct (dict_get "kid" d_old) as [account|] eqn:Hkid;
    [|injection H as <- <-; split; [discriminate|reflexivity]].
  unfold ret at 1 in H.
  unfold bind at 1, dict_getitem at 1, bind at 1, load at 1 in H.
  rewrite Hold in H.
  destruct (dict_get "jwk" d_old) as [old_key|] eqn:Hjwk;
    [|injection H as <- <-; split; [discriminate|reflexivity]].
  unfold ret at 1 in H.
  split; [|exact (sign_request_posts _ _ _ _ _ _ _ H)].
  intros ->. apply sign_request_effect in H as (_ & _ & _ & Hm).
  destruct (Hm _ eq_refl) as (_ & Hn & _). now rewrite String.eqb_refl in Hn.
Qed.

(** The key change never fails on an unknown key; it makes at most one
    POST, to the [keyChange] URL, whose body is the outer JWS: its payload
    is the encoding of the inner JWS. *)
Lemma roll_over_effect st r st' :
  roll_over W C st = (r, st') ->
  r <> inl (RuntimeError unknown_keypath) /\
  (posts (sent st') = posts (sent st)
   \/ exists inner st1 key_change outer_protected outer_signature,
        inner_key_change W C st = (inr inner, st1) /\
        subscript (acme_config C) "keyChange" = inr key_change /\
        posts (sent st') =
          posts (sent st)
          ++ [EvPost key_change
                (jose_of outer_protected (payload64_of inner) outer_signature)]).
Proof.
  intros H. unfold roll_over in H. unfold bind at 1 in H.
  destruct (inner_key_change W C st) as [[e|inner] st1] eqn:Hin.
  { injection H as <- <-. apply inner_key_change_effect in Hin as (Hne & Hp).
    split; [|now left]. intros [= ->]. now apply Hne. }
  pose proof (inner_key_change_effect _ _ _ Hin) as (_ & Hp1).
  unfold bind at 1, lift at 1 in H.
  destruct (subscript (acme_config C) "keyChange") as [e|kc] eqn:Hkc.
  { injection H as <- <-. split; [|now left].
    intros [= ->]. exact (subscript_not_runtime _ _ _ Hkc). }
  unfold bind at 1 in H.
  destruct (_send_signed_request W C kc (old_accountkeypath C) inner st1)
    as [r1 st2] eqn:Hsend.
  pose proof (send_not_unknown kc inner st1 st2) as Hnu.
  assert (Hp : posts (sent st2) = posts (sent st)
               \/ exists inner st1 key_change outer_protected outer_signature,
        inner_key_change W C st = (inr inner, st1) /\
        subscript (acme_config C) "keyChange" = inr key_change /\
        posts (sent st2) =
          posts (sent st)
          ++ [EvPost key_change
                (jose_of outer_protected (payload64_of inner) outer_signature)]).
  { apply send_effect in Hsend as [(e & -> & Hs)|(jose & st3 & Hs & _ & ->)].
    - left. rewrite (sign_request_posts _ _ _ _ _ _ _ Hs). exact Hp1.
    - right. rewrite posts_post, (sign_request_posts _ _ _ _ _ _ _ Hs), Hp1.
      apply sign_request_inr in Hs as (tmpl & hdr & sg & _ & _ & _ & _ & _ & ->).
      exists inner, st1, kc. eauto. }
  rewrite Hin, Hkc in Hp.
  destruct r1 as [e|[resp body]].
  { injection H as <- <-. split; [|exact Hp].
    intros [= ->]. now apply Hnu in Hsend. }
  destruct (negb (status_code resp =? 200)%Z);
    injection H as <- <-; (split; [discriminate|exact Hp]).
Qed.

End Orchestration.

(** *** The whole run *)

Lemma identify_without_new_account W C st e :
  subscript (acme_config C) "newAccount" = inl e ->
  identify_account W C st = (inl e, st).
Proof.
  intros H. unfold identify_account. unfold bind at 1, lift at 1.
  now rewrite H.
Qed.

Lemma roll_over_without_key_change W C st e :
  subscript (acme_config C) "keyChange" = inl e ->
  roll_over W C st = (inl e, st).
Proof.
  intros H. unfold roll_over. unfold bind at 1, inner_key_change at 1.
  unfold bind at 1, lift at 1. now rewrite H.
Qed.

Lemma subscript_missing d key :
  dict_get key d = None -> subscript (JObj d) key = inl (KeyError key).
Proof. intros H. unfold subscript. now rewrite H. Qed.

Section Whole.
Variable W : world.

Lemma bind_inv {A B} (m : M A) (k : A -> M B) st r st' :
  bind m k st = (r, st') ->
  (exists e, m st = (inl e, st') /\ r = inl e)
  \/ exists a st1, m st = (inr a, st1) /\ k a st1 = (r, st').
Proof.
  unfold bind. destruct (m st) as [[e|a] st1]; intros H.
  - injection H as <- <-. left. eauto.
  - right. eauto.
Qed.

(** A run first fetches the directory and reads both keys; it stops there
    on a failure, having made the directory request only. *)
Lemma run_prefix old new dir r sF :
  account_rollover W old new dir initial_state = (r, sF) ->
  (sent sF = [EvGet (JStr dir)] /\
   exists e, r = inl e /\ (forall m, e <> RuntimeError m) /\
     (requests_get W [] (JStr dir) = None
      \/ (exists rd, requests_get W [] (JStr dir) = Some rd /\
                     json_body rd = None)
      \/ private_acme_signature W old = inl e
      \/ private_acme_signature W new = inl e))
  \/ exists rd cfg ident_old ident_new,
       requests_get W [] (JStr dir) = Some rd /\
       json_body rd = Some cfg /\
       private_acme_signature W old = inr ident_old /\
       private_acme_signature W new = inr ident_new /\
       (identify_account W (run_closure old new cfg) ;;
        roll_over W (run_closure old new cfg))
         (keys_read_state dir ident_old ident_new) = (r, sF).
Proof.
  intros H. unfold account_rollover, initial_state in H.
  unfold bind at 1, write_nonce at 1, set_nonce in H. cbn [heap nonce sent] in H.
  unfold bind at 1, fetch_directory at 1, bind at 1, http_get at 1 in H.
  cbn [sent add_event heap nonce app] in H.
  destruct (requests_get W [] (JStr dir)) as [rd|] eqn:Hget.
  2:{ injection H as <- <-. left. split; [reflexivity|].
      eexists. split; [reflexivity|]. split; [discriminate|]. now left. }
  destruct (json_body rd) as [cfg|] eqn:Hcfg.
  2:{ injection H as <- <-. left. split; [reflexivity|].
      eexists. split; [reflexivity|]. split; [discriminate|].
      right; left. eauto. }
  unfold ret at 1 in H.
  unfold bind at 1, _get_private_acme_signature at 1, bind at 1, lift at 1 in H.
  destruct (private_acme_signature W old) as [e|ident_old] eqn:Hold.
  { injection H as <- <-. left. split; [reflexivity|].
    eexists. split; [reflexivity|]. split; [|auto].
    intros m ->. exact (private_acme_signature_not_runtime _ _ _ Hold). }
  unfold alloc at 1, set_heap in H. cbn [heap nonce sent app length] in H.
  unfold bind at 1, _get_private_acme_signature at 1, bind at 1, lift at 1 in H.
  destruct (private_acme_signature W new) as [e|ident_new] eqn:Hnew.
  { injection H as <- <-. left. split; [reflexivity|].
    eexists. split; [reflexivity|]. split; [|auto].
    intros m ->. exact (private_acme_signature_not_runtime _ _ _ Hnew). }
  unfold alloc at 1, set_heap in H. cbn [heap nonce sent app length] in H.
  right. exists rd, cfg, ident_old, ident_new. repeat split; assumption.
Qed.

End Whole.
End RunFacts.

(** ** Serialization never gives an empty text *)

Module JsonFacts.
Import Base64 Base64Facts Json Acme.

Lemma append_nonempty_l a b : a <> "" -> a +:+ b <> "".
Proof. destruct a; [congruence|discriminate]. Qed.

Lemma string_of_uint_nonempty d :
  DecimalString.NilZero.string_of_uint d <> "".
Proof. destruct d; discriminate. Qed.

Lemma dumps_nonempty value : dumps value <> "".
Proof.
  destruct value as [|[|]|z|s|items|members]; try discriminate.
  cbn [dumps]. unfold DecimalString.NilZero.string_of_int.
  destruct (Z.to_int z); [apply string_of_uint_nonempty|discriminate].
Qed.

Lemma encode_utf8_nonempty s : s <> "" -> encode_utf8 s <> [].
Proof.
  destruct s as [|c s]; [congruence|]. intros _.
  unfold encode_utf8. cbn [list_ascii_of_string flat_map].
  unfold utf8_char. destruct (N_of_ascii c <? 128)%N; discriminate.
Qed.

(** The encoding of a JSON value is never the empty string. *)
Lemma b64_json_nonempty value : b64_json value <> "".
Proof.
  unfold b64_json. apply b64_nonempty, encode_utf8_nonempty, dumps_nonempty.
Qed.

Lemma py_eq_empty_str payload :
  py_eq payload (JStr "") = true <-> payload = JStr "".
Proof.
  destruct payload; cbn [py_eq]; split; try discriminate; try congruence.
  - intros H. apply String.eqb_eq in H. now subst.
  - intros [= ->]. reflexivity.
Qed.

Lemma payload64_of_object members :
  payload64_of (JObj members) = b64_json (JObj members).
Proof. reflexivity. Qed.

End JsonFacts.

(** ** The calls and the headers of a run *)

Module TraceFacts.
Import Base64 Base64Facts Json Py Acme Summary Endpoints Wire.
Import DictFacts MonadFacts SignerFacts RunFacts JsonFacts.

Section Signer.
Variable W : world.
Variable C : closure.

Lemma sign_protected_calls url keypath is_inner st r st' :
  sign_protected W C url keypath is_inner st = (r, st') ->
  (sent st' = sent st
   \/ exists u, subscript (acme_config C) "newNonce" = inr u /\
                sent st' = sent st ++ [EvGet u]) /\
  (is_inner = true \/ (exists c n, nonce st = Some (String c n)) ->
   sent st' = sent st).
Proof.
  destruct st as [h n s], C as [old new cfg lo ln]. intros H.
  mrun H; mview;
    (split; [crack|]);
    try (intros _; reflexivity);
    intros [?|(c0 & n0 & ?)]; discriminate.
Qed.

(** The calls of the signer. *)
Lemma sign_request_calls url keypath payload is_inner st r st' :
  _sign_request W C url keypath payload is_inner st = (r, st') ->
  (sent st' = sent st
   \/ exists u, subscript (acme_config C) "newNonce" = inr u /\
                sent st' = sent st ++ [EvGet u]) /\
  (is_inner = true \/ (exists c n, nonce st = Some (String c n)) ->
   sent st' = sent st).
Proof.
  intros H.
  unfold _sign_request in H. unfold bind at 1 in H.
  destruct (sign_protected W C url keypath is_inner st) as [[e|p] st1] eqn:Hs.
  - injection H as <- <-. exact (sign_protected_calls _ _ _ _ _ _ Hs).
  - assert (sent st' = sent st1) as ->.
    { destruct st1 as [h1 n1 s1]. mrun H; reflexivity. }
    exact (sign_protected_calls _ _ _ _ _ _ Hs).
Qed.

(** The header under construction, whatever the signer returns: once the
    identity is copied, the copy holds [jwk] or [kid] as lines 71-75 leave
    them. *)
Lemma sign_protected_header url keypath is_inner st r st' tmpl na :
  selected_identity C keypath (heap st) = Some tmpl ->
  subscript (acme_config C) "newAccount" = inr na ->
  dict_in "jwk" tmpl = true ->
  sign_protected W C url keypath is_inner st = (r, st') ->
  exists hdr,
    heap st' = heap st ++ [hdr] /\
    if is_inner || py_eq url na
    then dict_in "jwk" hdr = true /\ dict_in "kid" hdr = false
    else dict_in "jwk" hdr = false /\ dict_in "kid" hdr = dict_in "kid" tmpl.
Proof.
  destruct st as [h n s], C as [old new cfg lo ln].
  unfold selected_identity.
  cbn [heap nonce sent acme_config old_accountkeypath new_accountkeypath
       private_acme_old_signature private_acme_new_signature].
  intros Hsel Hna Hjwk H.
  unfold sign_protected, strip_identity in H.
  cbn [acme_config] in H. rewrite Hna in H.
  mrun H; try discriminate.
  all: eexists; (split; [reflexivity|]); cbn [orb];
    repeat match goal with
           | E : py_eq _ _ = _ |- _ => rewrite E
           end;
    rewrite ?dict_in_set_ne, ?dict_in_del_eq, ?dict_in_del_ne by discriminate;
    auto.
Qed.

Lemma sign_request_header url keypath payload is_inner st r st' tmpl na :
  selected_identity C keypath (heap st) = Some tmpl ->
  subscript (acme_config C) "newAccount" = inr na ->
  dict_in "jwk" tmpl = true ->
  _sign_request W C url keypath payload is_inner st = (r, st') ->
  exists hdr,
    heap st' = heap st ++ [hdr] /\
    if is_inner || py_eq url na
    then dict_in "jwk" hdr = true /\ dict_in "kid" hdr = false
    else dict_in "jwk" hdr = false /\ dict_in "kid" hdr = dict_in "kid" tmpl.
Proof.
  intros Hsel Hna Hjwk H.
  unfold _sign_request in H. unfold bind at 1 in H.
  destruct (sign_protected W C url keypath is_inner st) as [[e|p] st1] eqn:Hs.
  - injection H as <- <-. exact (sign_protected_header _ _ _ _ _ _ _ _ Hsel Hna Hjwk Hs).
  - assert (heap st' = heap st1) as ->.
    { destruct st1 as [h1 n1 s1]. mrun H; reflexivity. }
    exact (sign_protected_header _ _ _ _ _ _ _ _ Hsel Hna Hjwk Hs).
Qed.

(** The encoder gives the base64url text of its input. *)
Lemma base64url_of_b64 bs : base64url_of bs (_b64 bs).
Proof.
  split; [reflexivity|]. apply b64_decode_encode_no_padding_aux.
Qed.

Lemma json_text_of_b64_json value : json_text_of value (b64_json value).
Proof. apply base64url_of_b64. Qed.

Lemma openssl_signs_intro keypath message signature :
  _openssl W "dgst" ["-sha256"; "-sign"; keypath]
    (Some (encode_utf8 message)) = inr signature ->
  openssl_signs W keypath message signature.
Proof.
  unfold _openssl, openssl_signs.
  destruct (openssl_run W "dgst" ["-sha256"; "-sign"; keypath]
              (Some (encode_utf8 message))) as [[c o] e].
  destruct (c =? 0)%Z eqn:E; cbn [negb fst]; [|discriminate].
  apply Z.eqb_eq in E. intros [= ->]. now subst.
Qed.

Lemma signed_jws_intro keypath hdr payload64 signature :
  _openssl W "dgst" ["-sha256"; "-sign"; keypath]
    (Some (encode_utf8 (b64_json (JObj hdr) +:+ "." +:+ payload64)))
  = inr signature ->
  signed_jws W keypath hdr payload64
    (jose_of (b64_json (JObj hdr)) payload64 signature).
Proof.
  intros Hsig.
  exists (b64_json (JObj hdr)), signature, (_b64 signature).
  split; [reflexivity|]. split; [apply json_text_of_b64_json|].
  split; [now apply openssl_signs_intro|apply base64url_of_b64].
Qed.

(** What a call of [_sign_request] that returns puts on the wire. *)
Lemma sign_request_wire url keypath payload is_inner st jose st' :
  _sign_request W C url keypath payload is_inner st = (inr jose, st') ->
  exists tmpl hdr,
    selected_identity C keypath (heap st) = Some tmpl /\
    heap st' = heap st ++ [hdr] /\ nonce st' = nonce st /\
    finalized W C url is_inner st tmpl hdr (sent st') /\
    signed_jws W keypath hdr (payload64_of payload) jose.
Proof.
  intros H.
  apply sign_request_inr in H
    as (tmpl & hdr & signature & Hsel & Hheap & Hnonce & Hfin & Hsig & ->).
  exists tmpl, hdr. do 4 (split; [assumption|]).
  now apply signed_jws_intro.
Qed.

(** No failure of the signer is a [KeyError] on [keyChange]. *)
Lemma sign_request_not_key_change url keypath payload is_inner st st' :
  _sign_request W C url keypath payload is_inner st
  <> (inl (KeyError "keyChange"), st').
Proof.
  destruct st as [h n s], C as [old new cfg lo ln]. intros H.
  mrun H.
  all: repeat match goal with
       | E : subscript _ _ = inl _ |- _ =>
           apply subscript_error in E as [E|E]; discriminate
       | E : header_getitem _ _ = inl _ |- _ =>
           unfold header_getitem in E;
           destruct (header_get _ _); discriminate
       | E : _openssl _ _ _ _ = inl _ |- _ =>
           unfold _openssl in E;
           destruct (openssl_run _ _ _ _) as [[? ?] ?];
           destruct (negb (_ =? 0)%Z); discriminate
       end.
Qed.

(** Where the nonce of an outer request comes from when the nonce variable
    is still [None]. *)
Lemma first_nonce_source st n sent' :
  nonce st = None ->
  nonce_source W C st n sent' ->
  exists new_nonce r,
    subscript (acme_config C) "newNonce" = inr new_nonce /\
    requests_get W (sent st) new_nonce = Some r /\
    header_getitem "Replay-Nonce" r = inr n /\
    sent' = sent st ++ [EvGet new_nonce].
Proof.
  intros Hn [(Hcur & _)|(_ & H)]; [congruence|exact H].
Qed.

(** And when it holds the nonce of an answer. *)
Lemma next_nonce_source st current n sent' new_nonce :
  nonce st = Some current ->
  subscript (acme_config C) "newNonce" = inr new_nonce ->
  nonce_source W C st n sent' ->
  next_nonce W (sent st) new_nonce current n /\
  sent' = sent st ++ refetch current new_nonce.
Proof.
  intros Hn Hnn [(Hcur & Hne & ->)|([Hcur|Hcur] & nn & r & Hnn' & Hget & Hh & ->)].
  - assert (current = n) as -> by congruence.
    destruct n; [congruence|]. cbn. now rewrite app_nil_r.
  - congruence.
  - assert (current = "") as -> by congruence.
    assert (nn = new_nonce) as -> by congruence.
    cbn. eauto.
Qed.

(** What [roll_over] has done, whatever it returns. *)
Lemma roll_over_inv st r st' :
  roll_over W C st = (r, st') ->
  (sent st' = sent st /\ exists e, r = inl e)
  \/ exists inner st1 kc,
       inner_key_change W C st = (inr inner, st1) /\
       subscript (acme_config C) "keyChange" = inr kc /\
       ((exists e, r = inl e /\
           _sign_request W C kc (old_accountkeypath C) inner false st1
           = (inl e, st'))
        \/ exists jose st2,
             _sign_request W C kc (old_accountkeypath C) inner false st1
             = (inr jose, st2) /\
             heap st' = heap st2 /\
             sent st' = sent st2 ++ [EvPost kc jose] /\
             ((nonce st' = nonce st2 /\ exists e, r = inl e)
              \/ exists resp n,
                   post_response W (sent st2) kc jose = Some resp /\
                   response_ok resp = true /\
                   header_getitem "Replay-Nonce" resp = inr n /\
                   nonce st' = Some n /\
                   r = if (status_code resp =? 200)%Z then inr tt
                       else inl (ValueError rollover_failed
                                   [JInt (status_code resp);
                                    decoded_body resp]))).
Proof.
  intros H. unfold roll_over in H. unfold bind at 1 in H.
  destruct (inner_key_change W C st) as [[e|inner] st1] eqn:Hin.
  { injection H as <- <-. left. split; [|eauto].
    unfold inner_key_change in Hin. unfold bind at 1, lift at 1 in Hin.
    destruct (subscript (acme_config C) "keyChange") as [e1|kc];
      [now injection Hin as <- <-|].
    unfold bind at 1, dict_getitem at 1, bind at 1, load at 1 in Hin.
    destruct (heap st !! private_acme_old_signature C) as [d_old|] eqn:Hold;
      [|now injection Hin as <- <-].
    destruct (dict_get "kid" d_old); [|now injection Hin as <- <-].
    unfold ret at 1 in Hin.
    unfold bind at 1, dict_getitem at 1, bind at 1, load at 1 in Hin.
    rewrite Hold in Hin.
    destruct (dict_get "jwk" d_old); [|now injection Hin as <- <-].
    unfold ret at 1 in Hin.
    apply sign_request_calls in Hin as (_ & Hq). apply Hq. now left. }
  unfold bind at 1, lift at 1 in H.
  destruct (subscript (acme_config C) "keyChange") as [e|kc] eqn:Hkc.
  { apply inner_key_change_inr in Hin as (kc & _ & _ & _ & _ & _ & Hkc' & _).
    congruence. }
  right. exists inner, st1, kc. do 2 (split; [first [reflexivity|assumption]|]).
  unfold bind at 1 in H.
  destruct (_send_signed_request W C kc (old_accountkeypath C) inner st1)
    as [[e|[resp body]] st2] eqn:Hsend.
  - injection H as <- <-.
    apply send_inl in Hsend as [Hs|(jose & st3 & Hs & Hh & Hn & Hsent & _)].
    + left. eauto.
    + right. exists jose, st3. repeat split; try assumption. left. eauto.
  - apply send_inr in Hsend
      as (jose & st3 & n & Hs & Hpost & Hok & Hn & -> & Hh & Hnonce & Hsent).
    right. exists jose, st3.
    assert (st' = st2 /\
            r = if (status_code resp =? 200)%Z then inr tt
                else inl (ValueError rollover_failed
                            [JInt (status_code resp); decoded_body resp]))
      as (-> & ->).
    { destruct (status_code resp =? 200)%Z; cbn [negb] in H;
        now injection H as <- <-. }
    repeat split; try assumption. right. exists resp, n. auto.
Qed.

(** What [identify_account] has sent, whatever it returns. *)
Lemma identify_sent st r st' :
  identify_account W C st = (r, st') ->
  (st' = st /\ exists e, r = inl e)
  \/ exists new_account r1 st2,
       subscript (acme_config C) "newAccount" = inr new_account /\
       _send_signed_request W C new_account (old_accountkeypath C)
         lookup_payload st = (r1, st2) /\
       sent st' = sent st2 /\
       (forall e, r1 = inl e -> r = inl e).
Proof.
  intros H. unfold identify_account in H. unfold bind at 1, lift at 1 in H.
  destruct (subscript (acme_config C) "newAccount") as [e|new_account] eqn:Hna.
  { injection H as <- <-. left. eauto. }
  right. unfold bind at 1 in H.
  destruct (_send_signed_request W C new_account (old_accountkeypath C)
              lookup_payload st) as [r1 st2] eqn:Hsend.
  exists new_account, r1, st2. do 2 (split; [first [reflexivity|assumption]|]).
  destruct r1 as [e|[resp body]].
  { injection H as <- <-. split; [reflexivity|]. now intros e0 [= <-]. }
  destruct st2 as [h2 n2 s2], C as [old new cfg lo ln];
    cbn [heap nonce sent] in *.
  mrun H; mview; (split; [reflexivity|discriminate]).
Qed.

End Signer.

(** *** The answers that let the lookup go on *)

Lemma lookup_found_intro r n location :
  status_code r = 200%Z ->
  header_getitem "Replay-Nonce" r = inr n ->
  header_getitem "Location" r = inr location ->
  lookup_found (Some r) = true.
Proof.
  unfold header_getitem, lookup_found. intros -> Hn Hl.
  destruct (header_get "Replay-Nonce" (headers r)); [|discriminate].
  destruct (header_get "Location" (headers r)); [reflexivity|discriminate].
Qed.

Lemma lookup_found_status r :
  status_code r <> 200%Z -> lookup_found (Some r) = false.
Proof.
  unfold lookup_found. intros H. apply Z.eqb_neq in H. rewrite H.
  now destruct (header_get "Replay-Nonce" (headers r)),
    (header_get "Location" (headers r)).
Qed.

Lemma lookup_found_truthy response :
  truthy_response response = false -> lookup_found response = false.
Proof.
  destruct response as [r|]; [|reflexivity].
  unfold truthy_response, response_ok. intros H.
  apply lookup_found_status. intros E. rewrite E in H. discriminate.
Qed.

Lemma lookup_found_header r name e :
  name = "Replay-Nonce" \/ name = "Location" ->
  header_getitem name r = inl e ->
  lookup_found (Some r) = false /\ e <> KeyError "keyChange".
Proof.
  unfold header_getitem, lookup_found. intros [-> | ->] H.
  - destruct (header_get "Replay-Nonce" (headers r)); [discriminate|].
    injection H as <-. split; [reflexivity|discriminate].
  - destruct (header_get "Location" (headers r)); [discriminate|].
    injection H as <-. split; [|discriminate].
    now destruct (header_get "Replay-Nonce" (headers r)).
Qed.

(** *** The steps of a run, with the calls made *)

Section Whole.
Variable W : world.

(** The account lookup of a run, when it succeeds. *)
Lemma identify_in_run old new cfg dir ident_old ident_new st2 :
  private_acme_signature W old = inr ident_old ->
  private_acme_signature W new = inr ident_new ->
  identify_account W (run_closure old new cfg)
    (keys_read_state dir ident_old ident_new) = (inr tt, st2) ->
  exists new_nonce new_account jose resp n location hdr,
    subscript cfg "newNonce" = inr new_nonce /\
    subscript cfg "newAccount" = inr new_account /\
    post_response W [EvGet (JStr dir); EvGet new_nonce] new_account jose
    = Some resp /\
    status_code resp = 200%Z /\
    header_getitem "Replay-Nonce" resp = inr n /\
    header_getitem "Location" resp = inr location /\
    nonce st2 = Some n /\
    sent st2 = [EvGet (JStr dir); EvGet new_nonce; EvPost new_account jose] /\
    heap st2 = [ident_old ++ [("kid", JStr location)];
                ident_new ++ [("kid", JStr location)]; hdr].
Proof.
  intros Hio Hin H.
  apply identify_inr in H
    as (na & jose1 & st1 & resp & n & location & d1 & d2 & Hna & Hs & Hpost
        & Hstatus & Hn & Hloc & Hnonce & Hsent2 & Hold1 & Hnew1 & Hheap2).
  apply sign_request_wire in Hs
    as (tmpl1 & hdr1 & _ & Hheap1 & _ & Hfin & _).
  destruct Hfin as [(? & _)|(_ & na' & n0 & _ & Hsrc & _)]; [discriminate|].
  apply first_nonce_source in Hsrc as (nn & r0 & Hnn & _ & _ & Hsent1);
    [|reflexivity].
  pose proof (private_acme_signature_shape _ _ _ Hio) as (eo & no & Eio).
  pose proof (private_acme_signature_shape _ _ _ Hin) as (en & n' & Ein).
  cbn [run_closure keys_read_state heap sent private_acme_old_signature
       private_acme_new_signature app acme_config old_accountkeypath]
    in Hheap1, Hold1, Hnew1, Hheap2, Hna, Hnn, Hsent1.
  rewrite Hheap1 in Hold1, Hnew1, Hheap2.
  cbn in Hold1. injection Hold1 as <-.
  cbn in Hnew1. injection Hnew1 as <-.
  cbn [insert list_insert] in Hheap2.
  rewrite Hsent1 in Hpost, Hsent2.
  exists nn, na, jose1, resp, n, location, hdr1.
  repeat split; try assumption.
  rewrite Hheap2. subst ident_old ident_new. reflexivity.
Qed.

(** The identity of the old key in a run, whichever of the two the signer
    selects for it, holds [jwk]. *)
Lemma run_identity_has_jwk old new cfg dir ident_old ident_new :
  private_acme_signature W old = inr ident_old ->
  private_acme_signature W new = inr ident_new ->
  exists tmpl,
    selected_identity (run_closure old new cfg) old
      (heap (keys_read_state dir ident_old ident_new)) = Some tmpl /\
    dict_in "jwk" tmpl = true.
Proof.
  intros Ho Hn.
  apply private_acme_signature_shape in Ho as (eo & no & ->).
  apply private_acme_signature_shape in Hn as (en & nn & ->).
  unfold selected_identity, run_closure, keys_read_state.
  cbn [old_accountkeypath new_accountkeypath private_acme_old_signature
       private_acme_new_signature heap].
  rewrite String.eqb_refl.
  destruct (String.eqb old new); eexists; (split; [reflexivity|reflexivity]).
Qed.

(** A run that stops before the account lookup has created one
    dictionary at most. *)
Lemma run_prefix_heap old new dir r sF :
  account_rollover W old new dir initial_state = (r, sF) ->
  (length (heap sF) <= 1)%nat
  \/ exists rd cfg ident_old ident_new,
       requests_get W [] (JStr dir) = Some rd /\
       json_body rd = Some cfg /\
       private_acme_signature W old = inr ident_old /\
       private_acme_signature W new = inr ident_new /\
       (identify_account W (run_closure old new cfg) ;;
        roll_over W (run_closure old new cfg))
         (keys_read_state dir ident_old ident_new) = (r, sF).
Proof.
  intros H. unfold account_rollover, initial_state in H.
  unfold bind at 1, write_nonce at 1, set_nonce in H. cbn [heap nonce sent] in H.
  unfold bind at 1, fetch_directory at 1, bind at 1, http_get at 1 in H.
  cbn [sent add_event heap nonce app] in H.
  destruct (requests_get W [] (JStr dir)) as [rd|] eqn:Hget.
  2:{ injection H as <- <-. left. cbn. lia. }
  destruct (json_body rd) as [cfg|] eqn:Hcfg.
  2:{ injection H as <- <-. left. cbn. lia. }
  unfold ret at 1 in H.
  unfold bind at 1, _get_private_acme_signature at 1, bind at 1, lift at 1 in H.
  destruct (private_acme_signature W old) as [e|ident_old] eqn:Hold.
  { injection H as <- <-. left. cbn. lia. }
  unfold alloc at 1, set_heap in H. cbn [heap nonce sent app length] in H.
  unfold bind at 1, _get_private_acme_signature at 1, bind at 1, lift at 1 in H.
  destruct (private_acme_signature W new) as [e|ident_new] eqn:Hnew.
  { injection H as <- <-. left. cbn. lia. }
  unfold alloc at 1, set_heap in H. cbn [heap nonce sent app length] in H.
  right. exists rd, cfg, ident_old, ident_new. repeat split; assumption.
Qed.

(** The account lookup of a run, whatever it returns. *)
Lemma identify_steps old new cfg dir io inew r st' :
  private_acme_signature W old = inr io ->
  private_acme_signature W new = inr inew ->
  identify_account W (run_closure old new cfg)
    (keys_read_state dir io inew) = (r, st') ->
  (exists e, subscript cfg "newAccount" = inl e /\ r = inl e /\
             st' = keys_read_state dir io inew)
  \/ exists na,
       subscript cfg "newAccount" = inr na /\
       ((exists e, r = inl e /\
           _sign_request W (run_closure old new cfg) na old lookup_payload
             false (keys_read_state dir io inew) = (inl e, st'))
        \/ exists jose nn hdr a b,
             subscript cfg "newNonce" = inr nn /\
             sent st' = [EvGet (JStr dir); EvGet nn; EvPost na jose] /\
             heap st' = [a; b; hdr] /\
             (forall st1 r1,
                _sign_request W (run_closure old new cfg) na old
                  lookup_payload false (keys_read_state dir io inew)
                = (r1, st1) -> heap st1 = [io; inew; hdr]) /\
             ((exists e, r = inl e /\ e <> KeyError "keyChange" /\
                 lookup_found
                   (post_response W [EvGet (JStr dir); EvGet nn] na jose)
                 = false)
              \/ (r = inr tt /\
                  lookup_found
                    (post_response W [EvGet (JStr dir); EvGet nn] na jose)
                  = true))).
Proof.
  intros Hio Hin H.
  unfold identify_account in H. unfold bind at 1, lift at 1 in H.
  cbn [run_closure acme_config old_accountkeypath] in H.
  destruct (subscript cfg "newAccount") as [e1|na] eqn:Hna.
  { injection H as <- <-. left. eauto. }
  right. exists na. split; [reflexivity|].
  unfold bind at 1 in H.
  destruct (_send_signed_request W (run_closure old new cfg) na old
              lookup_payload (keys_read_state dir io inew))
    as [[e1|[resp body]] st2] eqn:Hsend.
  - injection H as <- <-.
    apply send_inl in Hsend as [Hs|(jose & st1 & Hs & Hh & _ & Hsent & Hcause)].
    { left. eauto. }
    right.
    pose proof (sign_request_wire _ _ _ _ _ _ _ _ _ Hs)
      as (tmpl & hdr & _ & Hheap1 & _ & Hfin & _).
    destruct Hfin as [(? & _)|(_ & na' & n0 & _ & Hsrc & _)]; [discriminate|].
    apply first_nonce_source in Hsrc as (nn & r0 & Hnn & _ & _ & Hsent1);
      [|reflexivity].
    cbn [run_closure acme_config keys_read_state heap sent app]
      in Hnn, Hsent1, Hheap1.
    rewrite Hsent1 in Hsent, Hcause.
    exists jose, nn, hdr, io, inew.
    split; [assumption|]. split; [exact Hsent|].
    split; [congruence|].
    split. { intros st1' r1 Hs'. rewrite Hs in Hs'. now injection Hs' as <- <-. }
    left. exists e1. split; [reflexivity|].
    destruct Hcause as [(Ht & ->)|(resp & Hp & Hok & Hhd)].
    + split; [discriminate|now apply lookup_found_truthy].
    + rewrite Hp.
      apply (lookup_found_header resp "Replay-Nonce") in Hhd as (? & ?); auto.
  - apply send_inr in Hsend
      as (jose & st1 & n & Hs & Hpost & Hok & Hn & -> & Hh & Hnonce & Hsent).
    right.
    pose proof (sign_request_wire _ _ _ _ _ _ _ _ _ Hs)
      as (tmpl & hdr & _ & Hheap1 & _ & Hfin & _).
    destruct Hfin as [(? & _)|(_ & na' & n0 & _ & Hsrc & _)]; [discriminate|].
    apply first_nonce_source in Hsrc as (nn & r0 & Hnn & _ & _ & Hsent1);
      [|reflexivity].
    cbn [run_closure acme_config keys_read_state heap sent app]
      in Hnn, Hsent1, Hheap1.
    rewrite Hsent1 in Hsent, Hpost.
    destruct st2 as [h2 n2 s2]. cbn [heap nonce sent] in Hh, Hnonce, Hsent.
    rewrite Hheap1 in Hh. subst h2 n2 s2.
    assert (Hsame : forall st1' r1,
              _sign_request W (run_closure old new cfg) na old lookup_payload
                false (keys_read_state dir io inew) = (r1, st1') ->
              heap st1' = [io; inew; hdr]).
    { intros st1' r1 Hs'. rewrite Hs in Hs'. now injection Hs' as <- <-. }
    destruct (status_code resp =? 200)%Z eqn:Hst.
    + apply Z.eqb_eq in Hst.
      unfold bind at 1, lift at 1 in H.
      destruct (header_getitem "Location" resp) as [e|location] eqn:Hloc.
      * injection H as <- <-.
        exists jose, nn, hdr, io, inew. do 4 (split; [first [assumption|reflexivity]|]).
        left. exists e. split; [reflexivity|]. rewrite Hpost.
        apply (lookup_found_header resp "Location") in Hloc as (? & ?); auto.
      * unfold bind, lift, dict_setitem, load, store, set_heap in H.
        cbn in H.
        injection H as <- <-.
        eexists jose, nn, hdr, _, _.
        do 4 (split; [first [assumption|reflexivity]|]).
        right. split; [reflexivity|]. rewrite Hpost.
        exact (lookup_found_intro _ _ _ Hst Hn Hloc).
    + unfold raise in H. injection H as <- <-.
      exists jose, nn, hdr, io, inew. do 4 (split; [first [assumption|reflexivity]|]).
      left. eexists. split; [reflexivity|]. split; [discriminate|].
      rewrite Hpost. apply lookup_found_status. now apply Z.eqb_neq.
Qed.

(** The headers the key change builds, whatever it returns. *)
Lemma roll_over_heap old new cfg st r st' na d_old d_new hdr1 :
  heap st = [d_old; d_new; hdr1] ->
  dict_in "jwk" d_old = true -> dict_in "kid" d_old = true ->
  dict_in "jwk" d_new = true -> dict_in "kid" d_new = true ->
  subscript cfg "newAccount" = inr na ->
  roll_over W (run_closure old new cfg) st = (r, st') ->
  exists hs,
    heap st' = heap st ++ hs /\
    (hs = []
     \/ exists kc h2,
          subscript cfg "keyChange" = inr kc /\
          dict_in "jwk" h2 = true /\ dict_in "kid" h2 = false /\
          (hs = [h2]
           \/ exists h3,
                hs = [h2; h3] /\
                if py_eq kc na
                then dict_in "jwk" h3 = true /\ dict_in "kid" h3 = false
                else dict_in "kid" h3 = true /\ dict_in "jwk" h3 = false)).
Proof.
  intros Hheap Hjo Hko Hjn Hkn Hna H.
  unfold roll_over in H. unfold bind at 1 in H.
  destruct (inner_key_change W (run_closure old new cfg) st)
    as [r1 st1] eqn:Hin.
  unfold inner_key_change in Hin. unfold bind at 1, lift at 1 in Hin.
  cbn [run_closure acme_config private_acme_old_signature
       new_accountkeypath] in Hin.
  destruct (subscript cfg "keyChange") as [e|kc] eqn:Hkc.
  { injection Hin as <- <-. injection H as <- <-.
    exists []. rewrite app_nil_r. auto. }
  unfold bind at 1, dict_getitem at 1, bind at 1, load at 1 in Hin.
  rewrite Hheap in Hin. cbn [lookup list_lookup] in Hin.
  destruct (dict_get "kid" d_old) as [account|] eqn:Hkid;
    [|unfold dict_in in Hko; rewrite Hkid in Hko; discriminate].
  unfold ret at 1 in Hin.
  unfold bind at 1, dict_getitem at 1, bind at 1, load at 1 in Hin.
  rewrite Hheap in Hin. cbn [lookup list_lookup] in Hin.
  destruct (dict_get "jwk" d_old) as [old_key|] eqn:Hjo';
    [|unfold dict_in in Hjo; rewrite Hjo' in Hjo; discriminate].
  unfold ret at 1 in Hin.
  (* the inner JWS *)
  assert (Hsel2 : selected_identity (run_closure old new cfg) new (heap st)
                  = Some d_new).
  { unfold selected_identity.
    cbn [run_closure new_accountkeypath private_acme_new_signature].
    rewrite String.eqb_refl, Hheap. reflexivity. }
  destruct (sign_request_header W _ _ _ _ _ _ _ _ _ na Hsel2 Hna Hjn Hin)
    as (h2 & Hheap1 & Hh2).
  cbn [orb] in Hh2. destruct Hh2 as (Hj2 & Hk2).
  destruct r1 as [e|inner].
  { injection H as <- <-. exists [h2]. split; [assumption|].
    right. exists kc, h2. auto. }
  unfold bind at 1, lift at 1 in H.
  cbn [run_closure acme_config old_accountkeypath] in H. rewrite Hkc in H.
  unfold bind at 1 in H.
  destruct (_send_signed_request W (run_closure old new cfg) kc old inner st1)
    as [r3 st3] eqn:Hsend.
  assert (Hh3 : exists h3,
             heap st3 = heap st1 ++ [h3] /\
             if py_eq kc na
             then dict_in "jwk" h3 = true /\ dict_in "kid" h3 = false
             else dict_in "kid" h3 = true /\ dict_in "jwk" h3 = false).
  { assert (exists tmpl,
              selected_identity (run_closure old new cfg) old (heap st1)
              = Some tmpl /\
              dict_in "jwk" tmpl = true /\ dict_in "kid" tmpl = true)
      as (tmpl & Hsel3 & Hj3 & Hk3).
    { unfold selected_identity.
      cbn [run_closure old_accountkeypath new_accountkeypath
           private_acme_old_signature private_acme_new_signature].
      rewrite String.eqb_refl, Hheap1, Hheap.
      destruct (String.eqb old new); eexists; (split; [reflexivity|]);
        auto. }
    apply send_effect in Hsend
      as [(e & _ & Hs)|(jose & st2 & Hs & Hh & _)];
      destruct (sign_request_header W _ _ _ _ _ _ _ _ _ na Hsel3 Hna Hj3 Hs)
        as (h3 & Hheap3 & Hrule);
      cbn [orb] in Hrule; exists h3;
      (split; [congruence|]);
      destruct (py_eq kc na); destruct Hrule; split; congruence. }
  destruct Hh3 as (h3 & Hheap3 & Hrule).
  assert (heap st' = heap st3) as ->.
  { destruct r3 as [e|[resp body]]; [now injection H as <- <-|].
    destruct (negb (status_code resp =? 200)%Z);
      unfold raise, ret in H; now injection H as <- <-. }
  exists [h2; h3]. split.
  { rewrite Hheap3, Hheap1, <- app_assoc. reflexivity. }
  right. exists kc, h2. do 3 (split; [first [assumption|reflexivity]|]).
  right. exists h3. auto.
Qed.

(** The header of the account lookup, whatever the lookup returns. *)
Lemma identify_header old new cfg dir io inew r st' na :
  private_acme_signature W old = inr io ->
  private_acme_signature W new = inr inew ->
  subscript cfg "newAccount" = inr na ->
  py_eq na na = true ->
  identify_account W (run_closure old new cfg)
    (keys_read_state dir io inew) = (r, st') ->
  exists a b h1,
    heap st' = [a; b; h1] /\
    dict_in "jwk" h1 = true /\ dict_in "kid" h1 = false.
Proof.
  intros Hio Hin Hna Hrefl H.
  destruct (run_identity_has_jwk old new cfg dir io inew Hio Hin)
    as (tmpl & Hsel & Hjwk).
  assert (Hhdr : forall r1 st1,
            _sign_request W (run_closure old new cfg) na old lookup_payload
              false (keys_read_state dir io inew) = (r1, st1) ->
            exists h1, heap st1 = [io; inew; h1] /\
                       dict_in "jwk" h1 = true /\ dict_in "kid" h1 = false).
  { intros r1 st1 Hs.
    destruct (sign_request_header W _ _ _ _ _ _ _ _ _ na Hsel Hna Hjwk Hs)
      as (h1 & Hheap & Hrule).
    rewrite Hrefl in Hrule. cbn [orb] in Hrule. exists h1. auto. }
  apply (identify_steps _ _ _ _ _ _ _ _ Hio Hin) in H
    as [(e & Hna' & _)|(na' & Hna' & [(e & _ & Hs)|
         (jose & nn & hdr & a & b & _ & _ & Hheap & Hsame & _)])].
  - congruence.
  - assert (na' = na) as -> by congruence.
    destruct (Hhdr _ _ Hs) as (h1 & Hheap & Hrule). eauto.
  - assert (na' = na) as -> by congruence.
    destruct (_sign_request W (run_closure old new cfg) na old lookup_payload
                false (keys_read_state dir io inew)) as [r1 st1] eqn:Hs.
    destruct (Hhdr _ _ eq_refl) as (h1 & Hheap1 & Hrule).
    rewrite (Hsame _ _ eq_refl) in Hheap1. injection Hheap1 as <-.
    eauto.
Qed.

Lemma posts_refetch current new_nonce : posts (refetch current new_nonce) = [].
Proof. now destruct current. Qed.

(** A run that has sent two POSTs: every call it has made, and what the
    two requests are. *)
Lemma run_trace old new dir r sF p1 p2 :
  account_rollover W old new dir initial_state = (r, sF) ->
  posts (sent sF) = [p1; p2] ->
  exists rd cfg new_nonce new_account key_change e_old n_old e_new n_new,
    let old_jwk :=
      JObj [("e", JStr e_old); ("kty", JStr "RSA"); ("n", JStr n_old)] in
    let new_jwk :=
      JObj [("e", JStr e_new); ("kty", JStr "RSA"); ("n", JStr n_new)] in
    requests_get W [] (JStr dir) = Some rd /\
    json_body rd = Some cfg /\
    subscript cfg "newNonce" = inr new_nonce /\
    subscript cfg "newAccount" = inr new_account /\
    subscript cfg "keyChange" = inr key_change /\
    private_acme_signature W old
    = inr [("alg", JStr "RS256"); ("jwk", old_jwk)] /\
    private_acme_signature W new
    = inr [("alg", JStr "RS256"); ("jwk", new_jwk)] /\
    exists lookup_jose lookup lookup_nonce kid inner inner_payload64 n
           outer outer_payload64,
      let made := [EvGet (JStr dir); EvGet new_nonce] in
      p1 = EvPost new_account lookup_jose /\
      post_response W made new_account lookup_jose = Some lookup /\
      status_code lookup = 200%Z /\
      header_getitem "Replay-Nonce" lookup = inr lookup_nonce /\
      header_getitem "Location" lookup = inr kid /\
      signed_jws W new
        [("alg", JStr "RS256"); ("jwk", new_jwk); ("url", key_change)]
        inner_payload64 inner /\
      json_text_of (JObj [("account", JStr kid); ("oldKey", old_jwk)])
        inner_payload64 /\
      next_nonce W (made ++ [p1]) new_nonce lookup_nonce n /\
      p2 = EvPost key_change outer /\
      signed_jws W old
        (outer_header (py_eq key_change new_account) old_jwk kid n key_change)
        outer_payload64 outer /\
      json_text_of inner outer_payload64 /\
      sent sF = made ++ [p1] ++ refetch lookup_nonce new_nonce ++ [p2] /\
      ((nonce sF = Some lookup_nonce /\ exists e, r = inl e)
       \/ exists answer n2,
            post_response W (made ++ [p1] ++ refetch lookup_nonce new_nonce)
              key_change outer = Some answer /\
            response_ok answer = true /\
            header_getitem "Replay-Nonce" answer = inr n2 /\
            nonce sF = Some n2 /\
            r = if (status_code answer =? 200)%Z then inr tt
                else inl (ValueError rollover_failed
                            [JInt (status_code answer);
                             decoded_body answer])).
Proof.
  intros H Hposts.
  apply run_prefix in H
    as [(Hsent & _)|(rd & cfg & io & inew & Hg & Hj & Hio & Hin & H)].
  { rewrite Hsent in Hposts. discriminate. }
  apply bind_inv in H as [(e & H & ->)|([] & st2 & H1 & H)].
  { apply identify_effect in H as (_ & [Hp|(u & j & Hp)]);
      rewrite Hp in Hposts; discriminate. }
  apply (identify_in_run _ _ _ _ _ _ _ Hio Hin) in H1
    as (nn & na & jose1 & lookup & n1 & location & hdr1 & Hnn & Hna & Hpost
        & Hst & Hn1 & Hloc & Hnonce2 & Hsent2 & Hheap2).
  apply roll_over_inv in H
    as [(E & _)|(inner & st3 & kc & Hinner & Hkc &
                 [(e & _ & Hs)|(jose & st4 & Hs & _ & E & Hout)])].
  { rewrite E, Hsent2 in Hposts. discriminate. }
  { apply sign_request_posts in Hs.
    apply inner_key_change_effect in Hinner as (_ & Hp3).
    rewrite Hs, Hp3, Hsent2 in Hposts. discriminate. }
  apply inner_key_change_inr in Hinner
    as (kc' & d_old & account & old_key & tmpl_in & sg_in & Hkc' & Hl & Hkid
        & Hjwk & Hsel_in & Hheap3 & Hnonce3 & Hsent3 & Hsig_in & ->).
  assert (kc' = kc) as -> by congruence.
  apply sign_request_wire in Hs
    as (tmpl & hdr & Hsel & _ & Hnonce4 & Hfin & Hjws).
  destruct Hfin as [(? & _)|(_ & na' & n & Hna' & Hsrc & Hhdr)]; [discriminate|].
  cbn [run_closure acme_config old_accountkeypath new_accountkeypath]
    in Hna', Hkc, Hjws, Hsig_in.
  assert (na' = na) as -> by congruence.
  apply (next_nonce_source _ _ _ n1 _ _ nn) in Hsrc as (Hnext & Hsent4);
    [|congruence|exact Hnn].
  rewrite Hsent3, Hsent2 in Hnext, Hsent4.
  rewrite Hsent4 in E, Hout.
  assert (Hsame : String.eqb old new = true -> io = inew).
  { intros Eq. apply String.eqb_eq in Eq. subst new. congruence. }
  pose proof (private_acme_signature_shape _ _ _ Hio) as (eo & no & Eio).
  pose proof (private_acme_signature_shape _ _ _ Hin) as (en & n' & Ein).
  unfold selected_identity in Hsel, Hsel_in.
  cbn [run_closure new_accountkeypath old_accountkeypath
       private_acme_old_signature private_acme_new_signature]
    in Hsel, Hsel_in, Hl.
  rewrite Hheap2 in Hl, Hsel_in. rewrite Hheap3, Hheap2 in Hsel.
  rewrite String.eqb_refl in Hsel, Hsel_in.
  cbn in Hl, Hsel_in. injection Hl as <-. injection Hsel_in as <-.
  assert (tmpl = io ++ [("kid", JStr location)]) as ->.
  { destruct (String.eqb old new) eqn:Eq; cbn in Hsel; injection Hsel as <-;
      [rewrite (Hsame eq_refl)|]; reflexivity. }
  clear Hsel Hsame.
  subst io inew.
  cbn in Hkid, Hjwk. injection Hkid as <-. injection Hjwk as <-.
  cbn [without_kid dict_in dict_get dict_set dict_del String.eqb Ascii.eqb
       Bool.eqb app] in Hsig_in.
  assert (Hposts' : [EvPost na jose1; EvPost kc jose] = [p1; p2]).
  { rewrite <- Hposts, E, !posts_app, posts_refetch. reflexivity. }
  injection Hposts' as <- <-.
  exists rd, cfg, nn, na, kc, eo, no, en, n'. cbv zeta.
  do 7 (split; [first [assumption|reflexivity]|]).
  eexists jose1, lookup, n1, location, _, _, n, jose, (payload64_of _).
  do 5 (split; [first [assumption|reflexivity]|]).
  split; [exact (signed_jws_intro W _ _ _ _ Hsig_in)|].
  split; [apply json_text_of_b64_json|].
  split; [exact Hnext|]. split; [reflexivity|].
  split.
  { unfold outer_header.
    destruct Hhdr as [(Hpy & ->)|(Hpy & _ & ->)]; rewrite Hpy;
      cbn [without_kid dict_in dict_get dict_set dict_del String.eqb
           Ascii.eqb Bool.eqb app] in Hjws |- *;
      exact Hjws. }
  split; [apply json_text_of_b64_json|].
  split; [rewrite E; cbn [app]; reflexivity|].
  destruct Hout as [(Hn & He)|(answer & n2 & Hp & Hok & Hh & Hn & Hr)].
  - left. split; [congruence|assumption].
  - right. exists answer, n2. cbn in Hp |- *. auto.
Qed.

(** A run that returns has sent two POSTs. *)
Lemma returning_run_posts old new dir sF :
  account_rollover W old new dir initial_state = (inr tt, sF) ->
  exists p1 p2, posts (sent sF) = [p1; p2].
Proof.
  intros H.
  apply run_prefix in H
    as [(_ & e & [=] & _)|(rd & cfg & io & inew & Hg & Hj & Hio & Hin & H)].
  apply bind_inv in H as [(e & _ & [=])|([] & st2 & H1 & H)].
  apply (identify_in_run _ _ _ _ _ _ _ Hio Hin) in H1
    as (nn & na & jose1 & lookup & n1 & location & hdr1 & _ & _ & _
        & _ & _ & _ & _ & Hsent2 & _).
  apply roll_over_inv in H
    as [(_ & e & [=])
       |(inner & st3 & kc & Hinner & Hkc &
         [(e & [=] & _)|(jose & st4 & Hs & _ & E & _)])].
  pose proof (sign_request_posts _ _ _ _ _ _ _ _ _ Hs) as Hp4.
  pose proof (inner_key_change_effect _ _ _ _ _ Hinner) as (_ & Hp3).
  exists (EvPost na jose1), (EvPost kc jose).
  rewrite E, posts_post, Hp4, Hp3, Hsent2. reflexivity.
Qed.

End Whole.
End TraceFacts.

(** ** Properties of the signer and of the transport *)

Module SignerClaims.
Import Base64 Base64Facts Json Py Acme Summary Examples Wire.
Import DictFacts MonadFacts SignerFacts JsonFacts TraceFacts.

(** No text is the encoding of a JSON value and empty. *)
Lemma json_text_nonempty value : ~ json_text_of value "".
Proof.
  intros [_ H]. cbn in H. injection H as H. symmetry in H. revert H.
  apply encode_utf8_nonempty, dumps_nonempty.
Qed.

(** C9. In the JWS the signer returns, an object with the members
    [protected], [payload] and [signature], the [payload] member is the
    text that is signed after the header, and it is the empty string for
    the empty-string sentinel of a POST-as-GET; for every other payload it
    is the base64url encoding of the payload's JSON serialization, which
    the empty string never is. *)
Theorem post_as_get_payload_is_empty
    W C url keypath payload is_inner st jose st' :
  _sign_request W C url keypath payload is_inner st = (inr jose, st') ->
  exists protected64 payload64 signature signature64,
    jose = JObj [("protected", JStr protected64);
                 ("payload", JStr payload64);
                 ("signature", JStr signature64)] /\
    openssl_signs W keypath (protected64 +:+ "." +:+ payload64) signature /\
    base64url_of signature signature64 /\
    (payload = JStr "" -> payload64 = "") /\
    (payload <> JStr "" ->
       payload64 <> "" /\ json_text_of payload payload64) /\
    (forall value : JSON, ~ json_text_of value "").
Proof.
  intros H.
  apply sign_request_wire in H as (tmpl & hdr & _ & _ & _ & _ & Hjws).
  destruct Hjws as (p64 & sg & s64 & -> & _ & Hsig & Hs64).
  exists p64, (payload64_of payload), sg, s64.
  do 3 (split; [first [reflexivity|assumption]|]).
  split; [intros ->; reflexivity|]. split; [|exact json_text_nonempty].
  intros Hne. unfold payload64_of.
  destruct (py_eq payload (JStr "")) eqn:E.
  - now apply py_eq_empty_str in E.
  - split; [apply b64_json_nonempty|apply json_text_of_b64_json].
Qed.

(** The account lookup signed with the old key: its payload is not the
    sentinel. *)
Lemma post_as_get_payload_is_empty_witness :
  let W := server directory account_found in
  let run := _sign_request W (closure_of directory) new_account_url old_key
               lookup_payload false keys_read in
  exists protected64 payload64 signature signature64,
    match fst run with inr jose => jose | inl _ => JNull end
    = JObj [("protected", JStr protected64);
            ("payload", JStr payload64);
            ("signature", JStr signature64)] /\
    openssl_signs W old_key (protected64 +:+ "." +:+ payload64) signature /\
    base64url_of signature signature64 /\
    (lookup_payload = JStr "" -> payload64 = "") /\
    (lookup_payload <> JStr "" ->
       payload64 <> "" /\ json_text_of lookup_payload payload64) /\
    (forall value : JSON, ~ json_text_of value "").
Proof.
  exact (post_as_get_payload_is_empty
           (server directory account_found) (closure_of directory)
           new_account_url old_key lookup_payload false keys_read _ _
           eq_refl).
Defined.

(** *** The transport *)

(** What the transport does with a response it accepts. *)
Lemma send_accepted W C url keypath payload st jose st1 resp n :
  _sign_request W C url keypath payload false st = (inr jose, st1) ->
  post_response W (sent st1) url jose = Some resp ->
  response_ok resp = true ->
  header_getitem "Replay-Nonce" resp = inr n ->
  _send_signed_request W C url keypath payload st
  = (inr (resp, decoded_body resp),
     {| heap := heap st1; nonce := Some n;
        sent := sent st1 ++ [EvPost url jose] |}).
Proof.
  intros Hs Hpost Hok Hn.
  unfold _send_signed_request. unfold bind at 1. rewrite Hs.
  unfold bind at 1, http_post at 1. rewrite Hpost, Hok.
  unfold bind at 1, lift at 1. rewrite Hn.
  unfold bind at 1, write_nonce at 1, decoded_body.
  destruct (json_body resp); reflexivity.
Qed.

(** What it does with a response it does not accept, or with none. *)
Lemma send_refused W C url keypath payload st jose st1 :
  _sign_request W C url keypath payload false st = (inr jose, st1) ->
  truthy_response (post_response W (sent st1) url jose) = false ->
  _send_signed_request W C url keypath payload st
  = (inl (RuntimeError no_response),
     {| heap := heap st1; nonce := nonce st1;
        sent := sent st1 ++ [EvPost url jose] |}).
Proof.
  intros Hs Hno.
  unfold _send_signed_request. unfold bind at 1. rewrite Hs.
  unfold bind at 1, http_post at 1. unfold truthy_response in Hno.
  destruct (post_response W (sent st1) url jose) as [resp|];
    [rewrite Hno|]; reflexivity.
Qed.

(** C5 (as amended). For every transport call whose request was signed and
    whose response is accepted (a response with a status outside 400..599)
    and carries a [Replay-Nonce] header: if the body is empty or not valid
    JSON, the call returns the response with the text of the empty object,
    [json.dumps({})], in place of the decoded body, instead of failing. *)
Theorem undecodable_body_is_replaced
    W C url keypath payload st jose st1 resp n :
  _sign_request W C url keypath payload false st = (inr jose, st1) ->
  post_response W (sent st1) url jose = Some resp ->
  response_ok resp = true ->
  header_getitem "Replay-Nonce" resp = inr n ->
  json_body resp = None ->
  _send_signed_request W C url keypath payload st
  = (inr (resp, JStr "{}"),
     {| heap := heap st1; nonce := Some n;
        sent := sent st1 ++ [EvPost url jose] |}).
Proof.
  intros Hs Hpost Hok Hn Hbody.
  rewrite (send_accepted _ _ _ _ _ _ _ _ _ _ Hs Hpost Hok Hn).
  unfold decoded_body. now rewrite Hbody.
Qed.

(** A 200 answer with a body that is not JSON. *)
Lemma undecodable_body_is_replaced_witness :
  let W := server directory plain_ok in
  let signed := _sign_request W (closure_of directory) new_account_url
                  old_key lookup_payload false keys_read in
  let jose := match fst signed with inr jose => jose | inl _ => JNull end in
  _send_signed_request W (closure_of directory) new_account_url old_key
    lookup_payload keys_read
  = (inr (plain_ok, JStr "{}"),
     {| heap := heap (snd signed); nonce := Some "nonce-1";
        sent := sent (snd signed) ++ [EvPost new_account_url jose] |}).
Proof.
  exact (undecodable_body_is_replaced
           (server directory plain_ok) (closure_of directory)
           new_account_url old_key lookup_payload keys_read _ _ plain_ok
           "nonce-1" eq_refl eq_refl eq_refl eq_refl eq_refl).
Defined.

(** C5, where the claim fails: with a body that is not JSON, a 200 answer
    is returned with the string ["{}"], which is not the empty object; a 404
    answer makes the call fail; and so does a 200 answer without a
    [Replay-Nonce] header. *)
Lemma undecodable_body_not_always_an_empty_object :
  let send resp :=
    fst (_send_signed_request (server directory resp) (closure_of directory)
           new_account_url old_key lookup_payload keys_read) in
  json_body plain_ok = None /\
  send plain_ok = inr (plain_ok, JStr "{}") /\
  JStr "{}" <> JObj [] /\
  json_body not_found = None /\
  send not_found = inl (RuntimeError no_response) /\
  json_body ok_without_nonce = None /\
  send ok_without_nonce = inl (KeyError "replay-nonce").
Proof. cbv zeta. repeat split; try discriminate; vm_compute; reflexivity. Qed.

(** C3, on an error response. The account lookup is answered with 403 and
    a fresh [Replay-Nonce]: the transport raises [RuntimeError] and the
    nonce variable keeps its old value, not the value of the header. *)
Lemma error_response_leaves_the_nonce_stale :
  let W := server directory account_forbidden in
  let signed := _sign_request W (closure_of directory) new_account_url
                  old_key lookup_payload false keys_read in
  let jose := match fst signed with inr jose => jose | inl _ => JNull end in
  let run := _send_signed_request W (closure_of directory) new_account_url
               old_key lookup_payload keys_read in
  fst signed = inr jose /\
  post_response W (sent (snd signed)) new_account_url jose
  = Some account_forbidden /\
  status_code account_forbidden = 403%Z /\
  header_getitem "Replay-Nonce" account_forbidden = inr "nonce-1" /\
  nonce keys_read = Some "nonce-0" /\
  fst run = inl (RuntimeError no_response) /\
  nonce (snd run) = Some "nonce-0".
Proof. cbv zeta. repeat split; vm_compute; reflexivity. Qed.

End SignerClaims.

(** ** Properties of the orchestration *)

Module RunClaims.
Import Base64 Base64Facts Json Py Acme Summary Examples Endpoints Wire.
Import DictFacts MonadFacts SignerFacts RunFacts JsonFacts TraceFacts.

(** C8. The signer raises the unknown-key error ([RuntimeError] with the
    message "Unknown keypath to sign request") if and only if the key path
    is neither the new nor the old account key path, and no run of
    [account_rollover] ends with that error. *)
Theorem unknown_key_error_only_for_foreign_key :
  (forall W C url keypath payload is_inner st,
     fst (_sign_request W C url keypath payload is_inner st)
     = inl (RuntimeError unknown_keypath)
     <-> keypath <> new_accountkeypath C /\ keypath <> old_accountkeypath C)
  /\ (forall W old new dir,
        fst (account_rollover W old new dir initial_state)
        <> inl (RuntimeError unknown_keypath)).
Proof.
  split.
  - intros W C url keypath payload is_inner st. split.
    + destruct (_sign_request W C url keypath payload is_inner st)
        as [r st'] eqn:H. cbn [fst]. intros ->.
      apply sign_request_effect in H as (_ & _ & _ & Hm).
      destruct (Hm _ eq_refl) as (_ & Hn & Ho).
      split; now apply String.eqb_neq.
    + intros [Hn Ho]. apply String.eqb_neq in Hn, Ho.
      now rewrite sign_request_unknown.
  - intros W old new dir.
    destruct (account_rollover W old new dir initial_state) as [r sF] eqn:H.
    cbn [fst]. intros ->.
    apply run_prefix in H
      as [(_ & e & [= <-] & Hne & _)|(rd & cfg & io & inew & _ & _ & _ & _ & H)].
    { now apply (Hne unknown_keypath). }
    apply bind_inv in H as [(e & H & [= <-])|(u & st1 & _ & H)].
    + now apply identify_effect in H as (Hne & _).
    + now apply roll_over_effect in H as (Hne & _).
Qed.

(** C10. A call to the signer leaves every dictionary that exists when it
    is called as it is, the two signing identities among them: what it
    deletes and inserts goes to a new copy. In particular, once the account
    lookup has installed [kid], the old identity still holds its [jwk], and
    that is the [oldKey] of the inner key-change payload. *)
Theorem signer_leaves_the_identities_unchanged W C :
  (forall url keypath payload is_inner st r st' (l : loc) (d : dict),
     _sign_request W C url keypath payload is_inner st = (r, st') ->
     heap st !! l = Some d -> heap st' !! l = Some d)
  /\ (forall st st' (d_old : dict) jwk,
        heap st !! private_acme_old_signature C = Some d_old ->
        dict_get "jwk" d_old = Some jwk ->
        identify_account W C st = (inr tt, st') ->
        (exists d_old' : dict,
           heap st' !! private_acme_old_signature C = Some d_old' /\
           dict_in "kid" d_old' = true /\
           dict_get "jwk" d_old' = Some jwk) /\
        forall inner st'',
          inner_key_change W C st' = (inr inner, st'') ->
          exists protected64 account signature,
            inner = jose_of protected64
                      (b64_json (JObj [("account", account); ("oldKey", jwk)]))
                      signature).
Proof.
  split.
  - intros url keypath payload is_inner st r st' l d H Hl.
    apply sign_request_effect in H as (_ & (objs & ->) & _).
    now apply lookup_extend.
  - intros st st' d_old jwk Hold Hjwk H.
    apply identify_inr in H
      as (na & jose & st1 & resp & n & location & d1 & d2 & _ & Hs & _ & _ & _
          & _ & _ & _ & Hold1 & Hnew1 & Hheap).
    apply sign_request_effect in Hs as (_ & (objs & Hext) & _).
    assert (d1 = d_old) as ->.
    { rewrite Hext in Hold1. rewrite (lookup_extend _ _ _ _ Hold) in Hold1.
      congruence. }
    assert (Hfinal : exists d_old' : dict,
               heap st' !! private_acme_old_signature C = Some d_old' /\
               dict_in "kid" d_old' = true /\
               dict_get "jwk" d_old' = Some jwk).
    { rewrite Hheap.
      pose proof (lookup_lt_Some _ _ _ Hold1) as Hlt.
      destruct (decide (private_acme_new_signature C
                        = private_acme_old_signature C)) as [E|E].
      - rewrite E in *.
        rewrite list_lookup_insert_eq in Hnew1 by assumption.
        injection Hnew1 as <-.
        eexists. split.
        + apply list_lookup_insert_eq. now rewrite length_insert.
        + split; [apply dict_in_set_eq|].
          now rewrite !dict_get_set_ne by discriminate.
      - eexists. split.
        + rewrite list_lookup_insert_ne by assumption.
          now apply list_lookup_insert_eq.
        + split; [apply dict_in_set_eq|].
          now rewrite dict_get_set_ne by discriminate. }
    split; [exact Hfinal|].
    destruct Hfinal as (d_old' & Hl & _ & Hj).
    intros inner st'' Hin.
    apply inner_key_change_inr in Hin
      as (kc & d3 & account & old_key & tmpl & signature & _ & Hl3 & _ & Hj3
          & _ & _ & _ & _ & _ & ->).
    assert (old_key = jwk) as -> by congruence.
    eauto.
Qed.

(** With the certificate authority of the examples. *)
Lemma signer_leaves_the_identities_unchanged_witness :
  let W := server directory account_found in
  let C := closure_of directory in
  let signed := _sign_request W C new_account_url old_key lookup_payload
                  false keys_read in
  heap (snd signed) !! 0%nat = Some old_identity
  /\ heap (snd signed) !! 1%nat = Some new_identity.
Proof.
  cbv zeta.
  pose proof (proj1 (signer_leaves_the_identities_unchanged
                       (server directory account_found)
                       (closure_of directory))
                new_account_url old_key lookup_payload false keys_read) as H.
  split;
    [ exact (H _ _ 0%nat old_identity eq_refl eq_refl)
    | exact (H _ _ 1%nat new_identity eq_refl eq_refl) ].
Defined.

(** C6, on the status of the claim. The account lookup is answered with 403
    (a fresh nonce, a JSON problem document): the run fails with the
    [RuntimeError] of the transport, which carries neither the status nor
    the body, and no key-change request is sent. *)
Lemma forbidden_lookup_reports_no_status :
  let run := account_rollover (server directory account_forbidden)
               old_key new_key directory_url initial_state in
  status_code account_forbidden = 403%Z /\
  fst run = inl (RuntimeError no_response) /\
  exists jose,
    sent (snd run) = [EvGet (JStr directory_url); EvGet new_nonce_url;
                      EvPost new_account_url jose].
Proof.
  cbv zeta. split; [reflexivity|]. split; [vm_compute; reflexivity|].
  eexists. vm_compute. reflexivity.
Qed.

Lemma subscript_dict_get d key v :
  subscript (JObj d) key = inr v -> dict_get key d = Some v.
Proof.
  unfold subscript. destruct (dict_get key d); [|discriminate].
  now intros [= ->].
Qed.

(** C2 (as amended). When the directory object has no [newAccount] or no
    [newNonce] entry, the run fails without any network call beyond the
    directory fetch, and, once both keys are read, with the [KeyError] of
    the missing entry ([newAccount] first). When it has no [keyChange]
    entry, the run fails as well and sends no key-change request, but it
    attempts the account lookup first: after the directory fetch it makes
    at most a GET of [newNonce] and then at most the lookup POST to
    [newAccount], and when it has made both, it fails with the [KeyError]
    of [keyChange] exactly if the lookup was answered with status 200 and
    the [Replay-Nonce] and [Location] headers. *)
Theorem directory_without_endpoint W old new dir rd d r sF :
  requests_get W [] (JStr dir) = Some rd ->
  json_body rd = Some (JObj d) ->
  account_rollover W old new dir initial_state = (r, sF) ->
  (dict_get "newAccount" d = None \/ dict_get "newNonce" d = None ->
     sent sF = [EvGet (JStr dir)] /\
     exists e, r = inl e /\
       forall ident_old ident_new,
         private_acme_signature W old = inr ident_old ->
         private_acme_signature W new = inr ident_new ->
         e = KeyError (if dict_in "newAccount" d then "newNonce"
                       else "newAccount"))
  /\ (dict_get "keyChange" d = None ->
        exists e, r = inl e /\
          (sent sF = [EvGet (JStr dir)]
           \/ exists new_nonce,
                dict_get "newNonce" d = Some new_nonce /\
                (sent sF = [EvGet (JStr dir); EvGet new_nonce]
                 \/ exists new_account jose,
                      dict_get "newAccount" d = Some new_account /\
                      sent sF = [EvGet (JStr dir); EvGet new_nonce;
                                 EvPost new_account jose] /\
                      (e = KeyError "keyChange" <->
                       lookup_found
                         (post_response W [EvGet (JStr dir); EvGet new_nonce]
                            new_account jose) = true)))).
Proof.
  intros Hget Hcfg H.
  apply run_prefix in H
    as [(Hsent & e & -> & _ & [Hg|[(rd' & Hg & Hj)|Hkeys]])
       |(rd' & cfg & io & inew & Hg & Hj & Hio & Hin & H)].
  - congruence.
  - congruence.
  - split; intros _.
    + split; [assumption|]. eexists. split; [reflexivity|].
      intros ident_old ident_new Ho Hn. destruct Hkeys; congruence.
    + eauto.
  - assert (cfg = JObj d) as -> by congruence. clear rd' Hg Hj.
    apply bind_inv in H as [(e & H & ->)|([] & st1 & H1 & H)].
    + split.
      * intros Hmiss.
        destruct (dict_get "newAccount" d) as [na|] eqn:Hna.
        -- destruct Hmiss as [?|Hnn]; [discriminate|].
           apply (identify_without_new_nonce W _ _ _ _ (KeyError "newNonce"))
             in H as (Hsent & e' & [= <-] & Hex);
             [|reflexivity|now apply subscript_missing].
           split; [exact Hsent|]. eexists. split; [reflexivity|].
           intros ident_old ident_new Ho Hn.
           assert (ident_old = io) as -> by congruence.
           assert (ident_new = inew) as -> by congruence.
           destruct (run_identity_has_jwk W old new (JObj d) dir io inew Hio Hin)
             as (tmpl & Hsel & Hjwk).
           unfold dict_in. rewrite Hna.
           apply (Hex tmpl na Hsel Hjwk).
           cbn [run_closure acme_config]. unfold subscript. now rewrite Hna.
        -- rewrite (identify_without_new_account W _ _ (KeyError "newAccount"))
             in H by now apply subscript_missing.
           injection H as <- <-. split; [reflexivity|].
           eexists. split; [reflexivity|]. intros _ _ _ _.
           unfold dict_in. now rewrite Hna.
      * intros _. exists e. split; [reflexivity|].
        apply (identify_steps _ _ _ _ _ _ _ _ _ Hio Hin) in H
          as [(e' & _ & _ & ->)|(na & Hna & [(e' & _ & Hs)|
               (jose & nn & hdr & a & b & Hnn & Hsent & _ & _ & Hres)])].
        -- now left.
        -- apply sign_request_calls in Hs as ([E|(u & Hu & E)] & _).
           ++ now left.
           ++ right. exists u. split; [now apply subscript_dict_get|].
              now left.
        -- right. exists nn. split; [now apply subscript_dict_get|].
           right. exists na, jose. split; [now apply subscript_dict_get|].
           split; [exact Hsent|].
           destruct Hres as [(e' & [= <-] & Hne & Hno)|([=] & _)].
           rewrite Hno. split; [intros ->; now contradiction Hne|discriminate].
    + split.
      * intros Hmiss. exfalso.
        destruct (dict_get "newAccount" d) as [na|] eqn:Hna.
        -- destruct Hmiss as [?|Hnn]; [discriminate|].
           apply (identify_without_new_nonce W _ _ _ _ (KeyError "newNonce"))
             in H1 as (_ & e' & [=] & _);
             [reflexivity|now apply subscript_missing].
        -- rewrite (identify_without_new_account W _ _ (KeyError "newAccount"))
             in H1 by now apply subscript_missing.
           discriminate.
      * intros Hkc.
        rewrite (roll_over_without_key_change W _ _ (KeyError "keyChange"))
          in H by now apply subscript_missing.
        injection H as <- <-. eexists. split; [reflexivity|].
        apply (identify_steps _ _ _ _ _ _ _ _ _ Hio Hin) in H1
          as [(e' & _ & [=] & _)|(na & Hna & [(e' & [=] & _)|
               (jose & nn & hdr & a & b & Hnn & Hsent & _ & _ & Hres)])].
        right. exists nn. split; [now apply subscript_dict_get|].
        right. exists na, jose. split; [now apply subscript_dict_get|].
        split; [exact Hsent|].
        destruct Hres as [(e' & [=] & _)|(_ & Hyes)].
        rewrite Hyes. split; reflexivity.
Qed.

(** A directory without [keyChange], served by the example authority. *)
Lemma directory_without_endpoint_witness :
  let W := server directory_without_key_change account_found in
  let run := account_rollover W old_key new_key directory_url initial_state in
  exists e, fst run = inl e /\
    (sent (snd run) = [EvGet (JStr directory_url)]
     \/ exists new_nonce,
          dict_get "newNonce"
            [("newNonce", new_nonce_url); ("newAccount", new_account_url)]
          = Some new_nonce /\
          (sent (snd run) = [EvGet (JStr directory_url); EvGet new_nonce]
           \/ exists new_account jose,
                dict_get "newAccount"
                  [("newNonce", new_nonce_url);
                   ("newAccount", new_account_url)]
                = Some new_account /\
                sent (snd run) = [EvGet (JStr directory_url);
                                  EvGet new_nonce;
                                  EvPost new_account jose] /\
                (e = KeyError "keyChange" <->
                 lookup_found
                   (post_response W
                      [EvGet (JStr directory_url); EvGet new_nonce]
                      new_account jose) = true))).
Proof.
  exact (proj2 (directory_without_endpoint
                  (server directory_without_key_change account_found)
                  old_key new_key directory_url
                  (response 200 [] (Some directory_without_key_change))
                  [("newNonce", new_nonce_url); ("newAccount", new_account_url)]
                  _ _ eq_refl eq_refl eq_refl) eq_refl).
Defined.

(** C2, where the claim fails: the directory has no [keyChange] entry, and
    the run asks for a nonce and posts the account lookup before it fails;
    three network calls are made, not one. *)
Lemma missing_key_change_is_found_after_the_lookup :
  let run := account_rollover
               (server directory_without_key_change account_found)
               old_key new_key directory_url initial_state in
  subscript directory_without_key_change "keyChange"
  = inl (KeyError "keyChange") /\
  fst run = inl (KeyError "keyChange") /\
  exists jose,
    sent (snd run) = [EvGet (JStr directory_url); EvGet new_nonce_url;
                      EvPost new_account_url jose].
Proof.
  cbv zeta. split; [reflexivity|]. split; [vm_compute; reflexivity|].
  eexists. vm_compute. reflexivity.
Qed.

(** C4. In every run that sends the key-change request (the second POST of
    the run), the payload of that request encodes the inner JWS, and the
    inner JWS is signed by [openssl] with the new key, has the protected
    header [{"alg": "RS256", "jwk": <new key's JWK>, "url": <keyChange
    URL>}] (so [jwk], and neither [kid] nor [nonce]) and the payload
    [{"account": <kid>, "oldKey": <old key's JWK>}], where [kid] is the
    [Location] of the answer the account lookup received. *)
Theorem key_change_inner_jws W old new dir r sF p1 p2 :
  account_rollover W old new dir initial_state = (r, sF) ->
  posts (sent sF) = [p1; p2] ->
  exists rd cfg new_nonce new_account key_change ident_old ident_new
         old_jwk new_jwk,
    requests_get W [] (JStr dir) = Some rd /\
    json_body rd = Some cfg /\
    subscript cfg "newNonce" = inr new_nonce /\
    subscript cfg "newAccount" = inr new_account /\
    subscript cfg "keyChange" = inr key_change /\
    private_acme_signature W old = inr ident_old /\
    dict_get "jwk" ident_old = Some old_jwk /\
    private_acme_signature W new = inr ident_new /\
    dict_get "jwk" ident_new = Some new_jwk /\
    exists lookup_jose lookup kid,
      p1 = EvPost new_account lookup_jose /\
      post_response W [EvGet (JStr dir); EvGet new_nonce] new_account
        lookup_jose = Some lookup /\
      header_getitem "Location" lookup = inr kid /\
      let header :=
        [("alg", JStr "RS256"); ("jwk", new_jwk); ("url", key_change)] in
      let payload := JObj [("account", JStr kid); ("oldKey", old_jwk)] in
      exists inner inner_payload64 outer_protected64 outer_payload64
             outer_signature64,
        p2 = EvPost key_change
               (JObj [("protected", JStr outer_protected64);
                      ("payload", JStr outer_payload64);
                      ("signature", JStr outer_signature64)]) /\
        json_text_of inner outer_payload64 /\
        signed_jws W new header inner_payload64 inner /\
        json_text_of payload inner_payload64 /\
        dict_in "jwk" header = true /\
        dict_in "kid" header = false /\
        dict_in "nonce" header = false.
Proof.
  intros H Hposts.
  destruct (run_trace W _ _ _ _ _ _ _ H Hposts)
    as (rd & cfg & nn & na & kc & eo & no & en & n' & Hg & Hj & Hnn & Hna
        & Hkc & Hio & Hin & jose1 & lookup & n1 & kid & inner & ip64 & n
        & outer & op64 & Hp1 & Hpost & _ & _ & Hloc & Hinner & Hpay & _
        & Hp2 & Houter & Htext & _).
  destruct Houter as (p64 & sg & s64 & -> & _).
  exists rd, cfg, nn, na, kc. eexists _, _, _, _.
  do 5 (split; [assumption|]).
  split; [exact Hio|]. split; [reflexivity|].
  split; [exact Hin|]. split; [reflexivity|].
  exists jose1, lookup, kid.
  split; [exact Hp1|]. split; [exact Hpost|]. split; [exact Hloc|].
  cbv zeta. exists inner, ip64, p64, op64, s64.
  do 4 (split; [assumption|]). repeat split.
Qed.

(** A complete run against the example authority. *)
Lemma key_change_inner_jws_witness :
  let W := server directory account_found in
  let run := account_rollover W old_key new_key directory_url initial_state in
  exists rd cfg new_nonce new_account key_change ident_old ident_new
         old_jwk new_jwk,
    requests_get W [] (JStr directory_url) = Some rd /\
    json_body rd = Some cfg /\
    subscript cfg "newNonce" = inr new_nonce /\
    subscript cfg "newAccount" = inr new_account /\
    subscript cfg "keyChange" = inr key_change /\
    private_acme_signature W old_key = inr ident_old /\
    dict_get "jwk" ident_old = Some old_jwk /\
    private_acme_signature W new_key = inr ident_new /\
    dict_get "jwk" ident_new = Some new_jwk /\
    exists lookup_jose lookup kid,
      nth 0 (posts (sent (snd run))) (EvGet JNull)
      = EvPost new_account lookup_jose /\
      post_response W [EvGet (JStr directory_url); EvGet new_nonce]
        new_account lookup_jose = Some lookup /\
      header_getitem "Location" lookup = inr kid /\
      exists inner inner_payload64 outer_protected64 outer_payload64
             outer_signature64,
        nth 1 (posts (sent (snd run))) (EvGet JNull)
        = EvPost key_change
            (JObj [("protected", JStr outer_protected64);
                   ("payload", JStr outer_payload64);
                   ("signature", JStr outer_signature64)]) /\
        json_text_of inner outer_payload64 /\
        signed_jws W new_key
          [("alg", JStr "RS256"); ("jwk", new_jwk); ("url", key_change)]
          inner_payload64 inner /\
        json_text_of (JObj [("account", JStr kid); ("oldKey", old_jwk)])
          inner_payload64 /\
        dict_in "jwk" [("alg", JStr "RS256"); ("jwk", new_jwk);
                       ("url", key_change)] = true /\
        dict_in "kid" [("alg", JStr "RS256"); ("jwk", new_jwk);
                       ("url", key_change)] = false /\
        dict_in "nonce" [("alg", JStr "RS256"); ("jwk", new_jwk);
                         ("url", key_change)] = false.
Proof.
  intros W run.
  refine (key_change_inner_jws W old_key new_key directory_url
            (fst run) (snd run)
            (nth 0 (posts (sent (snd run))) (EvGet JNull))
            (nth 1 (posts (sent (snd run))) (EvGet JNull))
            (surjective_pairing run) _).
  vm_compute. reflexivity.
Defined.

(** C1. For every call to the JWS signer that a run makes (the account
    lookup, the inner key-change JWS and the outer one, in this order),
    the protected header holds exactly one of [jwk] and [kid]: [jwk] and
    not [kid] if the signature is inner or the target URL is the
    [newAccount] endpoint, [kid] and not [jwk] otherwise. The header of the
    call number [i] is the dictionary number [2 + i] of the store, after
    the two signing identities; the [newAccount] entry of the directory is
    a value that equals itself, as every decoded JSON value does. *)
Theorem protected_header_jwk_kid_selection
    W old new dir rd cfg new_account r sF (i : nat) hdr :
  requests_get W [] (JStr dir) = Some rd ->
  json_body rd = Some cfg ->
  subscript cfg "newAccount" = inr new_account ->
  py_eq new_account new_account = true ->
  account_rollover W old new dir initial_state = (r, sF) ->
  heap sF !! (2 + i)%nat = Some hdr ->
  exists is_inner url,
    signer_call cfg i = Some (is_inner, url) /\
    if is_inner || py_eq url new_account
    then dict_in "jwk" hdr = true /\ dict_in "kid" hdr = false
    else dict_in "kid" hdr = true /\ dict_in "jwk" hdr = false.
Proof.
  intros Hget Hcfg Hna Hrefl H Hi.
  apply run_prefix_heap in H
    as [Hlen|(rd' & cfg' & io & inew & Hg & Hj & Hio & Hin & H)].
  { apply lookup_lt_Some in Hi. lia. }
  assert (cfg' = cfg) as -> by congruence. clear rd' Hg Hj.
  assert (Hfirst : signer_call cfg 0 = Some (false, new_account)).
  { cbn. now rewrite Hna. }
  apply bind_inv in H as [(e & H & ->)|([] & st2 & H1 & H)].
  - apply (identify_header _ _ _ _ _ _ _ _ _ _ Hio Hin Hna Hrefl) in H
      as (a & b & h1 & Hheap & Hj1 & Hk1).
    rewrite Hheap in Hi. destruct i as [|i]; [|destruct i; discriminate].
    injection Hi as <-. exists false, new_account.
    split; [assumption|]. rewrite Hrefl. cbn [orb]. auto.
  - pose proof (identify_header _ _ _ _ _ _ _ _ _ _ Hio Hin Hna Hrefl H1)
      as (a & b & h1 & Hheap & Hj1 & Hk1).
    apply (identify_in_run _ _ _ _ _ _ _ _ Hio Hin) in H1
      as (nn & na & jose & resp & n & location & h1' & _ & _ & _ & _ & _ & _
          & _ & _ & Hheap2).
    rewrite Hheap in Hheap2. injection Hheap2 as -> -> <-.
    pose proof (private_acme_signature_shape _ _ _ Hio) as (eo & no & ->).
    pose proof (private_acme_signature_shape _ _ _ Hin) as (en & n' & ->).
    apply (roll_over_heap _ _ _ _ _ _ _ new_account _ _ _ Hheap) in H
      as (hs & HheapF & Hhs); try reflexivity; [|assumption].
    rewrite HheapF, Hheap in Hi.
    destruct i as [|i].
    { injection Hi as <-. exists false, new_account.
      split; [assumption|]. rewrite Hrefl. cbn [orb]. auto. }
    destruct Hhs as [->|(kc & h2 & Hkc & Hj2 & Hk2 & [->|(h3 & -> & Hrule)])];
      [discriminate|..].
    + destruct i as [|i]; [|destruct i; discriminate].
      injection Hi as <-. exists true, kc. cbn [signer_call]. rewrite Hkc.
        split; [reflexivity|]. cbn [orb]. first [exact Hrule|auto].
    + destruct i as [|[|i]]; [..|destruct i; discriminate].
      * injection Hi as <-. exists true, kc. cbn [signer_call]. rewrite Hkc.
        split; [reflexivity|]. cbn [orb]. first [exact Hrule|auto].
      * injection Hi as <-. exists false, kc. cbn [signer_call]. rewrite Hkc.
        split; [reflexivity|]. cbn [orb]. first [exact Hrule|auto].
Qed.

(** The outer key-change request of a complete run against the example
    authority: its header is the fifth dictionary of the store. *)
Lemma protected_header_jwk_kid_selection_witness :
  let run := account_rollover (server directory account_found)
               old_key new_key directory_url initial_state in
  let hdr := match heap (snd run) !! 4%nat with Some h => h | None => [] end in
  exists is_inner url,
    signer_call directory 2 = Some (is_inner, url) /\
    if is_inner || py_eq url new_account_url
    then dict_in "jwk" hdr = true /\ dict_in "kid" hdr = false
    else dict_in "kid" hdr = true /\ dict_in "jwk" hdr = false.
Proof.
  intros run hdr.
  refine (protected_header_jwk_kid_selection
            (server directory account_found) old_key new_key directory_url
            (response 200 [] (Some directory)) directory new_account_url
            (fst run) (snd run) 2 hdr eq_refl eq_refl eq_refl eq_refl
            (surjective_pairing run) _).
  vm_compute. reflexivity.
Defined.

End RunClaims.

(** ** More on the codec *)

Module CodecExtras.
Import Base64 Base64Facts.

Lemma length_string_of_list_ascii l :
  String.length (string_of_list_ascii l) = length l.
Proof. induction l as [|c l IH]; simpl; congruence. Qed.

Lemma b64_char_in_alphabet n : (n < 64)%N -> In (b64_char n) alphabet.
Proof.
  intros Hn. unfold b64_char. apply nth_In.
  change (length alphabet) with 64%nat. lia.
Qed.

Lemma b64_chars_in_alphabet text : Forall (fun c => In c alphabet) (b64_chars text).
Proof.
  induction text as [|a|a b|a b c rest IH] using list_ind3.
  - constructor.
  - pose proof (to_N_lt a).
    rewrite b64_chars_one. cbv zeta.
    repeat (constructor;
            [apply b64_char_in_alphabet; auto using sextet1_lt;
             apply sextet0_lt, group_lt; lia|]).
    constructor.
  - pose proof (to_N_lt a). pose proof (to_N_lt b).
    rewrite b64_chars_two. cbv zeta.
    repeat (constructor;
            [apply b64_char_in_alphabet; auto using sextet1_lt, sextet2_lt;
             apply sextet0_lt, group_lt; lia|]).
    constructor.
  - pose proof (to_N_lt a). pose proof (to_N_lt b). pose proof (to_N_lt c).
    rewrite b64_chars_group. cbv zeta.
    do 4 (constructor;
          [apply b64_char_in_alphabet;
           auto using sextet1_lt, sextet2_lt, sextet3_lt;
           apply sextet0_lt, group_lt; lia|]).
    exact IH.
Qed.

Lemma b64_chars_length text :
  length (b64_chars text) = ((4 * length text + 2) / 3)%nat.
Proof.
  induction text as [|a|a b|a b c rest IH] using list_ind3.
  - reflexivity.
  - rewrite b64_chars_one. reflexivity.
  - rewrite b64_chars_two. reflexivity.
  - rewrite b64_chars_group. cbv zeta. cbn [length]. rewrite IH.
    replace (4 * S (S (S (length rest))) + 2)%nat
      with ((4 * length rest + 2) + 4 * 3)%nat by lia.
    rewrite Nat.div_add by lia. lia.
Qed.

(** X1. [_b64] is injective: two byte strings with the same text are the
    same byte string. *)
Theorem b64_texts_determine_bytes (s t : list byte) :
  _b64 s = _b64 t -> s = t.
Proof. apply b64_injective. Qed.

Lemma b64_texts_determine_bytes_witness :
  [x01; x02] = [x01; x02].
Proof. exact (b64_texts_determine_bytes [x01; x02] [x01; x02] eq_refl). Defined.

(** X2. The text [_b64] gives for [n] bytes has [ceil(4n/3)] characters,
    every one of them from the URL-safe alphabet [A-Z a-z 0-9 - _]. *)
Theorem b64_text_length_and_alphabet (s : list byte) :
  String.length (_b64 s) = ((4 * length s + 2) / 3)%nat /\
  Forall (fun c => In c alphabet) (list_ascii_of_string (_b64 s)).
Proof.
  unfold _b64. rewrite length_string_of_list_ascii,
    list_ascii_of_string_of_list_ascii.
  split; [apply b64_chars_length|apply b64_chars_in_alphabet].
Qed.

End CodecExtras.

(** ** More on the signer and the transport *)

Module SignerExtras.
Import Base64 Base64Facts Json Py Acme Summary Examples Wire.
Import DictFacts MonadFacts SignerFacts RunFacts JsonFacts TraceFacts.
Import SignerClaims.

Section Signer.
Variable W : world.
Variable C : closure.

Lemma dict_get_without_kid key d :
  key <> "kid" -> dict_get key (without_kid d) = dict_get key d.
Proof.
  intros Hne. unfold without_kid. destruct (dict_in "kid" d); [|reflexivity].
  now apply dict_get_del_ne.
Qed.

(** X3. What a signed request says: it is the flattened JWS of the header
    and of the payload text, an object with the members [protected],
    [payload] and [signature], whose signature is what [openssl] returned,
    with the key asked for, for [protected + "." + payload]; the payload
    text is empty for the empty-string sentinel and encodes the payload's
    JSON serialization otherwise; the header names the exact target URL and
    keeps the identity's [alg]; an outer request carries a nonce, the
    current one or one fetched from [newNonce], and an inner request gets
    none. *)
Theorem signed_header_names_target_and_nonce
    url keypath payload is_inner st jose st' :
  _sign_request W C url keypath payload is_inner st = (inr jose, st') ->
  exists tmpl hdr payload64,
    selected_identity C keypath (heap st) = Some tmpl /\
    heap st' = heap st ++ [hdr] /\
    signed_jws W keypath hdr payload64 jose /\
    ((payload = JStr "" /\ payload64 = "")
     \/ (payload <> JStr "" /\ json_text_of payload payload64)) /\
    dict_get "url" hdr = Some url /\
    dict_get "alg" hdr = dict_get "alg" tmpl /\
    if is_inner then dict_get "nonce" hdr = dict_get "nonce" tmpl
    else exists n, dict_get "nonce" hdr = Some (JStr n) /\
                   nonce_source W C st n (sent st').
Proof.
  intros H.
  apply sign_request_wire in H
    as (tmpl & hdr & Hsel & Hheap & _ & Hfin & Hjws).
  exists tmpl, hdr, (payload64_of payload).
  do 3 (split; [first [assumption|reflexivity]|]).
  split.
  { unfold payload64_of. destruct (py_eq payload (JStr "")) eqn:E.
    - left. split; [now apply py_eq_empty_str|reflexivity].
    - right. split; [|apply json_text_of_b64_json].
      intros ->. discriminate. }
  destruct Hfin as [(-> & _ & ->)
                   |(-> & na & n & _ & Hn & [(_ & ->)|(_ & _ & ->)])];
    (split; [apply dict_get_set_eq|]);
    rewrite ?(dict_get_set_ne "alg"), ?(dict_get_set_ne "nonce" "url"),
      ?dict_get_without_kid, ?dict_get_del_ne by discriminate;
    (split; [reflexivity|]);
    try reflexivity;
    exists n; (split; [apply dict_get_set_eq|exact Hn]).
Qed.

End Signer.

Lemma signed_header_names_target_and_nonce_witness :
  let W := server directory account_found in
  let C := closure_of directory in
  let run := _sign_request W C new_account_url old_key lookup_payload
               false keys_read in
  exists tmpl hdr payload64,
    selected_identity C old_key (heap keys_read) = Some tmpl /\
    heap (snd run) = heap keys_read ++ [hdr] /\
    signed_jws W old_key hdr payload64
      (match fst run with inr jose => jose | inl _ => JNull end) /\
    ((lookup_payload = JStr "" /\ payload64 = "")
     \/ (lookup_payload <> JStr "" /\ json_text_of lookup_payload payload64)) /\
    dict_get "url" hdr = Some new_account_url /\
    dict_get "alg" hdr = dict_get "alg" tmpl /\
    exists n, dict_get "nonce" hdr = Some (JStr n) /\
              nonce_source W C keys_read n (sent (snd run)).
Proof.
  exact (signed_header_names_target_and_nonce
           (server directory account_found) (closure_of directory)
           new_account_url old_key lookup_payload false keys_read
           _ _ eq_refl).
Defined.

Section Effects.
Variable W : world.
Variable C : closure.

(** X4. Whatever it returns, the signer never makes a POST and never
    changes the nonce variable; the only call it can make is one GET on the
    [newNonce] endpoint, and it makes none for an inner signature or when a
    non-empty nonce is at hand. *)
Theorem signer_makes_no_post_and_keeps_the_nonce
    url keypath payload is_inner st r st' :
  _sign_request W C url keypath payload is_inner st = (r, st') ->
  nonce st' = nonce st /\
  posts (sent st') = posts (sent st) /\
  (sent st' = sent st
   \/ exists u, subscript (acme_config C) "newNonce" = inr u /\
                sent st' = sent st ++ [EvGet u]) /\
  (is_inner = true \/ (exists c n, nonce st = Some (String c n)) ->
   sent st' = sent st).
Proof.
  intros H.
  pose proof (sign_request_effect _ _ _ _ _ _ _ _ _ H) as (Hn & _).
  pose proof (sign_request_posts _ _ _ _ _ _ _ _ _ H) as Hp.
  split; [exact Hn|]. split; [exact Hp|].
  exact (sign_request_calls _ _ _ _ _ _ _ _ _ H).
Qed.

(** X5. When the transport returns, it has made exactly one POST, to the
    URL asked for and with the signed request as body; the response it
    returns is the one of that POST, it is an accepted one, the nonce
    variable now holds its [Replay-Nonce] header, and the body returned is
    the decoded body, or the text [{}] when the body does not decode. *)
Theorem transport_return_refreshes_the_nonce
    url keypath payload st resp body st' :
  _send_signed_request W C url keypath payload st = (inr (resp, body), st') ->
  exists jose st1 n hdr,
    _sign_request W C url keypath payload false st = (inr jose, st1) /\
    post_response W (sent st1) url jose = Some resp /\
    response_ok resp = true /\
    header_getitem "Replay-Nonce" resp = inr n /\
    nonce st' = Some n /\
    body = decoded_body resp /\
    sent st' = sent st1 ++ [EvPost url jose] /\
    posts (sent st') = posts (sent st) ++ [EvPost url jose] /\
    heap st' = heap st ++ [hdr].
Proof.
  intros H.
  apply send_inr in H
    as (jose & st1 & n & Hs & Hpost & Hok & Hn & -> & Hh & Hnonce & Hsent).
  pose proof (sign_request_posts _ _ _ _ _ _ _ _ _ Hs) as Hp.
  pose proof (sign_request_inr _ _ _ _ _ _ _ _ _ Hs)
    as (tmpl & hdr & sg & _ & Hheap & _).
  exists jose, st1, n, hdr.
  repeat split; try assumption.
  - rewrite Hsent, posts_post. now rewrite Hp.
  - congruence.
Qed.

Lemma truthy_response_false response :
  truthy_response response = false <->
  response = None
  \/ exists r, response = Some r /\ (400 <= status_code r < 600)%Z.
Proof.
  unfold truthy_response, response_ok. destruct response as [r|].
  - rewrite negb_false_iff, andb_true_iff, Z.leb_le, Z.ltb_lt. split.
    + intros H. right. eauto.
    + intros [?|(r' & [= <-] & H)]; [discriminate|assumption].
  - split; auto.
Qed.

(** X6. The transport fails with "Unable to get response from ACME server."
    exactly when the request was signed and sent and there is no response
    at all or the response has a status from 400 to 599. *)
Theorem transport_gives_up_on_error_statuses url keypath payload st :
  fst (_send_signed_request W C url keypath payload st)
  = inl (RuntimeError no_response)
  <-> exists jose st1,
        _sign_request W C url keypath payload false st = (inr jose, st1) /\
        (post_response W (sent st1) url jose = None
         \/ exists r, post_response W (sent st1) url jose = Some r /\
                      (400 <= status_code r < 600)%Z).
Proof.
  split.
  - destruct (_send_signed_request W C url keypath payload st)
      as [r st'] eqn:H. cbn [fst]. intros ->.
    apply send_inl in H
      as [H|(jose & st1 & Hs & _ & _ & _ & [[Ht _]|(resp & _ & _ & Hh)])].
    + apply sign_request_effect in H as (_ & _ & _ & Hm).
      destruct (Hm _ eq_refl) as (Hbad & _). discriminate.
    + exists jose, st1. split; [assumption|].
      now apply truthy_response_false.
    + now apply header_getitem_not_runtime in Hh.
  - intros (jose & st1 & Hs & Hno).
    apply truthy_response_false in Hno.
    now rewrite (send_refused _ _ _ _ _ _ _ _ Hs Hno).
Qed.

End Effects.

Lemma signer_makes_no_post_and_keeps_the_nonce_witness :
  let run := _sign_request (server directory account_found)
               (closure_of directory) new_account_url old_key lookup_payload
               false keys_read in
  nonce (snd run) = nonce keys_read /\
  posts (sent (snd run)) = posts (sent keys_read) /\
  (sent (snd run) = sent keys_read
   \/ exists u, subscript (acme_config (closure_of directory)) "newNonce"
                = inr u /\
                sent (snd run) = sent keys_read ++ [EvGet u]) /\
  (false = true \/ (exists c n, nonce keys_read = Some (String c n)) ->
   sent (snd run) = sent keys_read).
Proof.
  exact (signer_makes_no_post_and_keeps_the_nonce
           (server directory account_found) (closure_of directory)
           new_account_url old_key lookup_payload false keys_read
           _ _ eq_refl).
Defined.

Lemma transport_return_refreshes_the_nonce_witness :
  let W := server directory account_found in
  let C := closure_of directory in
  let run := _send_signed_request W C new_account_url old_key lookup_payload
               keys_read in
  exists jose st1 n hdr,
    _sign_request W C new_account_url old_key lookup_payload false keys_read
    = (inr jose, st1) /\
    post_response W (sent st1) new_account_url jose = Some account_found /\
    response_ok account_found = true /\
    header_getitem "Replay-Nonce" account_found = inr n /\
    nonce (snd run) = Some n /\
    JObj [("status", JStr "valid")] = decoded_body account_found /\
    sent (snd run) = sent st1 ++ [EvPost new_account_url jose] /\
    posts (sent (snd run))
    = posts (sent keys_read) ++ [EvPost new_account_url jose] /\
    heap (snd run) = heap keys_read ++ [hdr].
Proof.
  exact (transport_return_refreshes_the_nonce
           (server directory account_found) (closure_of directory)
           new_account_url old_key lookup_payload keys_read
           account_found (JObj [("status", JStr "valid")]) _ eq_refl).
Defined.

End SignerExtras.

(** ** Reading a key *)

Module KeyExtras.
Import Base64 Base64Facts Json Py Acme Summary Examples Numerals Wire.
Import DictFacts MonadFacts SignerFacts RunFacts TraceFacts.

Local Open Scope N_scope.

Lemma hex_value_lt c d : hex_value c = Some d -> d < 16.
Proof.
  unfold hex_value.
  repeat match goal with
         | |- context [if ?b then _ else _] =>
             let E := fresh "E" in
             destruct b eqn:E;
             [apply andb_true_iff in E as [A B];
              apply N.leb_le in A, B; intros [= <-]; lia|clear E]
         end.
  discriminate.
Qed.

(** Stdlib's reading of a hexadecimal numeral, after the number [acc]. *)
Lemma hex_eval_string_of_uint d acc :
  hex_eval (HexadecimalString.NilEmpty.string_of_uint d) acc
  = Some match acc with
         | N0 => Pos.of_hex_uint d
         | Npos p => Npos (Pos.of_hex_uint_acc d p)
         end.
Proof.
  revert acc.
  induction d as [|d IH|d IH|d IH|d IH|d IH|d IH|d IH|d IH|d IH|d IH|d IH
                  |d IH|d IH|d IH|d IH|d IH];
    intros acc; [destruct acc; reflexivity|..];
    cbn [HexadecimalString.NilEmpty.string_of_uint hex_eval];
    (match goal with
     | |- context [hex_value ?c] =>
         let v := eval vm_compute in (hex_value c) in
         change (hex_value c) with v
     end);
    cbv beta iota; rewrite IH; destruct acc as [|p];
    try reflexivity;
    (match goal with
     | |- context [match ?x with N0 => _ | Npos _ => _ end] =>
         let E := fresh "E" in destruct x eqn:E; [exfalso; lia|]
     end);
    cbn [Pos.of_hex_uint_acc]; do 3 f_equal; lia.
Qed.

Lemma hex_eval_format_hex n : hex_eval (format_hex n) 0 = Some n.
Proof.
  unfold format_hex, HexadecimalString.NilZero.string_of_uint.
  pose proof (HexadecimalN.Unsigned.of_to n) as Hn.
  unfold N.of_hex_uint in Hn.
  destruct (N.to_hex_uint n) eqn:E;
    [cbn in Hn; now subst|..];
    rewrite hex_eval_string_of_uint; f_equal; exact Hn.
Qed.

Lemma string_ind2 (P : string -> Prop) :
  P "" -> (forall c, P (String c "")) ->
  (forall a b s, P s -> P (String a (String b s))) ->
  forall s, P s.
Proof.
  intros H0 H1 H2.
  fix IH 1. intros [|a [|b s]]; [exact H0|exact (H1 a)|].
  apply H2, IH.
Qed.

Lemma to_N_byte_of_N m : m < 256 -> Byte.to_N (byte_of_N m) = m.
Proof.
  intros Hm. unfold byte_of_N.
  destruct (Byte.of_N m) as [y|] eqn:E.
  - now apply Byte.to_of_N.
  - apply Byte.of_N_None_iff in E. lia.
Qed.

(** An even number of hexadecimal digits always unhexlifies, to the bytes
    that write the same number. *)
Lemma unhexlify_hex_eval s : forall acc v,
  Nat.even (String.length s) = true ->
  hex_eval s acc = Some v ->
  exists bs, unhexlify s = Some bs /\ be_value_from acc bs = v.
Proof.
  induction s as [|c|a b s IH] using string_ind2; intros acc v Hlen Hv.
  - injection Hv as <-. exists []. split; reflexivity.
  - discriminate.
  - cbn [hex_eval] in Hv. cbn [unhexlify].
    destruct (hex_value a) as [h|] eqn:Ha; [|discriminate].
    destruct (hex_value b) as [l|] eqn:Hb; [|discriminate].
    destruct (IH _ _ Hlen Hv) as (bs & -> & Hbs).
    eexists. split; [reflexivity|].
    unfold be_value_from in *. cbn [fold_left].
    pose proof (hex_value_lt _ _ Ha). pose proof (hex_value_lt _ _ Hb).
    rewrite to_N_byte_of_N by lia.
    rewrite <- Hbs. f_equal. lia.
Qed.

Lemma even_padded_even s : Nat.even (String.length (even_padded s)) = true.
Proof.
  unfold even_padded. destruct (Nat.odd (String.length s)) eqn:E.
  - change (String.length ("0" +:+ s)) with (S (String.length s)).
    rewrite Nat.even_succ. exact E.
  - rewrite <- Nat.negb_odd, E. reflexivity.
Qed.

Lemma hex_eval_even_padded s : hex_eval (even_padded s) 0 = hex_eval s 0.
Proof. unfold even_padded. destruct (Nat.odd (String.length s)); reflexivity. Qed.

(** The bytes of the public exponent write the exponent. *)
Lemma exponent_bytes n :
  exists bs, unhexlify (even_padded (format_hex n)) = Some bs /\
             be_value bs = n.
Proof.
  apply unhexlify_hex_eval; [apply even_padded_even|].
  rewrite hex_eval_even_padded. apply hex_eval_format_hex.
Qed.

(** *** No leading zero byte *)

Lemma to_hex_uint_norm n :
  N.to_hex_uint n = Hexadecimal.unorm (N.to_hex_uint n).
Proof.
  now rewrite <- HexadecimalN.Unsigned.to_of, HexadecimalN.Unsigned.of_to.
Qed.

(** ["{0:x}".format(n)] starts with a digit other than [0], unless [n] is
    zero. *)
Lemma format_hex_head n :
  n <> 0 ->
  exists c s h, format_hex n = String c s /\ hex_value c = Some h /\ 1 <= h.
Proof.
  intros Hn. unfold format_hex.
  pose proof (to_hex_uint_norm n) as Hnorm.
  destruct (N.to_hex_uint n) as [|u|u|u|u|u|u|u|u|u|u|u|u|u|u|u|u] eqn:E.
  1: discriminate.
  1: { exfalso. unfold Hexadecimal.unorm in Hnorm.
       destruct (Hexadecimal.nzhead (Hexadecimal.D0 u)) eqn:En;
         try discriminate.
       - injection Hnorm as ->. apply Hn.
         now apply HexadecimalN.Unsigned.to_uint_inj.
       - exact (HexadecimalFacts.nzhead_nonzero _ _ En). }
  all: cbn [HexadecimalString.NilZero.string_of_uint
            HexadecimalString.NilEmpty.string_of_uint];
    eexists _, _, _; (split; [reflexivity|]);
    (split; [vm_compute; reflexivity|lia]).
Qed.

Lemma byte_of_N_nonzero m : 0 < m < 256 -> byte_of_N m <> x00.
Proof.
  intros Hm E. pose proof (to_N_byte_of_N m (proj2 Hm)) as Ht.
  rewrite E in Ht. cbn in Ht. lia.
Qed.

Lemma exponent_head n bs :
  n <> 0 ->
  unhexlify (even_padded (format_hex n)) = Some bs ->
  exists b rest, bs = b :: rest /\ b <> x00.
Proof.
  intros Hn H.
  destruct (format_hex_head n Hn) as (c & s & h & Hf & Hh & Hge).
  pose proof (hex_value_lt _ _ Hh) as Hlt.
  rewrite Hf in H. unfold even_padded in H.
  destruct (Nat.odd (String.length (String c s))) eqn:Eo.
  - change ("0" +:+ String c s) with (String "0" (String c s)) in H.
    cbn [unhexlify] in H. rewrite Hh in H.
    change (hex_value "0") with (Some 0) in H. cbv beta iota in H.
    destruct (unhexlify s) as [rest|]; [|discriminate].
    injection H as <-. eexists _, _. split; [reflexivity|].
    apply byte_of_N_nonzero. lia.
  - destruct s as [|c2 s']; [discriminate|].
    cbn [unhexlify] in H. rewrite Hh in H.
    destruct (hex_value c2) as [l|] eqn:Hl; [|discriminate].
    pose proof (hex_value_lt _ _ Hl).
    destruct (unhexlify s') as [rest|]; [|discriminate].
    injection H as <-. eexists _, _. split; [reflexivity|].
    apply byte_of_N_nonzero. lia.
Qed.

(** The bytes of the public exponent are the shortest that write it. *)
Lemma exponent_bytes_shortest n :
  exists bs, unhexlify (even_padded (format_hex n)) = Some bs /\
             shortest_be n bs.
Proof.
  destruct (N.eq_dec n 0) as [->|Hn].
  - exists [x00]. split; [reflexivity|]. split; [reflexivity|]. reflexivity.
  - destruct (exponent_bytes n) as (bs & Hbs & Hv).
    exists bs. split; [assumption|]. split; [assumption|].
    destruct (exponent_head n bs Hn Hbs) as (b & rest & -> & Hb).
    intros E. contradiction.
Qed.

(** *** The shortest bytes of a number are unique *)

Lemma be_value_from_acc bs : forall acc,
  be_value_from acc bs = acc * 256 ^ N.of_nat (length bs) + be_value bs.
Proof.
  unfold be_value, be_value_from.
  induction bs as [|b bs IH]; intros acc.
  - cbn. lia.
  - cbn [fold_left length]. rewrite IH, (IH (0 * 256 + Byte.to_N b)).
    rewrite Nat2N.inj_succ, N.pow_succ_r'. lia.
Qed.

Lemma be_value_cons b bs :
  be_value (b :: bs) = Byte.to_N b * 256 ^ N.of_nat (length bs) + be_value bs.
Proof.
  unfold be_value at 1, be_value_from. cbn [fold_left].
  change (fold_left _ bs ?a) with (be_value_from a bs).
  rewrite be_value_from_acc. lia.
Qed.

Lemma be_value_lt bs : be_value bs < 256 ^ N.of_nat (length bs).
Proof.
  induction bs as [|b bs IH].
  - cbn. lia.
  - rewrite be_value_cons. cbn [length].
    rewrite Nat2N.inj_succ, N.pow_succ_r'.
    pose proof (Byte.to_N_bounded b) as Hb.
    apply (N.mul_le_mono_r _ _ (256 ^ N.of_nat (length bs))) in Hb. lia.
Qed.

Lemma to_N_inj a b : Byte.to_N a = Byte.to_N b -> a = b.
Proof.
  intros E. pose proof (Byte.of_to_N a) as Ha.
  rewrite E, Byte.of_to_N in Ha. congruence.
Qed.

Lemma be_value_inj a : forall b,
  length a = length b -> be_value a = be_value b -> a = b.
Proof.
  induction a as [|x a IH]; intros [|y b] Hlen Hv; try discriminate.
  - reflexivity.
  - injection Hlen as Hlen. rewrite !be_value_cons, <- Hlen in Hv.
    pose proof (be_value_lt a) as La. pose proof (be_value_lt b) as Lb.
    rewrite <- Hlen in Lb.
    assert (Byte.to_N x = Byte.to_N y /\ be_value a = be_value b) as [Hx Ha].
    { set (P := 256 ^ N.of_nat (length a)) in *.
      destruct (N.lt_trichotomy (Byte.to_N x) (Byte.to_N y)) as [Hl|[Hl|Hl]].
      - exfalso.
        assert ((Byte.to_N x + 1) * P <= Byte.to_N y * P)
          by (apply N.mul_le_mono_r; lia). lia.
      - rewrite Hl in Hv. split; [assumption|lia].
      - exfalso.
        assert ((Byte.to_N y + 1) * P <= Byte.to_N x * P)
          by (apply N.mul_le_mono_r; lia). lia. }
    f_equal; [now apply to_N_inj|now apply IH].
Qed.

Lemma shortest_be_bounds n b rest :
  shortest_be n (b :: rest) -> b <> x00 ->
  256 ^ N.of_nat (length rest) <= n < 256 ^ N.of_nat (S (length rest)).
Proof.
  intros [Hv _] Hb. subst n. split.
  - rewrite be_value_cons.
    assert (Hnz : 1 <= Byte.to_N b).
    { assert (Byte.to_N b <> 0); [|lia].
      intros E. apply Hb. now apply to_N_inj. }
    apply (N.mul_le_mono_r _ _ (256 ^ N.of_nat (length rest))) in Hnz. lia.
  - apply (be_value_lt (b :: rest)).
Qed.

(** Two shortest byte strings of the same number are the same. *)
Lemma shortest_be_unique n a b :
  shortest_be n a -> shortest_be n b -> a = b.
Proof.
  intros Ha Hb.
  destruct a as [|x a]; [now destruct Ha|].
  destruct b as [|y b]; [now destruct Hb|].
  destruct (Byte.byte_eq_dec x x00) as [->|Hx], (Byte.byte_eq_dec y x00) as [->|Hy].
  - destruct Ha as [_ Ha], Hb as [_ Hb].
    now rewrite (Ha eq_refl), (Hb eq_refl).
  - destruct Ha as [Hv Ha]. rewrite (Ha eq_refl) in Hv. cbn in Hv.
    pose proof (shortest_be_bounds _ _ _ Hb Hy) as [Hlo _].
    pose proof (N.pow_nonzero 256 (N.of_nat (length b))). lia.
  - destruct Hb as [Hv Hb]. rewrite (Hb eq_refl) in Hv. cbn in Hv.
    pose proof (shortest_be_bounds _ _ _ Ha Hx) as [Hlo _].
    pose proof (N.pow_nonzero 256 (N.of_nat (length a))). lia.
  - pose proof (shortest_be_bounds _ _ _ Ha Hx) as [La Ua].
    pose proof (shortest_be_bounds _ _ _ Hb Hy) as [Lb Ub].
    assert (Hlen : length a = length b).
    { destruct (Nat.lt_trichotomy (length a) (length b)) as [Hl|[Hl|Hl]];
        [exfalso|assumption|exfalso].
      - assert (256 ^ N.of_nat (S (length a)) <= 256 ^ N.of_nat (length b))
          by (apply N.pow_le_mono_r; lia). lia.
      - assert (256 ^ N.of_nat (S (length b)) <= 256 ^ N.of_nat (length a))
          by (apply N.pow_le_mono_r; lia). lia. }
    apply be_value_inj; [cbn; congruence|].
    destruct Ha as [-> _], Hb as [Hb _]. now symmetry.
Qed.

(** *** Decimal numerals *)

(** Stdlib's reading of a decimal numeral, after the number [acc]. *)
Lemma int_digits_string_of_uint d acc :
  int_digits acc (DecimalString.NilEmpty.string_of_uint d)
  = Some match acc with
         | N0 => Pos.of_uint d
         | Npos p => Npos (Pos.of_uint_acc d p)
         end.
Proof.
  revert acc.
  induction d as [|d IH|d IH|d IH|d IH|d IH|d IH|d IH|d IH|d IH|d IH];
    intros acc; [destruct acc; reflexivity|..];
    cbn [DecimalString.NilEmpty.string_of_uint int_digits];
    (match goal with
     | |- context [digit_value ?c] =>
         let v := eval vm_compute in (digit_value c) in
         change (digit_value c) with v
     end);
    cbv beta iota; rewrite IH; destruct acc as [|p];
    try reflexivity;
    (match goal with
     | |- context [match ?x with N0 => _ | Npos _ => _ end] =>
         let E := fresh "E" in destruct x eqn:E; [exfalso; lia|]
     end);
    cbn [Pos.of_uint_acc]; do 3 f_equal; lia.
Qed.

Lemma digit_uint_of_char c d u :
  digit_value c = Some d ->
  exists u', DecimalString.uint_of_char c (Some u) = Some u'.
Proof.
  destruct c as [[] [] [] [] [] [] [] []]; intros H; vm_compute in H;
    try discriminate H; eexists; reflexivity.
Qed.

Lemma int_digits_uint s : forall acc n,
  int_digits acc s = Some n ->
  exists u, DecimalString.NilEmpty.uint_of_string s = Some u.
Proof.
  induction s as [|c s IH]; intros acc n H.
  - eexists. reflexivity.
  - cbn [int_digits] in H.
    destruct (digit_value c) as [d|] eqn:Hd; [|discriminate].
    destruct (IH _ _ H) as (u & Hu).
    cbn [DecimalString.NilEmpty.uint_of_string]. rewrite Hu.
    exact (digit_uint_of_char _ _ _ Hd).
Qed.

Lemma int_digits_numeral s u :
  DecimalString.NilEmpty.uint_of_string s = Some u ->
  int_digits 0 s = Some (N.of_uint u).
Proof.
  intros Hu. apply DecimalString.NilEmpty.sus in Hu. subst s.
  apply int_digits_string_of_uint.
Qed.

(** [int] converts exactly the decimal numerals, to what they read as. *)
Lemma int_of_str_spec s n : int_of_str s = inr n <-> decimal_numeral s n.
Proof.
  unfold int_of_str, decimal_numeral. split.
  - intros H. destruct s as [|c s]; [discriminate|].
    destruct (int_digits 0 (String c s)) as [m|] eqn:Hd; [|discriminate].
    destruct (int_max_str_digits <? String.length (String c s))%nat eqn:Hl;
      [discriminate|].
    injection H as ->.
    split; [discriminate|]. split; [now apply Nat.ltb_ge|].
    destruct (int_digits_uint _ _ _ Hd) as (u & Hu).
    exists u. split; [assumption|].
    rewrite (int_digits_numeral _ _ Hu) in Hd. congruence.
  - intros (Hne & Hlen & u & Hu & <-).
    destruct s as [|c s]; [contradiction|].
    rewrite (int_digits_numeral _ _ Hu).
    apply Nat.ltb_ge in Hlen. now rewrite Hlen.
Qed.

Local Close Scope N_scope.

(** [openssl rsa] has printed the key. *)
Lemma openssl_output W command options communicate out :
  _openssl W command options communicate = inr out <->
  fst (openssl_run W command options communicate) = (0%Z, out).
Proof.
  unfold _openssl.
  destruct (openssl_run W command options communicate) as [[c o] e].
  cbn [fst]. destruct (c =? 0)%Z eqn:E; cbn [negb]; split.
  - apply Z.eqb_eq in E. intros [= ->]. now subst.
  - now intros [= _ ->].
  - discriminate.
  - intros [= -> _]. discriminate.
Qed.

Lemma openssl_error W command options communicate e :
  _openssl W command options communicate = inl e -> e <> BinasciiError.
Proof.
  unfold _openssl.
  destruct (openssl_run W command options communicate) as [[c o] err].
  destruct (negb (c =? 0)%Z); intros [= <-]. discriminate.
Qed.

Lemma int_of_str_error s e : int_of_str s = inl e -> e <> BinasciiError.
Proof.
  unfold int_of_str. destruct s as [|c s]; [now intros [= <-]|].
  destruct (int_digits 0%N (String c s)); [|now intros [= <-]].
  destruct (int_max_str_digits <? String.length (String c s))%nat;
    [now intros [= <-]|discriminate].
Qed.

(** X7. The JWK of a key: its [e] member is the base64url text of the
    public exponent, the number the decimal numeral [pub_exp] reads as,
    written in the fewest bytes, most significant byte first; its [n]
    member is the base64url text of the bytes the modulus digits spell once
    blanks and colons are removed. *)
Theorem jwk_encodes_exponent_and_modulus W keypath d :
  private_acme_signature W keypath = inr d ->
  exists accountkey pub_hex pub_exp exponent e_bytes n_bytes e64 n64,
    fst (openssl_run W "rsa" ["-in"; keypath; "-noout"; "-text"] None)
    = (0%Z, accountkey) /\
    rsa_text_search W accountkey = Groups pub_hex pub_exp /\
    decimal_numeral pub_exp exponent /\
    shortest_be exponent e_bytes /\
    unhexlify (strip_space_colon pub_hex) = Some n_bytes /\
    base64url_of e_bytes e64 /\
    base64url_of n_bytes n64 /\
    d = [("alg", JStr "RS256");
         ("jwk", JObj [("e", JStr e64); ("kty", JStr "RSA");
                       ("n", JStr n64)])].
Proof.
  unfold private_acme_signature. intros H.
  destruct (_openssl W "rsa" ["-in"; keypath; "-noout"; "-text"] None)
    as [e|accountkey] eqn:Ho; [discriminate|].
  destruct (rsa_text_search W accountkey) as [| |pub_hex pub_exp] eqn:Hs;
    [discriminate..|].
  destruct (int_of_str pub_exp) as [e|exponent] eqn:Hi; [discriminate|].
  cbv zeta in H.
  destruct (exponent_bytes_shortest exponent) as (e_bytes & He & Hv).
  unfold even_padded in He. rewrite He in H.
  destruct (unhexlify (strip_space_colon pub_hex)) as [n_bytes|] eqn:Hn;
    [|discriminate].
  injection H as <-.
  exists accountkey, pub_hex, pub_exp, exponent, e_bytes, n_bytes,
    (_b64 e_bytes), (_b64 n_bytes).
  split; [now apply openssl_output|]. split; [assumption|].
  split; [now apply int_of_str_spec|]. split; [assumption|].
  split; [exact Hn|].
  split; [apply base64url_of_b64|]. split; [apply base64url_of_b64|].
  reflexivity.
Qed.

(** The old key of the example authority: exponent 65537, written in the
    three bytes [01 00 01]. *)
Lemma jwk_encodes_exponent_and_modulus_witness :
  let W := server directory account_found in
  exists accountkey pub_hex pub_exp exponent e_bytes n_bytes e64 n64,
    fst (openssl_run W "rsa" ["-in"; old_key; "-noout"; "-text"] None)
    = (0%Z, accountkey) /\
    rsa_text_search W accountkey = Groups pub_hex pub_exp /\
    decimal_numeral pub_exp exponent /\
    shortest_be exponent e_bytes /\
    unhexlify (strip_space_colon pub_hex) = Some n_bytes /\
    base64url_of e_bytes e64 /\
    base64url_of n_bytes n64 /\
    old_identity
    = [("alg", JStr "RS256");
       ("jwk", JObj [("e", JStr e64); ("kty", JStr "RSA");
                     ("n", JStr n64)])].
Proof.
  exact (jwk_encodes_exponent_and_modulus (server directory account_found)
           old_key old_identity eq_refl).
Defined.

(** X8. Reading a key fails with [binascii.Error] only because of the
    modulus: it does exactly when [openssl] has printed the key, the
    pattern has matched, the exponent is a decimal numeral that [int]
    converts, and the modulus digits do not unhexlify. The exponent,
    whatever number it is, always gives an even number of hexadecimal
    digits. *)
Theorem binascii_error_comes_from_the_modulus W keypath :
  private_acme_signature W keypath = inl BinasciiError <->
  exists accountkey pub_hex pub_exp exponent,
    fst (openssl_run W "rsa" ["-in"; keypath; "-noout"; "-text"] None)
    = (0%Z, accountkey) /\
    rsa_text_search W accountkey = Groups pub_hex pub_exp /\
    decimal_numeral pub_exp exponent /\
    unhexlify (strip_space_colon pub_hex) = None.
Proof.
  unfold private_acme_signature. split.
  - intros H.
    destruct (_openssl W "rsa" ["-in"; keypath; "-noout"; "-text"] None)
      as [e|accountkey] eqn:Ho.
    { injection H as ->. now apply openssl_error in Ho. }
    destruct (rsa_text_search W accountkey) as [| |pub_hex pub_exp] eqn:Hs;
      [discriminate..|].
    destruct (int_of_str pub_exp) as [e|exponent] eqn:Hi.
    { injection H as ->. now apply int_of_str_error in Hi. }
    cbv zeta in H.
    destruct (exponent_bytes exponent) as (e_bytes & He & Hv).
    unfold even_padded in He. rewrite He in H.
    destruct (unhexlify (strip_space_colon pub_hex)) as [n_bytes|] eqn:Hn;
      [discriminate|].
    exists accountkey, pub_hex, pub_exp, exponent.
    split; [now apply openssl_output|]. split; [assumption|].
    split; [now apply int_of_str_spec|exact Hn].
  - intros (accountkey & pub_hex & pub_exp & exponent & Ho & Hs & Hi & Hn).
    apply openssl_output in Ho. apply int_of_str_spec in Hi.
    rewrite Ho, Hs, Hi. cbv zeta.
    destruct (exponent_bytes exponent) as (e_bytes & He & Hv).
    unfold even_padded in He. now rewrite He, Hn.
Qed.

End KeyExtras.

(** ** More on the orchestration *)

Module RunExtras.
Import Base64 Base64Facts Json Py Acme Summary Examples Endpoints MoreExamples.
Import Wire DictFacts MonadFacts SignerFacts RunFacts JsonFacts TraceFacts.
Import SignerClaims SignerExtras.

Section Steps.
Variable W : world.
Variable C : closure.

(** X10. The account lookup, answered by an accepted response that has a
    [Replay-Nonce] header: with status 200 the step goes on (to read
    [Location]); with any other status the run stops with the [ValueError]
    that carries the status and the decoded body, no key-change request is
    made, and the nonce variable holds the nonce of that response. *)
Theorem lookup_with_other_status_stops_the_run
    st new_account jose st1 resp n :
  subscript (acme_config C) "newAccount" = inr new_account ->
  _sign_request W C new_account (old_accountkeypath C) lookup_payload false st
  = (inr jose, st1) ->
  post_response W (sent st1) new_account jose = Some resp ->
  response_ok resp = true ->
  header_getitem "Replay-Nonce" resp = inr n ->
  status_code resp <> 200%Z ->
  (identify_account W C ;; roll_over W C) st
  = (inl (ValueError lookup_failed
            [JInt (status_code resp); decoded_body resp]),
     {| heap := heap st1; nonce := Some n;
        sent := sent st1 ++ [EvPost new_account jose] |}).
Proof.
  intros Hna Hs Hpost Hok Hn Hstatus.
  unfold bind at 1, identify_account at 1.
  unfold bind at 1, lift at 1. rewrite Hna.
  unfold bind at 1.
  rewrite (send_accepted _ _ _ _ _ _ _ _ _ _ Hs Hpost Hok Hn).
  apply Z.eqb_neq in Hstatus. now rewrite Hstatus.
Qed.

(** X11. The key-change request, answered by an accepted response that has
    a [Replay-Nonce] header: the step returns on status 200 and raises the
    [ValueError] that carries the status and the decoded body on any other;
    either way one POST is made and the nonce variable holds the nonce of
    the response. *)
Theorem key_change_succeeds_on_200_only
    st inner st1 key_change jose st2 resp n :
  inner_key_change W C st = (inr inner, st1) ->
  subscript (acme_config C) "keyChange" = inr key_change ->
  _sign_request W C key_change (old_accountkeypath C) inner false st1
  = (inr jose, st2) ->
  post_response W (sent st2) key_change jose = Some resp ->
  response_ok resp = true ->
  header_getitem "Replay-Nonce" resp = inr n ->
  roll_over W C st
  = (if (status_code resp =? 200)%Z then inr tt
     else inl (ValueError rollover_failed
                 [JInt (status_code resp); decoded_body resp]),
     {| heap := heap st2; nonce := Some n;
        sent := sent st2 ++ [EvPost key_change jose] |}).
Proof.
  intros Hin Hkc Hs Hpost Hok Hn.
  unfold roll_over. unfold bind at 1. rewrite Hin.
  unfold bind at 1, lift at 1. rewrite Hkc.
  unfold bind at 1.
  rewrite (send_accepted _ _ _ _ _ _ _ _ _ _ Hs Hpost Hok Hn).
  destruct (status_code resp =? 200)%Z; reflexivity.
Qed.

Lemma endpoint_calls_refl st n : endpoint_calls_from C st st n.
Proof.
  exists []. rewrite app_nil_r. repeat split; [constructor|cbn; lia].
Qed.

Lemma endpoint_calls_same st st' n :
  sent st' = sent st -> endpoint_calls_from C st st' n.
Proof.
  intros E. exists []. rewrite app_nil_r. repeat split;
    [assumption|constructor|cbn; lia].
Qed.

Lemma endpoint_calls_trans st1 st2 st3 n m :
  endpoint_calls_from C st1 st2 n -> endpoint_calls_from C st2 st3 m ->
  endpoint_calls_from C st1 st3 (n + m).
Proof.
  intros (c1 & E1 & F1 & L1) (c2 & E2 & F2 & L2).
  exists (c1 ++ c2). rewrite E2, E1, <- app_assoc. split; [reflexivity|].
  split; [now apply Forall_app|].
  rewrite posts_app, length_app. lia.
Qed.

Lemma sign_request_endpoint_calls url keypath payload is_inner st r st' :
  _sign_request W C url keypath payload is_inner st = (r, st') ->
  endpoint_calls_from C st st' 0.
Proof.
  intros H. apply sign_request_calls in H as ([E|(u & Hu & E)] & _).
  - now apply endpoint_calls_same.
  - exists [EvGet u]. split; [assumption|]. split; [|cbn; lia].
    constructor; [|constructor]. left. eauto.
Qed.

Lemma send_endpoint_calls url keypath payload st r st' :
  subscript (acme_config C) "newAccount" = inr url
  \/ subscript (acme_config C) "keyChange" = inr url ->
  _send_signed_request W C url keypath payload st = (r, st') ->
  endpoint_calls_from C st st' 1.
Proof.
  intros Hurl H.
  apply send_effect in H as [(e & _ & Hs)|(jose & st1 & Hs & _ & Hsent)].
  - apply sign_request_endpoint_calls in Hs as (c & E & F & L).
    exists c. repeat split; [assumption..|lia].
  - apply sign_request_endpoint_calls in Hs.
    apply (endpoint_calls_trans _ _ _ 0 1 Hs).
    exists [EvPost url jose]. split; [assumption|]. split; [|cbn; lia].
    constructor; [|constructor]. right. destruct Hurl; [left|right]; eauto.
Qed.

Lemma identify_endpoint_calls st r st' :
  identify_account W C st = (r, st') -> endpoint_calls_from C st st' 1.
Proof.
  intros H.
  apply identify_sent in H as [(-> & _)|(na & r1 & st2 & Hna & Hsend & E & _)].
  - apply endpoint_calls_refl.
  - apply send_endpoint_calls in Hsend; [|now left].
    destruct Hsend as (c & E2 & F & L). exists c. rewrite E.
    repeat split; assumption.
Qed.

Lemma roll_over_endpoint_calls st r st' :
  roll_over W C st = (r, st') -> endpoint_calls_from C st st' 1.
Proof.
  intros H.
  apply roll_over_inv in H
    as [(E & _)|(inner & st1 & kc & Hin & Hkc &
                 [(e & _ & Hs)|(jose & st2 & Hs & _ & E & _)])].
  - now apply endpoint_calls_same.
  - apply inner_key_change_inr in Hin
      as (kc' & d_old & account & old_key & tmpl & sg & _ & _ & _ & _ & _ & _
          & _ & E1 & _).
    apply sign_request_endpoint_calls in Hs as (c & E & F & L).
    exists c. rewrite E, E1. repeat split; [assumption|lia].
  - apply inner_key_change_inr in Hin
      as (kc' & d_old & account & old_key & tmpl & sg & _ & _ & _ & _ & _ & _
          & _ & E1 & _).
    apply sign_request_endpoint_calls in Hs as (c & E2 & F & L).
    exists (c ++ [EvPost kc jose]). rewrite E, E2, E1, <- app_assoc.
    split; [reflexivity|]. split.
    + apply Forall_app. split; [assumption|].
      constructor; [|constructor]. right. right. eauto.
    + rewrite posts_app, length_app. cbn. lia.
Qed.

End Steps.

Lemma lookup_with_other_status_stops_the_run_witness :
  let W := server directory account_created in
  let C := closure_of directory in
  let signed := _sign_request W C new_account_url old_key lookup_payload
                  false keys_read in
  let jose := match fst signed with inr jose => jose | inl _ => JNull end in
  (identify_account W C ;; roll_over W C) keys_read
  = (inl (ValueError lookup_failed
            [JInt 201; JObj [("status", JStr "valid")]]),
     {| heap := heap (snd signed); nonce := Some "nonce-1";
        sent := sent (snd signed) ++ [EvPost new_account_url jose] |}).
Proof.
  refine (lookup_with_other_status_stops_the_run
            (server directory account_created) (closure_of directory)
            keys_read new_account_url _ _ account_created "nonce-1"
            eq_refl eq_refl eq_refl eq_refl eq_refl _).
  discriminate.
Defined.

Lemma key_change_succeeds_on_200_only_witness :
  let W := server directory account_found in
  let C := closure_of directory in
  let inner := inner_key_change W C kid_known in
  let inner_jws := match fst inner with inr j => j | inl _ => JNull end in
  let signed := _sign_request W C key_change_url old_key inner_jws false
                  (snd inner) in
  let jose := match fst signed with inr jose => jose | inl _ => JNull end in
  roll_over W C kid_known
  = (inr tt,
     {| heap := heap (snd signed); nonce := Some "nonce-2";
        sent := sent (snd signed) ++ [EvPost key_change_url jose] |}).
Proof.
  exact (key_change_succeeds_on_200_only
           (server directory account_found) (closure_of directory)
           kid_known _ _ key_change_url _ _
           (response 200 [("Replay-Nonce", "nonce-2")] None) "nonce-2"
           eq_refl eq_refl eq_refl eq_refl eq_refl eq_refl).
Defined.

Section Whole.
Variable W : world.

(** X12. In a run, a lookup answered with status 200 installs the
    [Location] of the answer it received as [kid] on both signing
    identities, after [alg] and [jwk], which stay as they were. The answer
    is the one the server gives after the two GETs of the run, of the
    directory and of [newNonce]. *)
Theorem lookup_installs_kid_on_both_identities
    old new cfg dir ident_old ident_new st2 :
  private_acme_signature W old = inr ident_old ->
  private_acme_signature W new = inr ident_new ->
  identify_account W (run_closure old new cfg)
    (keys_read_state dir ident_old ident_new) = (inr tt, st2) ->
  exists new_nonce lookup_url lookup_jose lookup location hdr,
    subscript cfg "newNonce" = inr new_nonce /\
    subscript cfg "newAccount" = inr lookup_url /\
    sent st2 = [EvGet (JStr dir); EvGet new_nonce;
                EvPost lookup_url lookup_jose] /\
    post_response W [EvGet (JStr dir); EvGet new_nonce] lookup_url
      lookup_jose = Some lookup /\
    status_code lookup = 200%Z /\
    header_getitem "Location" lookup = inr location /\
    heap st2 = [ident_old ++ [("kid", JStr location)];
                ident_new ++ [("kid", JStr location)]; hdr].
Proof.
  intros Hio Hin H.
  apply (identify_in_run _ _ _ _ _ _ _ _ Hio Hin) in H
    as (nn & na & jose & resp & n & location & hdr & Hnn & Hna & Hpost & Hst
        & _ & Hloc & _ & Hsent & Hheap).
  exists nn, na, jose, resp, location, hdr. auto 10.
Qed.

End Whole.

Lemma lookup_installs_kid_on_both_identities_witness :
  let W := server directory account_found in
  let st2 := snd (identify_account W (run_closure old_key new_key directory)
                    (keys_read_state directory_url old_identity new_identity)) in
  exists new_nonce lookup_url lookup_jose lookup location hdr,
    subscript directory "newNonce" = inr new_nonce /\
    subscript directory "newAccount" = inr lookup_url /\
    sent st2 = [EvGet (JStr directory_url); EvGet new_nonce;
                EvPost lookup_url lookup_jose] /\
    post_response W [EvGet (JStr directory_url); EvGet new_nonce] lookup_url
      lookup_jose = Some lookup /\
    status_code lookup = 200%Z /\
    header_getitem "Location" lookup = inr location /\
    heap st2 = [old_identity ++ [("kid", JStr location)];
                new_identity ++ [("kid", JStr location)]; hdr].
Proof.
  exact (lookup_installs_kid_on_both_identities
           (server directory account_found) old_key new_key directory
           directory_url old_identity new_identity _
           eq_refl eq_refl eq_refl).
Defined.

Section Runs.
Variable W : world.

(** X13. In every run that sends the key-change request, that request is
    the outer JWS: signed by [openssl] with the old key, its header holds
    [alg], the nonce, the [keyChange] URL and, unless that URL is also the
    [newAccount] URL, [kid] (the [Location] of the answer the lookup
    received) in place of [jwk]; its payload encodes the inner JWS, signed
    with the new key. The nonce is the [Replay-Nonce] of the lookup's
    answer, unless that one is empty: then one more nonce is fetched. *)
Theorem key_change_outer_jws old new dir r sF p1 p2 :
  account_rollover W old new dir initial_state = (r, sF) ->
  posts (sent sF) = [p1; p2] ->
  exists rd cfg new_nonce new_account key_change ident_old ident_new
         old_jwk new_jwk,
    requests_get W [] (JStr dir) = Some rd /\
    json_body rd = Some cfg /\
    subscript cfg "newNonce" = inr new_nonce /\
    subscript cfg "newAccount" = inr new_account /\
    subscript cfg "keyChange" = inr key_change /\
    private_acme_signature W old = inr ident_old /\
    dict_get "jwk" ident_old = Some old_jwk /\
    private_acme_signature W new = inr ident_new /\
    dict_get "jwk" ident_new = Some new_jwk /\
    exists lookup_jose lookup kid lookup_nonce n inner inner_payload64
           outer outer_payload64,
      let made := [EvGet (JStr dir); EvGet new_nonce] in
      let hdr :=
        outer_header (py_eq key_change new_account) old_jwk kid n
          key_change in
      p1 = EvPost new_account lookup_jose /\
      post_response W made new_account lookup_jose = Some lookup /\
      header_getitem "Location" lookup = inr kid /\
      header_getitem "Replay-Nonce" lookup = inr lookup_nonce /\
      next_nonce W (made ++ [p1]) new_nonce lookup_nonce n /\
      p2 = EvPost key_change outer /\
      signed_jws W old hdr outer_payload64 outer /\
      json_text_of inner outer_payload64 /\
      signed_jws W new
        [("alg", JStr "RS256"); ("jwk", new_jwk); ("url", key_change)]
        inner_payload64 inner /\
      sent sF = made ++ [p1] ++ refetch lookup_nonce new_nonce ++ [p2] /\
      (py_eq key_change new_account = false ->
       dict_in "kid" hdr = true /\ dict_in "jwk" hdr = false /\
       dict_in "nonce" hdr = true).
Proof.
  intros H Hposts.
  destruct (run_trace W _ _ _ _ _ _ _ H Hposts)
    as (rd & cfg & nn & na & kc & eo & no & en & n' & Hg & Hj & Hnn & Hna
        & Hkc & Hio & Hin & jose1 & lookup & n1 & kid & inner & ip64 & n
        & outer & op64 & Hp1 & Hpost & _ & Hn1 & Hloc & Hinner & _ & Hnext
        & Hp2 & Houter & Htext & Hsent & _).
  exists rd, cfg, nn, na, kc. eexists _, _, _, _.
  do 5 (split; [assumption|]).
  split; [exact Hio|]. split; [reflexivity|].
  split; [exact Hin|]. split; [reflexivity|].
  exists jose1, lookup, kid, n1, n, inner, ip64, outer, op64. cbv zeta.
  do 10 (split; [assumption|]).
  intros Hpy. unfold outer_header. rewrite Hpy. repeat split.
Qed.

(** X14. A run that returns has made exactly two POSTs, the first to the
    [newAccount] URL and the second to the [keyChange] URL; the answers it
    received to them, each given by the server after the calls made before
    it, both have status 200, and the nonce of the second answer is left in
    the nonce variable. *)
Theorem successful_run_made_both_requests old new dir sF :
  account_rollover W old new dir initial_state = (inr tt, sF) ->
  exists rd cfg new_nonce lookup_url key_change,
    requests_get W [] (JStr dir) = Some rd /\
    json_body rd = Some cfg /\
    subscript cfg "newNonce" = inr new_nonce /\
    subscript cfg "newAccount" = inr lookup_url /\
    subscript cfg "keyChange" = inr key_change /\
    exists lookup_jose outer_jose lookup lookup_nonce answer n,
      let made1 := [EvGet (JStr dir); EvGet new_nonce] in
      let made2 :=
        made1 ++ [EvPost lookup_url lookup_jose]
        ++ refetch lookup_nonce new_nonce in
      sent sF = made2 ++ [EvPost key_change outer_jose] /\
      posts (sent sF)
      = [EvPost lookup_url lookup_jose; EvPost key_change outer_jose] /\
      post_response W made1 lookup_url lookup_jose = Some lookup /\
      status_code lookup = 200%Z /\
      header_getitem "Replay-Nonce" lookup = inr lookup_nonce /\
      post_response W made2 key_change outer_jose = Some answer /\
      status_code answer = 200%Z /\
      header_getitem "Replay-Nonce" answer = inr n /\
      nonce sF = Some n.
Proof.
  intros H.
  destruct (returning_run_posts W _ _ _ _ H) as (p1 & p2 & Hposts).
  destruct (run_trace W _ _ _ _ _ _ _ H Hposts)
    as (rd & cfg & nn & na & kc & eo & no & en & n' & Hg & Hj & Hnn & Hna
        & Hkc & _ & _ & jose1 & lookup & n1 & kid & inner & ip64 & n
        & outer & op64 & -> & Hpost & Hst & Hn1 & _ & _ & _ & _
        & -> & _ & _ & Hsent & Hout).
  destruct Hout as [(_ & e & [=])|(answer & n2 & Hp & _ & Hh & Hn & Hr)].
  destruct (status_code answer =? 200)%Z eqn:Hst2; [|discriminate].
  apply Z.eqb_eq in Hst2.
  exists rd, cfg, nn, na, kc. do 5 (split; [assumption|]).
  exists jose1, outer, lookup, n1, answer, n2. cbv zeta.
  split. { rewrite Hsent. cbn [app]. reflexivity. }
  split. { rewrite Hsent, !posts_app, posts_refetch. reflexivity. }
  cbn [app] in Hp |- *. do 6 (split; [assumption|]). assumption.
Qed.

(** X15. A run talks to the directory and to its three endpoints only: its
    first call is the GET of the directory, every later call is a GET on
    [newNonce] or a POST to [newAccount] or [keyChange], and at most two
    POSTs are made. *)
Theorem run_calls_the_directory_and_its_endpoints old new dir r sF :
  account_rollover W old new dir initial_state = (r, sF) ->
  exists calls,
    sent sF = EvGet (JStr dir) :: calls /\
    (length (posts calls) <= 2)%nat /\
    (calls = []
     \/ exists rd cfg,
          requests_get W [] (JStr dir) = Some rd /\
          json_body rd = Some cfg /\
          Forall (endpoint_call cfg) calls).
Proof.
  intros H.
  apply run_prefix in H
    as [(Hsent & _)|(rd & cfg & io & inew & Hg & Hj & Hio & Hin & H)].
  { exists []. split; [assumption|]. split; [cbn; lia|now left]. }
  assert (Hcalls : endpoint_calls_from (run_closure old new cfg)
                     (keys_read_state dir io inew) sF 2).
  { apply bind_inv in H as [(e & H & _)|([] & st2 & H1 & H)].
    - apply identify_endpoint_calls in H as (c & E & F & L).
      exists c. repeat split; [assumption..|lia].
    - apply identify_endpoint_calls in H1.
      apply roll_over_endpoint_calls in H.
      exact (endpoint_calls_trans _ _ _ _ 1 1 H1 H). }
  destruct Hcalls as (calls & E & F & L).
  exists calls. split; [exact E|]. split; [exact L|].
  right. exists rd, cfg. auto.
Qed.

End Runs.

Lemma key_change_outer_jws_witness :
  let W := server directory account_found in
  let run := account_rollover W old_key new_key directory_url initial_state in
  exists rd cfg new_nonce new_account key_change ident_old ident_new
         old_jwk new_jwk,
    requests_get W [] (JStr directory_url) = Some rd /\
    json_body rd = Some cfg /\
    subscript cfg "newNonce" = inr new_nonce /\
    subscript cfg "newAccount" = inr new_account /\
    subscript cfg "keyChange" = inr key_change /\
    private_acme_signature W old_key = inr ident_old /\
    dict_get "jwk" ident_old = Some old_jwk /\
    private_acme_signature W new_key = inr ident_new /\
    dict_get "jwk" ident_new = Some new_jwk /\
    exists lookup_jose lookup kid lookup_nonce n inner inner_payload64
           outer outer_payload64,
      nth 0 (posts (sent (snd run))) (EvGet JNull)
      = EvPost new_account lookup_jose /\
      post_response W [EvGet (JStr directory_url); EvGet new_nonce]
        new_account lookup_jose = Some lookup /\
      header_getitem "Location" lookup = inr kid /\
      header_getitem "Replay-Nonce" lookup = inr lookup_nonce /\
      next_nonce W
        ([EvGet (JStr directory_url); EvGet new_nonce]
         ++ [nth 0 (posts (sent (snd run))) (EvGet JNull)])
        new_nonce lookup_nonce n /\
      nth 1 (posts (sent (snd run))) (EvGet JNull)
      = EvPost key_change outer /\
      signed_jws W old_key
        (outer_header (py_eq key_change new_account) old_jwk kid n
           key_change)
        outer_payload64 outer /\
      json_text_of inner outer_payload64 /\
      signed_jws W new_key
        [("alg", JStr "RS256"); ("jwk", new_jwk); ("url", key_change)]
        inner_payload64 inner /\
      sent (snd run)
      = [EvGet (JStr directory_url); EvGet new_nonce]
        ++ [nth 0 (posts (sent (snd run))) (EvGet JNull)]
        ++ refetch lookup_nonce new_nonce
        ++ [nth 1 (posts (sent (snd run))) (EvGet JNull)] /\
      (py_eq key_change new_account = false ->
       dict_in "kid" (outer_header (py_eq key_change new_account) old_jwk
                        kid n key_change) = true /\
       dict_in "jwk" (outer_header (py_eq key_change new_account) old_jwk
                        kid n key_change) = false /\
       dict_in "nonce" (outer_header (py_eq key_change new_account) old_jwk
                          kid n key_change) = true).
Proof.
  intros W run.
  refine (key_change_outer_jws W old_key new_key directory_url
            (fst run) (snd run)
            (nth 0 (posts (sent (snd run))) (EvGet JNull))
            (nth 1 (posts (sent (snd run))) (EvGet JNull))
            (surjective_pairing run) _).
  vm_compute. reflexivity.
Defined.

Lemma successful_run_made_both_requests_witness :
  let W := server directory account_found in
  let run := account_rollover W old_key new_key directory_url initial_state in
  exists rd cfg new_nonce lookup_url key_change,
    requests_get W [] (JStr directory_url) = Some rd /\
    json_body rd = Some cfg /\
    subscript cfg "newNonce" = inr new_nonce /\
    subscript cfg "newAccount" = inr lookup_url /\
    subscript cfg "keyChange" = inr key_change /\
    exists lookup_jose outer_jose lookup lookup_nonce answer n,
      sent (snd run)
      = ([EvGet (JStr directory_url); EvGet new_nonce]
         ++ [EvPost lookup_url lookup_jose]
         ++ refetch lookup_nonce new_nonce)
        ++ [EvPost key_change outer_jose] /\
      posts (sent (snd run))
      = [EvPost lookup_url lookup_jose; EvPost key_change outer_jose] /\
      post_response W [EvGet (JStr directory_url); EvGet new_nonce]
        lookup_url lookup_jose = Some lookup /\
      status_code lookup = 200%Z /\
      header_getitem "Replay-Nonce" lookup = inr lookup_nonce /\
      post_response W
        ([EvGet (JStr directory_url); EvGet new_nonce]
         ++ [EvPost lookup_url lookup_jose]
         ++ refetch lookup_nonce new_nonce)
        key_change outer_jose = Some answer /\
      status_code answer = 200%Z /\
      header_getitem "Replay-Nonce" answer = inr n /\
      nonce (snd run) = Some n.
Proof.
  intros W run.
  refine (successful_run_made_both_requests W old_key new_key directory_url
            (snd run) _).
  vm_compute. reflexivity.
Defined.

Lemma run_calls_the_directory_and_its_endpoints_witness :
  let W := server directory account_found in
  let run := account_rollover W old_key new_key directory_url initial_state in
  exists calls,
    sent (snd run) = EvGet (JStr directory_url) :: calls /\
    (length (posts calls) <= 2)%nat /\
    (calls = []
     \/ exists rd cfg,
          requests_get W [] (JStr directory_url) = Some rd /\
          json_body rd = Some cfg /\
          Forall (endpoint_call cfg) calls).
Proof.
  intros W run.
  exact (run_calls_the_directory_and_its_endpoints W
           old_key new_key directory_url (fst run) (snd run)
           (surjective_pairing run)).
Defined.

End RunExtras.

